(** * The Janus integrator of REBOUND: a shallow embedding of
    [src/integrator_janus.c] and the properties of its fixed-point
    leapfrog step, time-reversal flip, bootstrap and teardown.

    Layout: the numeric layer (binary64 values, fixed-width integers and
    the conversions between them), the C-level plumbing (an error monad,
    counted loops, arrays behind pointers), the declarations the source
    takes from [rebound.h], the functions of the source file in source
    order, the vocabulary of the statements with the concrete machines
    they are tried on, the lemmas, the claims C1 to C10, and further
    properties of the source file, X1 to X16. *)

From Stdlib Require Import ZArith Lia String Ascii.
From Stdlib Require Import Floats.SpecFloat.
From stdpp Require Import base list.

Local Open Scope Z_scope.

(** ** Binary64 arithmetic

    A C [double] is an IEEE-754 binary64 value; [spec_float] is its
    executable specification (mantissa and exponent as integers, rounding
    to nearest even). *)

Definition double : Type := spec_float.

Definition dprec : Z := 53.
Definition demax : Z := 1024.

Definition dmul (a b : double) : double := SFmul dprec demax a b.
Definition dadd (a b : double) : double := SFadd dprec demax a b.
Definition ddiv (a b : double) : double := SFdiv dprec demax a b.
Definition dneg (a : double) : double := SFopp a.

(** [(double) z] for an integer [z]. *)
Definition double_of_Z (z : Z) : double := binary_normalize dprec demax z 0 false.

(** The literal [2.] *)
Definition d_two : double := Eval vm_compute in double_of_Z 2.

Definition is_zero (a : double) : bool :=
  match a with S754_zero _ => true | _ => false end.

(** The integral part of a finite double, fraction discarded (C11 6.3.1.4:
    truncation toward zero); nothing for NaN and the infinities. *)
Definition trunc_double (a : double) : option Z :=
  match a with
  | S754_zero _ => Some 0
  | S754_finite s m e =>
      let mag := Z.shiftl (Z.pos m) e in
      Some (if s then - mag else mag)
  | S754_infinity _ | S754_nan => None
  end.

(** ** Fixed-width signed integers

    A [bits]-wide two's-complement integer is a [Z] in
    [-2^(bits-1) .. 2^(bits-1) - 1]; arithmetic wraps around. *)

Definition int_min (bits : positive) : Z := - 2 ^ (Z.pos bits - 1).
Definition int_max (bits : positive) : Z := 2 ^ (Z.pos bits - 1) - 1.

Definition in_int_range (bits : positive) (z : Z) : bool :=
  (int_min bits <=? z) && (z <=? int_max bits).

Definition wrap (bits : positive) (z : Z) : Z :=
  (z + 2 ^ (Z.pos bits - 1)) mod 2 ^ Z.pos bits - 2 ^ (Z.pos bits - 1).

(** ** Results of C code

    [Err] stands for an execution the C standard leaves undefined: a null
    or out-of-bounds access, a floating value converted to an integer type
    that cannot hold it, a division by zero (C11 6.5.5p5, read without the
    Annex F exemption so that every division carries its guard). *)

Inductive error : Type :=
  | NullPointer
  | OutOfBounds
  | ConversionRange
  | DivisionByZero.

Inductive result (A : Type) : Type :=
  | Ok (a : A)
  | Err (e : error).
Arguments Ok {A} a.
Arguments Err {A} e.

#[global] Instance result_ret : MRet result := fun A a => Ok a.
#[global] Instance result_bind : MBind result := fun A B f r =>
  match r with Ok a => f a | Err e => Err e end.

(** Conversion of a double to a signed integer type of the given width. *)
Definition double_to_int (bits : positive) (a : double) : result Z :=
  match trunc_double a with
  | Some z => if in_int_range bits z then Ok z else Err ConversionRange
  | None => Err ConversionRange
  end.

(** [a / b] with its guard. *)
Definition ddiv_checked (a b : double) : result double :=
  if is_zero b then Err DivisionByZero else Ok (ddiv a b).

(** [for (i = from; i < from + n; i++) body], threading the loop state. *)
Fixpoint for_from {S : Type} (body : nat -> S -> result S) (from n : nat) (s : S)
  : result S :=
  match n with
  | O => Ok s
  | Datatypes.S n' => s' ← body from s; for_from body (Datatypes.S from) n' s'
  end.

Definition for_loop {S : Type} (n : nat) (body : nat -> S -> result S) (s : S)
  : result S :=
  for_from body 0 n s.

(** An array behind a pointer: [None] is the null pointer. *)
Abbreviation array A := (option (list A)).

Definition load {A : Type} (p : array A) (i : nat) : result A :=
  match p with
  | None => Err NullPointer
  | Some l => match l !! i with Some a => Ok a | None => Err OutOfBounds end
  end.

(** [p[i] = f (p[i])]: an assignment to one or more fields of [p[i]]. *)
Definition store {A : Type} (p : array A) (i : nat) (f : A -> A) : result (array A) :=
  match p with
  | None => Err NullPointer
  | Some l =>
      match l !! i with
      | Some a => Ok (Some (<[i := f a]> l))
      | None => Err OutOfBounds
      end
  end.

(** [memcpy(dst, src, n * sizeof *dst)] between two distinct arrays; a
    copy of zero elements touches nothing. *)
Definition memcpy {A : Type} (dst src : array A) (n : nat) : result (array A) :=
  match n with
  | O => Ok dst
  | _ =>
      match dst, src with
      | Some d, Some s =>
          if (n <=? length d)%nat && (n <=? length s)%nat
          then Ok (Some (take n s ++ drop n d))
          else Err OutOfBounds
      | _, _ => Err NullPointer
      end
  end.

(** [malloc(n * sizeof ...)] and [realloc(p, n * sizeof ...)]: the new
    cells hold the indeterminate value [fresh]; [realloc] keeps the old
    contents up to the new size.  An allocation of zero elements is taken
    as an empty array, and allocation never fails. *)
Definition malloc {A : Type} (fresh : A) (n : nat) : array A :=
  Some (replicate n fresh).

Definition realloc {A : Type} (fresh : A) (p : array A) (n : nat) : array A :=
  match p with
  | None => malloc fresh n
  | Some l => Some (resize n fresh l)
  end.

(** ** Declarations taken from [rebound.h]

    The header is not part of the source file; the structures below carry
    the fields the source file uses. *)

(** Modelled from the spec: [struct reb_particle] of [rebound.h], the real
    particle state: position, velocity and acceleration (three real
    components each) and the mass. *)
Module particle.
Record reb_particle : Type := Build {
    x : double; y : double; z : double;
    vx : double; vy : double; vz : double;
    ax : double; ay : double; az : double;
    m : double }.

Definition set_x (v : double) (p : reb_particle) : reb_particle :=
    Build v (y p) (z p) (vx p) (vy p) (vz p) (ax p) (ay p) (az p) (m p).
Definition set_y (v : double) (p : reb_particle) : reb_particle :=
    Build (x p) v (z p) (vx p) (vy p) (vz p) (ax p) (ay p) (az p) (m p).
Definition set_z (v : double) (p : reb_particle) : reb_particle :=
    Build (x p) (y p) v (vx p) (vy p) (vz p) (ax p) (ay p) (az p) (m p).
Definition set_vx (v : double) (p : reb_particle) : reb_particle :=
    Build (x p) (y p) (z p) v (vy p) (vz p) (ax p) (ay p) (az p) (m p).
Definition set_vy (v : double) (p : reb_particle) : reb_particle :=
    Build (x p) (y p) (z p) (vx p) v (vz p) (ax p) (ay p) (az p) (m p).
Definition set_vz (v : double) (p : reb_particle) : reb_particle :=
    Build (x p) (y p) (z p) (vx p) (vy p) v (ax p) (ay p) (az p) (m p).
End particle.
Abbreviation reb_particle := particle.reb_particle.

(** Modelled from the spec: [struct reb_particle_int] of [rebound.h], the
    fixed-point particle state: position and velocity as signed integers
    of one fixed width (the width is [int_bits] below). *)
Module particle_int.
Record reb_particle_int : Type := Build {
    x : Z; y : Z; z : Z;
    vx : Z; vy : Z; vz : Z }.

Definition set_x (v : Z) (p : reb_particle_int) : reb_particle_int :=
    Build v (y p) (z p) (vx p) (vy p) (vz p).
Definition set_y (v : Z) (p : reb_particle_int) : reb_particle_int :=
    Build (x p) v (z p) (vx p) (vy p) (vz p).
Definition set_z (v : Z) (p : reb_particle_int) : reb_particle_int :=
    Build (x p) (y p) v (vx p) (vy p) (vz p).
Definition set_vx (v : Z) (p : reb_particle_int) : reb_particle_int :=
    Build (x p) (y p) (z p) v (vy p) (vz p).
Definition set_vy (v : Z) (p : reb_particle_int) : reb_particle_int :=
    Build (x p) (y p) (z p) (vx p) v (vz p).
Definition set_vz (v : Z) (p : reb_particle_int) : reb_particle_int :=
    Build (x p) (y p) (z p) (vx p) (vy p) v.
End particle_int.
Abbreviation reb_particle_int := particle_int.reb_particle_int.

(** Modelled from the spec: [struct reb_simulation_integrator_janus], the
    integrator instance: the scale, the particle count the buffers are
    sized for, and the four generation buffers ([p_prevrecalc] is the
    scratch buffer). *)
Module janus.
Record reb_simulation_integrator_janus : Type := Build {
    scale : double;
    allocated_N : nat;
    p_prev : array reb_particle_int;
    p_curr : array reb_particle_int;
    p_next : array reb_particle_int;
    p_prevrecalc : array reb_particle_int }.

Definition set_allocated_N (v : nat) (j : reb_simulation_integrator_janus) :=
    Build (scale j) v (p_prev j) (p_curr j) (p_next j) (p_prevrecalc j).
Definition set_p_prev (v : array reb_particle_int) (j : reb_simulation_integrator_janus) :=
    Build (scale j) (allocated_N j) v (p_curr j) (p_next j) (p_prevrecalc j).
Definition set_p_curr (v : array reb_particle_int) (j : reb_simulation_integrator_janus) :=
    Build (scale j) (allocated_N j) (p_prev j) v (p_next j) (p_prevrecalc j).
Definition set_p_next (v : array reb_particle_int) (j : reb_simulation_integrator_janus) :=
    Build (scale j) (allocated_N j) (p_prev j) (p_curr j) v (p_prevrecalc j).
Definition set_p_prevrecalc (v : array reb_particle_int) (j : reb_simulation_integrator_janus) :=
    Build (scale j) (allocated_N j) (p_prev j) (p_curr j) (p_next j) v.
End janus.
Abbreviation reb_simulation_integrator_janus := janus.reb_simulation_integrator_janus.

(** Modelled from the spec: [struct reb_simulation], the host simulation
    context: current time, signed timestep, particle count, particle
    array, integrator selector, run status, the set of ignored gravity
    terms, and the Janus instance.  The selector and the status are C
    enumerations, that is integers. *)
Module sim.
Record reb_simulation : Type := Build {
    t : double;
    dt : double;
    N : nat;
    particles : array reb_particle;
    integrator : Z;
    status : Z;
    gravity_ignore_terms : Z;
    ri_janus : reb_simulation_integrator_janus }.

Definition set_t (v : double) (r : reb_simulation) :=
    Build v (dt r) (N r) (particles r) (integrator r) (status r)
          (gravity_ignore_terms r) (ri_janus r).
Definition set_dt (v : double) (r : reb_simulation) :=
    Build (t r) v (N r) (particles r) (integrator r) (status r)
          (gravity_ignore_terms r) (ri_janus r).
Definition set_particles (v : array reb_particle) (r : reb_simulation) :=
    Build (t r) (dt r) (N r) v (integrator r) (status r)
          (gravity_ignore_terms r) (ri_janus r).
Definition set_integrator (v : Z) (r : reb_simulation) :=
    Build (t r) (dt r) (N r) (particles r) v (status r)
          (gravity_ignore_terms r) (ri_janus r).
Definition set_status (v : Z) (r : reb_simulation) :=
    Build (t r) (dt r) (N r) (particles r) (integrator r) v
          (gravity_ignore_terms r) (ri_janus r).
Definition set_gravity_ignore_terms (v : Z) (r : reb_simulation) :=
    Build (t r) (dt r) (N r) (particles r) (integrator r) (status r)
          v (ri_janus r).
Definition set_ri_janus (v : reb_simulation_integrator_janus) (r : reb_simulation) :=
    Build (t r) (dt r) (N r) (particles r) (integrator r) (status r)
          (gravity_ignore_terms r) v.
End sim.
Abbreviation reb_simulation := sim.reb_simulation.

(** What the source file takes from the rest of REBOUND and from the
    platform: the width of the integer fields of [reb_particle_int], the
    enumeration constants it assigns, the contents of freshly allocated
    storage, and the two external collaborators it calls, each of which
    receives the whole simulation and may change any of it. *)
Class rebound : Type := {
  int_bits : positive;
  REB_RUNNING : Z;
  REB_INTEGRATOR_WHFAST : Z;
  REB_INTEGRATOR_JANUS : Z;
  fresh_particle : reb_particle;
  fresh_particle_int : reb_particle_int;
  reb_step : reb_simulation -> reb_simulation;
  reb_update_acceleration : reb_simulation -> reb_simulation }.

(** What a run leaves behind besides the simulation: the lines printed and
    the calls made to the external collaborators, in order. *)
Inductive event : Type :=
  | Ev_printf (s : string)
  | Ev_reb_step
  | Ev_reb_update_acceleration.

Record machine : Type := Machine {
  simulation : reb_simulation;
  trace : list event }.

Definition with_sim (f : reb_simulation -> reb_simulation) (m : machine) : machine :=
  Machine (f (simulation m)) (trace m).

Definition with_janus
  (f : reb_simulation_integrator_janus -> reb_simulation_integrator_janus)
  (m : machine) : machine :=
  with_sim (fun r => sim.set_ri_janus (f (sim.ri_janus r)) r) m.

Definition emit (e : event) (m : machine) : machine :=
  Machine (simulation m) (trace m ++ [e]).

Definition the_janus (m : machine) : reb_simulation_integrator_janus :=
  sim.ri_janus (simulation m).

Definition Realloc_line : string := "Realloc" ++ String (ascii_of_nat 10) EmptyString.

(** ** The source file, function by function *)

Section Janus.
Context `{rebound}.

(** Arithmetic on the integer fields of [reb_particle_int]: operands of
    the storage type give a result of the storage type. *)
Definition int_neg (a : Z) : Z := wrap int_bits (- a).
Definition int_add (a b : Z) : Z := wrap int_bits (a + b).
Definition int_sub (a b : Z) : Z := wrap int_bits (a - b).
Definition int_mul (a b : Z) : Z := wrap int_bits (a * b).

(** The sum of a storage-type value and an [__int128] is computed in the
    wider of the two types. *)
Definition wide_bits : positive := Pos.max int_bits 128.
Definition wide_add (a b : Z) : Z := wrap wide_bits (a + b).

(** Assignment to a field of the storage type. *)
Definition narrow (a : Z) : Z := wrap int_bits a.

(** [to_int], lines 43-52: the loop body, then the loop. *)
Definition to_int_body (ps : array reb_particle) (int_scale : double)
  (i : nat) (psi : array reb_particle_int) : result (array reb_particle_int) :=
  p ← load ps i;
  v ← double_to_int int_bits (dmul (particle.x p) int_scale);
  psi ← store psi i (particle_int.set_x v);
  v ← double_to_int int_bits (dmul (particle.y p) int_scale);
  psi ← store psi i (particle_int.set_y v);
  v ← double_to_int int_bits (dmul (particle.z p) int_scale);
  psi ← store psi i (particle_int.set_z v);
  v ← double_to_int int_bits (dmul (particle.vx p) int_scale);
  psi ← store psi i (particle_int.set_vx v);
  v ← double_to_int int_bits (dmul (particle.vy p) int_scale);
  psi ← store psi i (particle_int.set_vy v);
  v ← double_to_int int_bits (dmul (particle.vz p) int_scale);
  store psi i (particle_int.set_vz v).

Definition to_int (psi : array reb_particle_int) (ps : array reb_particle)
  (N : nat) (int_scale : double) : result (array reb_particle_int) :=
  for_loop N (to_int_body ps int_scale) psi.

(** [to_double], lines 53-59: the loop body, then the loop. *)
Definition to_double_body (psi : array reb_particle_int) (int_scale : double)
  (i : nat) (ps : array reb_particle) : result (array reb_particle) :=
  q ← load psi i;
  v ← ddiv_checked (double_of_Z (particle_int.x q)) int_scale;
  ps ← store ps i (particle.set_x v);
  v ← ddiv_checked (double_of_Z (particle_int.y q)) int_scale;
  ps ← store ps i (particle.set_y v);
  v ← ddiv_checked (double_of_Z (particle_int.z q)) int_scale;
  store ps i (particle.set_z v).

Definition to_double (ps : array reb_particle) (psi : array reb_particle_int)
  (N : nat) (int_scale : double) : result (array reb_particle) :=
  for_loop N (to_double_body psi int_scale) ps.

(** Bootstrap: the body of the [if] of lines 67-89.  [t], [dt], [N] and
    [int_scale] are the locals read at lines 63-66. *)
Definition janus_bootstrap (t dt : double) (N : nat) (int_scale : double)
  (m : machine) : result machine :=
  let m := emit (Ev_printf Realloc_line) m in
  let orig := malloc fresh_particle (sim.N (simulation m)) in
  let m := with_janus (janus.set_allocated_N N) m in
  let m := with_janus (fun j =>
    janus.set_p_prev (realloc fresh_particle_int (janus.p_prev j) N) j) m in
  let m := with_janus (fun j =>
    janus.set_p_next (realloc fresh_particle_int (janus.p_next j) N) j) m in
  let m := with_janus (fun j =>
    janus.set_p_prevrecalc (realloc fresh_particle_int (janus.p_prevrecalc j) N) j) m in
  let m := with_janus (fun j =>
    janus.set_p_curr (realloc fresh_particle_int (janus.p_curr j) N) j) m in
  orig ← memcpy orig (sim.particles (simulation m)) N;
  curr ← to_int (janus.p_curr (the_janus m)) (sim.particles (simulation m)) N int_scale;
  let m := with_janus (janus.set_p_curr curr) m in
  let m := with_sim (sim.set_integrator REB_INTEGRATOR_WHFAST) m in
  let m := with_sim (sim.set_dt (dneg dt)) m in
  let m := with_sim reb_step (emit Ev_reb_step m) in
  prev ← to_int (janus.p_prev (the_janus m)) (sim.particles (simulation m)) N int_scale;
  let m := with_janus (janus.set_p_prev prev) m in
  let m := with_sim (sim.set_status REB_RUNNING) m in
  let m := with_sim (sim.set_t t) m in
  let m := with_sim (sim.set_dt dt) m in
  let m := with_sim (sim.set_integrator REB_INTEGRATOR_JANUS) m in
  ps ← memcpy (sim.particles (simulation m)) orig N;
  Ok (with_sim (sim.set_particles ps) m).

(** One coordinate of line 96: [-prev + 2*curr + (__int128) forcing]. *)
Definition next_coordinate (prev curr forcing : Z) : Z :=
  narrow (wide_add (int_add (int_neg prev) (int_mul 2 curr)) forcing).

(** The forcing term of line 96 as a double: [int_scale*dt*dt*a]. *)
Definition forcing_term (int_scale dt a : double) : double :=
  dmul (dmul (dmul int_scale dt) dt) a.

(** The integer update, lines 95-99: the loop body, then the loop. *)
Definition janus_update_body (int_scale dt : double)
  (p_prev p_curr : array reb_particle_int) (ps : array reb_particle)
  (i : nat) (p_next : array reb_particle_int) : result (array reb_particle_int) :=
  prev ← load p_prev i;
  curr ← load p_curr i;
  p ← load ps i;
  f ← double_to_int 128 (forcing_term int_scale dt (particle.ax p));
  p_next ← store p_next i
    (particle_int.set_x (next_coordinate (particle_int.x prev) (particle_int.x curr) f));
  f ← double_to_int 128 (forcing_term int_scale dt (particle.ay p));
  p_next ← store p_next i
    (particle_int.set_y (next_coordinate (particle_int.y prev) (particle_int.y curr) f));
  f ← double_to_int 128 (forcing_term int_scale dt (particle.az p));
  store p_next i
    (particle_int.set_z (next_coordinate (particle_int.z prev) (particle_int.z curr) f)).

Definition janus_update (int_scale dt : double) (N : nat)
  (p_prev p_curr : array reb_particle_int) (ps : array reb_particle)
  (p_next : array reb_particle_int) : result (array reb_particle_int) :=
  for_loop N (janus_update_body int_scale dt p_prev p_curr ps) p_next.

(** One coordinate of line 101: [((double)(next - prev))/int_scale/2./dt]. *)
Definition central_difference (next prev : Z) (int_scale dt : double) : result double :=
  v ← ddiv_checked (double_of_Z (int_sub next prev)) int_scale;
  v ← ddiv_checked v d_two;
  ddiv_checked v dt.

(** The velocity reconstruction, lines 100-104: the loop body, then the
    loop. *)
Definition janus_velocities_body (int_scale dt : double)
  (p_next p_prev : array reb_particle_int)
  (i : nat) (ps : array reb_particle) : result (array reb_particle) :=
  next ← load p_next i;
  prev ← load p_prev i;
  v ← central_difference (particle_int.x next) (particle_int.x prev) int_scale dt;
  ps ← store ps i (particle.set_vx v);
  v ← central_difference (particle_int.y next) (particle_int.y prev) int_scale dt;
  ps ← store ps i (particle.set_vy v);
  v ← central_difference (particle_int.z next) (particle_int.z prev) int_scale dt;
  store ps i (particle.set_vz v).

Definition janus_velocities (int_scale dt : double) (N : nat)
  (p_next p_prev : array reb_particle_int) (ps : array reb_particle)
  : result (array reb_particle) :=
  for_loop N (janus_velocities_body int_scale dt p_next p_prev) ps.

(** The core step: lines 90-109, after the bootstrap test. *)
Definition janus_core (dt : double) (N : nat) (int_scale : double)
  (m : machine) : result machine :=
  ps ← to_double (sim.particles (simulation m)) (janus.p_curr (the_janus m)) N int_scale;
  let m := with_sim (sim.set_particles ps) m in
  let m := with_sim (sim.set_gravity_ignore_terms 0) m in
  let m := with_sim reb_update_acceleration (emit Ev_reb_update_acceleration m) in
  next ← janus_update int_scale dt N (janus.p_prev (the_janus m))
           (janus.p_curr (the_janus m)) (sim.particles (simulation m))
           (janus.p_next (the_janus m));
  let m := with_janus (janus.set_p_next next) m in
  ps ← janus_velocities int_scale dt N (janus.p_next (the_janus m))
         (janus.p_prev (the_janus m)) (sim.particles (simulation m));
  let m := with_sim (sim.set_particles ps) m in
  prev ← memcpy (janus.p_prev (the_janus m)) (janus.p_curr (the_janus m)) N;
  let m := with_janus (janus.set_p_prev prev) m in
  curr ← memcpy (janus.p_curr (the_janus m)) (janus.p_next (the_janus m)) N;
  let m := with_janus (janus.set_p_curr curr) m in
  Ok (with_sim (fun r => sim.set_t (dadd (sim.t r) dt) r) m).

(** [reb_integrator_janus_part1], lines 61-110. *)
Definition reb_integrator_janus_part1 (m : machine) : result machine :=
  let r := simulation m in
  let t := sim.t r in
  let dt := sim.dt r in
  let N := sim.N r in
  let int_scale := janus.scale (sim.ri_janus r) in
  m ← (if negb (janus.allocated_N (sim.ri_janus r) =? N)%nat
       then janus_bootstrap t dt N int_scale m
       else Ok m);
  janus_core dt N int_scale m.

(** [reb_integrator_janus_flip], lines 111-117. *)
Definition reb_integrator_janus_flip (m : machine) : result machine :=
  let N := sim.N (simulation m) in
  scratch ← memcpy (janus.p_prevrecalc (the_janus m)) (janus.p_curr (the_janus m)) N;
  let m := with_janus (janus.set_p_prevrecalc scratch) m in
  curr ← memcpy (janus.p_curr (the_janus m)) (janus.p_prev (the_janus m)) N;
  let m := with_janus (janus.set_p_curr curr) m in
  prev ← memcpy (janus.p_prev (the_janus m)) (janus.p_prevrecalc (the_janus m)) N;
  Ok (with_janus (janus.set_p_prev prev) m).

(** [reb_integrator_janus_part2] and [reb_integrator_janus_synchronize],
    lines 119-122: empty bodies. *)
Definition reb_integrator_janus_part2 (m : machine) : result machine := Ok m.
Definition reb_integrator_janus_synchronize (m : machine) : result machine := Ok m.

(** [free(p); p = NULL;] under [if (p)]. *)
Definition free_and_clear {A : Type} (p : array A) : array A :=
  match p with
  | Some _ => None
  | None => None
  end.

(** [reb_integrator_janus_reset], lines 123-138. *)
Definition reb_integrator_janus_reset (m : machine) : result machine :=
  let m := with_janus (janus.set_allocated_N 0) m in
  let m := with_janus (fun j => janus.set_p_prev (free_and_clear (janus.p_prev j)) j) m in
  let m := with_janus (fun j =>
    janus.set_p_prevrecalc (free_and_clear (janus.p_prevrecalc j)) j) m in
  let m := with_janus (fun j => janus.set_p_curr (free_and_clear (janus.p_curr j)) j) m in
  Ok m.

(** [k] calls of the step in a row, as the host driver makes them. *)
Fixpoint janus_steps (k : nat) (m : machine) : result machine :=
  match k with
  | O => Ok m
  | S k' => m' ← reb_integrator_janus_part1 m; janus_steps k' m'
  end.

(** The host negates its timestep: [r->dt = -r->dt]. *)
Definition negate_dt (m : machine) : machine :=
  with_sim (fun r => sim.set_dt (dneg (sim.dt r)) r) m.

End Janus.

(** ** What each loop does to one element

    Every loop of the source file rewrites element [i] of one array from
    element [i] of the others.  The functions below give the new element;
    the lemmas relate each loop to its element function. *)

Section Elements.
Context `{rebound}.

(** Lines 45-50: all six fields are assigned. *)
Definition to_int_element (ps : array reb_particle) (int_scale : double)
  (i : nat) (old : reb_particle_int) : result reb_particle_int :=
  p ← load ps i;
  x ← double_to_int int_bits (dmul (particle.x p) int_scale);
  y ← double_to_int int_bits (dmul (particle.y p) int_scale);
  z ← double_to_int int_bits (dmul (particle.z p) int_scale);
  vx ← double_to_int int_bits (dmul (particle.vx p) int_scale);
  vy ← double_to_int int_bits (dmul (particle.vy p) int_scale);
  vz ← double_to_int int_bits (dmul (particle.vz p) int_scale);
  Ok (particle_int.Build x y z vx vy vz).

(** Lines 55-57: the position fields are assigned. *)
Definition to_double_element (psi : array reb_particle_int) (int_scale : double)
  (i : nat) (old : reb_particle) : result reb_particle :=
  q ← load psi i;
  x ← ddiv_checked (double_of_Z (particle_int.x q)) int_scale;
  y ← ddiv_checked (double_of_Z (particle_int.y q)) int_scale;
  z ← ddiv_checked (double_of_Z (particle_int.z q)) int_scale;
  Ok (particle.set_z z (particle.set_y y (particle.set_x x old))).

(** Lines 96-98: the position fields of [p_next[i]] are assigned. *)
Definition update_element (int_scale dt : double)
  (p_prev p_curr : array reb_particle_int) (ps : array reb_particle)
  (i : nat) (old : reb_particle_int) : result reb_particle_int :=
  prev ← load p_prev i;
  curr ← load p_curr i;
  p ← load ps i;
  fx ← double_to_int 128 (forcing_term int_scale dt (particle.ax p));
  fy ← double_to_int 128 (forcing_term int_scale dt (particle.ay p));
  fz ← double_to_int 128 (forcing_term int_scale dt (particle.az p));
  Ok (particle_int.set_z (next_coordinate (particle_int.z prev) (particle_int.z curr) fz)
     (particle_int.set_y (next_coordinate (particle_int.y prev) (particle_int.y curr) fy)
     (particle_int.set_x (next_coordinate (particle_int.x prev) (particle_int.x curr) fx)
        old))).

(** Lines 101-103: the velocity fields of [particles[i]] are assigned. *)
Definition velocity_element (int_scale dt : double)
  (p_next p_prev : array reb_particle_int)
  (i : nat) (old : reb_particle) : result reb_particle :=
  next ← load p_next i;
  prev ← load p_prev i;
  vx ← central_difference (particle_int.x next) (particle_int.x prev) int_scale dt;
  vy ← central_difference (particle_int.y next) (particle_int.y prev) int_scale dt;
  vz ← central_difference (particle_int.z next) (particle_int.z prev) int_scale dt;
  Ok (particle.set_vz vz (particle.set_vy vy (particle.set_vx vx old))).
End Elements.

(** A loop body that rewrites element [i] of its array to [g i] of the
    old element, and fails when [g i] does. *)
Definition rewrites_element {A : Type}
  (body : nat -> array A -> result (array A)) (g : nat -> A -> result A) : Prop :=
  forall i l r,
    body i (Some l) = Ok r <->
    exists a a', l !! i = Some a /\ g i a = Ok a' /\ r = Some (<[i := a']> l).

(** ** Vocabulary of the statements *)

(** An allocated array of exactly [n] elements. *)
Definition has_length {A : Type} (n : nat) (p : array A) : bool :=
  match p with
  | Some l => (length l =? n)%nat
  | None => false
  end.

(** The integer position held by one element of a generation buffer, and
    the positions held by a buffer. *)
Definition position (q : reb_particle_int) : Z * Z * Z :=
  (particle_int.x q, particle_int.y q, particle_int.z q).

Definition positions (p : array reb_particle_int) : option (list (Z * Z * Z)) :=
  fmap (M := list) position <$> p.

(** What the force evaluator reads of a particle (position and mass) and
    what it writes (acceleration). *)
Definition source (p : reb_particle) : double * double * double * double :=
  (particle.x p, particle.y p, particle.z p, particle.m p).

Definition acceleration (p : reb_particle) : double * double * double :=
  (particle.ax p, particle.ay p, particle.az p).

Definition sources (ps : array reb_particle) : option (list (double * double * double * double)) :=
  fmap (M := list) source <$> ps.

Definition accelerations (ps : array reb_particle) : option (list (double * double * double)) :=
  fmap (M := list) acceleration <$> ps.

Definition masses (ps : array reb_particle) : option (list double) :=
  fmap (M := list) particle.m <$> ps.

(** The difference between two runs of the integer update that start from
    different [prev] generations: [n + pa - pb], in the storage type. *)
Definition shift_coordinate (bits : positive) (n pa pb : Z) : Z :=
  wrap bits (n + pa - pb).

Definition shift_position (bits : positive) (n pa pb : Z * Z * Z) : Z * Z * Z :=
  (shift_coordinate bits n.1.1 pa.1.1 pb.1.1,
   shift_coordinate bits n.1.2 pa.1.2 pb.1.2,
   shift_coordinate bits n.2 pa.2 pb.2).

Definition position_in_range (bits : positive) (v : Z * Z * Z) : bool :=
  in_int_range bits v.1.1 && in_int_range bits v.1.2 && in_int_range bits v.2.

Definition positions_in_range (bits : positive) (p : array reb_particle_int) : bool :=
  match p with
  | Some l => forallb (fun q => position_in_range bits (position q)) l
  | None => true
  end.

Section Vocabulary.
Context `{rebound}.

(** The state between two steps of an epoch: the buffers are sized for
    the host's particle count, the particle array holds that many
    particles, and the positions of the two history generations are
    values of the storage type. *)
Definition janus_ready (r : reb_simulation) : bool :=
  let j := sim.ri_janus r in
  let n := sim.N r in
  (janus.allocated_N j =? n)%nat
  && has_length n (janus.p_prev j) && has_length n (janus.p_curr j)
  && has_length n (janus.p_next j) && has_length n (janus.p_prevrecalc j)
  && has_length n (sim.particles r)
  && positions_in_range int_bits (janus.p_prev j)
  && positions_in_range int_bits (janus.p_curr j).

(** What the flip needs: the two history generations and the scratch
    buffer populated for the host's particle count. *)
Definition flip_ready (r : reb_simulation) : bool :=
  let j := sim.ri_janus r in
  let n := sim.N r in
  has_length n (janus.p_prev j) && has_length n (janus.p_curr j)
  && has_length n (janus.p_prevrecalc j).

(** The force evaluator does what it is called for and nothing else to
    the fields the step reads afterwards: the particle count, the
    timestep and the Janus instance are left alone and the particle
    array keeps its size. *)
Record evaluator_frame : Prop := {
  frame_N : forall r, sim.N (reb_update_acceleration r) = sim.N r;
  frame_dt : forall r, sim.dt (reb_update_acceleration r) = sim.dt r;
  frame_janus : forall r, sim.ri_janus (reb_update_acceleration r) = sim.ri_janus r;
  frame_particles : forall r n,
    has_length n (sim.particles r) = true ->
    has_length n (sim.particles (reb_update_acceleration r)) = true }.

(** The force evaluator as the reversibility argument needs it: besides
    the frame, it keeps the masses, and the accelerations it writes are
    determined by the positions and masses it is given, so that a
    revisited configuration gets the same accelerations. *)
Record acceleration_by_position : Prop := {
  acc_frame : evaluator_frame;
  acc_masses : forall r,
    masses (sim.particles (reb_update_acceleration r)) = masses (sim.particles r);
  acc_function : forall r1 r2,
    sources (sim.particles r1) = sources (sim.particles r2) ->
    accelerations (sim.particles (reb_update_acceleration r1)) =
    accelerations (sim.particles (reb_update_acceleration r2)) }.
End Vocabulary.

(** Lines 55-57 on one particle: the position decoded from a fixed-point
    element. *)
Definition decode_position (int_scale : double) (q : reb_particle_int)
  (old : reb_particle) : reb_particle :=
  particle.set_z (ddiv (double_of_Z (particle_int.z q)) int_scale)
    (particle.set_y (ddiv (double_of_Z (particle_int.y q)) int_scale)
       (particle.set_x (ddiv (double_of_Z (particle_int.x q)) int_scale) old)).

Section CoreStages.
Context `{rebound}.

(** The simulation as the force evaluator returns it in a core step whose
    decode produced [ps]. *)
Definition evaluated (ps : array reb_particle) (r : reb_simulation) : reb_simulation :=
  reb_update_acceleration (sim.set_gravity_ignore_terms 0 (sim.set_particles ps r)).

(** The machine a core step leaves, from the results of its stages. *)
Definition janus_core_result (dt : double) (m : machine)
  (ps1 : array reb_particle) (next : array reb_particle_int)
  (ps2 : array reb_particle) (prev curr : array reb_particle_int) : machine :=
  let m := with_sim (sim.set_particles ps1) m in
  let m := with_sim (sim.set_gravity_ignore_terms 0) m in
  let m := with_sim reb_update_acceleration (emit Ev_reb_update_acceleration m) in
  let m := with_janus (janus.set_p_next next) m in
  let m := with_sim (sim.set_particles ps2) m in
  let m := with_janus (janus.set_p_prev prev) m in
  let m := with_janus (janus.set_p_curr curr) m in
  with_sim (fun r => sim.set_t (dadd (sim.t r) dt) r) m.
End CoreStages.
Arguments evaluated {_} ps r : simpl never.

(** One step taken inside an epoch: the machine is ready again, the
    particle count, the scale, the timestep and the masses are kept, and
    the old [curr] generation has become [prev]. *)
Definition epoch_step `{rebound} (m m' : machine) : Prop :=
  janus_ready (simulation m') = true /\
  sim.N (simulation m') = sim.N (simulation m) /\
  janus.scale (the_janus m') = janus.scale (the_janus m) /\
  sim.dt (simulation m') = sim.dt (simulation m) /\
  masses (sim.particles (simulation m')) = masses (sim.particles (simulation m)) /\
  janus.p_prev (the_janus m') = janus.p_curr (the_janus m).

(** ** Concrete hosts and machines

    A host whose force evaluator applies a force field (the acceleration
    of a particle is a function of its own position and mass) and whose
    companion scheme lets the particles drift freely for one timestep.
    The storage type is 64 bits wide and the enumeration constants take
    the sample values -1, 1 and 8. *)

Definition d_zero : double := S754_zero false.
Definition d_one : double := Eval vm_compute in double_of_Z 1.

Definition set_acceleration (a : double * double * double) (p : reb_particle)
  : reb_particle :=
  particle.Build (particle.x p) (particle.y p) (particle.z p)
    (particle.vx p) (particle.vy p) (particle.vz p) a.1.1 a.1.2 a.2 (particle.m p).

Definition force_field_evaluator
  (f : double * double * double * double -> double * double * double)
  (r : reb_simulation) : reb_simulation :=
  sim.set_particles
    (fmap (M := list) (fun p => set_acceleration (f (source p)) p) <$> sim.particles r) r.

Definition drift_particle (dt : double) (p : reb_particle) : reb_particle :=
  particle.set_z (dadd (particle.z p) (dmul (particle.vz p) dt))
    (particle.set_y (dadd (particle.y p) (dmul (particle.vy p) dt))
       (particle.set_x (dadd (particle.x p) (dmul (particle.vx p) dt)) p)).

Definition drift_step (r : reb_simulation) : reb_simulation :=
  sim.set_t (dadd (sim.t r) (sim.dt r))
    (sim.set_particles (fmap (M := list) (drift_particle (sim.dt r)) <$> sim.particles r) r).

Definition zero_particle : reb_particle :=
  particle.Build d_zero d_zero d_zero d_zero d_zero d_zero d_zero d_zero d_zero d_zero.

Definition zero_particle_int : reb_particle_int := particle_int.Build 0 0 0 0 0 0.

Definition test_host
  (f : double * double * double * double -> double * double * double) : rebound :=
  {| int_bits := 64;
     REB_RUNNING := -1;
     REB_INTEGRATOR_WHFAST := 1;
     REB_INTEGRATOR_JANUS := 8;
     fresh_particle := zero_particle;
     fresh_particle_int := zero_particle_int;
     reb_step := drift_step;
     reb_update_acceleration := force_field_evaluator f |}.

(** A harmonic well: the acceleration is the position negated. *)
Definition harmonic_field (s : double * double * double * double)
  : double * double * double :=
  (dneg s.1.1.1, dneg s.1.1.2, dneg s.1.2).

(** No force. *)
Definition free_field (s : double * double * double * double)
  : double * double * double :=
  (d_zero, d_zero, d_zero).

(** Two particles in the harmonic well, two generations of history, scale
    [2^20] and timestep [1/16]. *)
Definition harmonic_machine : machine :=
  let scale := double_of_Z 1048576 in
  let dt := ddiv d_one (double_of_Z 16) in
  let prev := [particle_int.Build 1048576 0 0 0 0 0;
               particle_int.Build (-2097152) 524288 7 0 0 0] in
  let curr := [particle_int.Build 1048000 65536 0 0 0 0;
               particle_int.Build (-2090000) 530000 (-3) 0 0 0] in
  let blank := [zero_particle_int; zero_particle_int] in
  let ps := [particle.Build d_zero d_zero d_zero d_zero d_zero d_zero
               d_zero d_zero d_zero d_one;
             particle.Build d_zero d_zero d_zero d_zero d_zero d_zero
               d_zero d_zero d_zero d_one] in
  Machine
    (sim.Build d_zero dt 2 (Some ps) 8 (-1) 0
       (janus.Build scale 2 (Some prev) (Some curr) (Some blank) (Some blank)))
    [].

(** The machine a run leaves, for runs known to complete. *)
Definition run_result (r : result machine) (otherwise : machine) : machine :=
  match r with
  | Ok m => m
  | Err _ => otherwise
  end.

Definition harmonic_after_5 : machine :=
  Eval vm_compute in
    run_result (janus_steps (H := test_host harmonic_field) 5 harmonic_machine)
      harmonic_machine.

(** ** Vocabulary of the free-motion, bootstrap-count and rounding
    statements *)

(** The evaluator reports no force. *)
Definition acceleration_is_zero (p : reb_particle) : bool :=
  is_zero (particle.ax p) && is_zero (particle.ay p) && is_zero (particle.az p).

Definition force_free `{rebound} : Prop :=
  forall r ps,
    sim.particles (reb_update_acceleration r) = Some ps ->
    forallb acceleration_is_zero ps = true.

(** The factor [scale*dt*dt] of the forcing term is a number: a zero or a
    finite double. *)
Definition forcing_scale_finite (int_scale dt : double) : bool :=
  match dmul (dmul int_scale dt) dt with
  | S754_zero _ | S754_finite _ _ _ => true
  | S754_infinity _ | S754_nan => false
  end.

(** Exact linear motion on the integer lattice: from [curr], [n] times the
    increment [curr - prev]; and the same read in the storage type. *)
Definition linear_position (c p : Z * Z * Z) (n : Z) : Z * Z * Z :=
  (c.1.1 + n * (c.1.1 - p.1.1), c.1.2 + n * (c.1.2 - p.1.2), c.2 + n * (c.2 - p.2)).

Definition wrap_position (bits : positive) (v : Z * Z * Z) : Z * Z * Z :=
  (wrap bits v.1.1, wrap bits v.1.2, wrap bits v.2).

(** Counting bootstraps in a trace: the line the bootstrap prints, and the
    calls of the companion scheme's step. *)
Definition is_realloc_line (e : event) : bool :=
  match e with
  | Ev_printf s => String.eqb s Realloc_line
  | _ => false
  end.

Definition is_probe_step (e : event) : bool :=
  match e with
  | Ev_reb_step => true
  | _ => false
  end.

Definition bootstraps (tr : list event) : nat := length (List.filter is_realloc_line tr).
Definition probe_steps (tr : list event) : nat := length (List.filter is_probe_step tr).

(** The external collaborators leave the particle count and the stored
    count alone. *)
Record count_unchanged `{rebound} : Prop := {
  step_N : forall r, sim.N (reb_step r) = sim.N r;
  step_allocated_N : forall r,
    janus.allocated_N (sim.ri_janus (reb_step r)) = janus.allocated_N (sim.ri_janus r);
  evaluator_N : forall r, sim.N (reb_update_acceleration r) = sim.N r;
  evaluator_allocated_N : forall r,
    janus.allocated_N (sim.ri_janus (reb_update_acceleration r))
    = janus.allocated_N (sim.ri_janus r) }.

(** The number of bootstraps a step from [r] owes: one when the stored
    count differs from the host's, none otherwise. *)
Definition bootstrap_due (r : reb_simulation) : nat :=
  if (janus.allocated_N (sim.ri_janus r) =? sim.N r)%nat then 0%nat else 1%nat.

(** The free particle of the spec's scenario after its bootstrap: position
    (1,0,0), velocity (0,1,0), timestep 0.01, scale 10^6. *)
Definition free_machine : machine :=
  let scale := double_of_Z 1000000 in
  let dt := ddiv d_one (double_of_Z 100) in
  let prev := [particle_int.Build 1000000 (-10000) 0 0 1000000 0] in
  let curr := [particle_int.Build 1000000 0 0 0 1000000 0] in
  let ps := [particle.Build d_one d_zero d_zero d_zero d_one d_zero
               d_zero d_zero d_zero d_one] in
  Machine
    (sim.Build d_zero dt 1 (Some ps) 8 (-1) 0
       (janus.Build scale 1 (Some prev) (Some curr) (Some [zero_particle_int])
          (Some [zero_particle_int])))
    [].

Definition free_after_100 : machine :=
  Eval vm_compute in
    run_result (janus_steps (H := test_host free_field) 100 free_machine) free_machine.

(** The free particle of the scenario before its first step: nothing
    allocated yet. *)
Definition fresh_machine : machine :=
  let scale := double_of_Z 1000000 in
  let dt := ddiv d_one (double_of_Z 100) in
  let ps := [particle.Build d_one d_zero d_zero d_zero d_one d_zero
               d_zero d_zero d_zero d_one] in
  Machine
    (sim.Build d_zero dt 1 (Some ps) 8 (-1) 0 (janus.Build scale 0 None None None None))
    [].

Definition fresh_after_3 : machine :=
  Eval vm_compute in
    run_result (janus_steps (H := test_host free_field) 3 fresh_machine) fresh_machine.

(** A result that is not the division-by-zero error. *)
Definition no_division_by_zero {A : Type} (r : result A) : Prop :=
  r <> Err DivisionByZero.

(** Two machines that present the same inputs to the integer update: the
    same particle count, scale and timestep and the same three generation
    buffers.  Everything else may differ. *)
Definition same_update_inputs (m1 m2 : machine) : Prop :=
  sim.N (simulation m1) = sim.N (simulation m2) /\
  janus.scale (the_janus m1) = janus.scale (the_janus m2) /\
  sim.dt (simulation m1) = sim.dt (simulation m2) /\
  janus.p_prev (the_janus m1) = janus.p_prev (the_janus m2) /\
  janus.p_curr (the_janus m1) = janus.p_curr (the_janus m2) /\
  janus.p_next (the_janus m1) = janus.p_next (the_janus m2).

(** The harmonic machine seen by another host state: other time, status,
    velocities, masses and scratch contents, the same update inputs. *)
Definition harmonic_machine_other : machine :=
  let scale := double_of_Z 1048576 in
  let dt := ddiv d_one (double_of_Z 16) in
  let prev := [particle_int.Build 1048576 0 0 0 0 0;
               particle_int.Build (-2097152) 524288 7 0 0 0] in
  let curr := [particle_int.Build 1048000 65536 0 0 0 0;
               particle_int.Build (-2090000) 530000 (-3) 0 0 0] in
  let blank := [zero_particle_int; zero_particle_int] in
  let scratch := [particle_int.Build 1 2 3 4 5 6; particle_int.Build 7 8 9 10 11 12] in
  let two := double_of_Z 2 in
  let ps := [particle.Build d_one d_one d_one two two two d_one d_one d_one two;
             particle.Build two two two d_one d_one d_one two two two two] in
  Machine
    (sim.Build d_one dt 2 (Some ps) 8 (-2) 5
       (janus.Build scale 2 (Some prev) (Some curr) (Some blank) (Some scratch)))
    [Ev_reb_update_acceleration].

Definition harmonic_after_1 : machine :=
  Eval vm_compute in
    run_result (reb_integrator_janus_part1 (H := test_host harmonic_field) harmonic_machine)
      harmonic_machine.

Definition harmonic_other_after_1 : machine :=
  Eval vm_compute in
    run_result
      (reb_integrator_janus_part1 (H := test_host harmonic_field) harmonic_machine_other)
      harmonic_machine_other.

(** ** The step formula as the spec words it

    [round]: the nearest integer, halfway cases away from zero. *)
Definition round_double (a : double) : option Z :=
  match a with
  | S754_zero _ => Some 0
  | S754_finite s m e =>
      let mag :=
        if 0 <=? e then Z.pos m * 2 ^ e
        else (2 * Z.pos m + 2 ^ (- e)) / (2 * 2 ^ (- e)) in
      Some (if s then - mag else mag)
  | S754_infinity _ | S754_nan => None
  end.

(** [next = -prev + 2*curr + round(scale * dt^2 * acceleration)]. *)
Definition next_by_rounding (prev curr : Z) (int_scale dt a : double) : option Z :=
  f ← round_double (forcing_term int_scale dt a);
  Some (- prev + 2 * curr + f).

(** The step from [m] to [m'] follows the rounding formula on every body
    and axis. *)
Definition step_rounds_forcing (m m' : machine) : Prop :=
  forall P C C' A i p c q a,
    janus.p_prev (the_janus m) = Some P -> janus.p_curr (the_janus m) = Some C ->
    janus.p_curr (the_janus m') = Some C' -> sim.particles (simulation m') = Some A ->
    P !! i = Some p -> C !! i = Some c -> C' !! i = Some q -> A !! i = Some a ->
    let s := janus.scale (the_janus m) in
    let dt := sim.dt (simulation m) in
    Some (particle_int.x q) =
      next_by_rounding (particle_int.x p) (particle_int.x c) s dt (particle.ax a) /\
    Some (particle_int.y q) =
      next_by_rounding (particle_int.y p) (particle_int.y c) s dt (particle.ay a) /\
    Some (particle_int.z q) =
      next_by_rounding (particle_int.z p) (particle_int.z c) s dt (particle.az a).

(** A constant push of three quarters of a lattice unit per step squared
    along [x], and against [y]. *)
Definition three_quarters : double :=
  Eval vm_compute in ddiv (double_of_Z 3) (double_of_Z 4).

Definition push_field (s : double * double * double * double)
  : double * double * double :=
  (three_quarters, dneg three_quarters, d_zero).

Definition push_machine : machine :=
  let ps := [zero_particle] in
  let rest := [zero_particle_int] in
  Machine
    (sim.Build d_zero d_one 1 (Some ps) 8 (-1) 0
       (janus.Build d_one 1 (Some rest) (Some rest) (Some rest) (Some rest)))
    [].

Definition push_after_1 : machine :=
  Eval vm_compute in
    run_result (reb_integrator_janus_part1 (H := test_host push_field) push_machine)
      push_machine.

(** ** Vocabulary of the bootstrap statement *)

(** The companion scheme's step keeps the particle array allocated at its
    size. *)
Definition probe_keeps_particles `{rebound} : Prop :=
  forall r n,
    has_length n (sim.particles r) = true ->
    has_length n (sim.particles (reb_step r)) = true.

(** The fresh machine entered with a run status other than the host's
    [REB_RUNNING]: the value -2, as on the last step of an integration. *)
Definition last_step_machine : machine :=
  with_sim (sim.set_status (-2)) fresh_machine.

Definition bootstrap_of `{rebound} (m : machine) : result machine :=
  janus_bootstrap (sim.t (simulation m)) (sim.dt (simulation m))
    (sim.N (simulation m)) (janus.scale (the_janus m)) m.

Definition last_step_bootstrapped : machine :=
  Eval vm_compute in
    run_result (bootstrap_of (H := test_host free_field) last_step_machine)
      last_step_machine.

(** ** Reversal as the spec words it

    Stepping forward [k] times, flipping, negating the timestep and
    stepping [k] more times leaves the position buffers as they were at
    the start: [prev] with the original [prev] positions and [curr] with
    the original [curr] positions. *)
Definition reversal_restores_buffers `{rebound} (k : nat) (m : machine) : Prop :=
  forall m1 m2 m3,
    janus_steps k m = Ok m1 ->
    reb_integrator_janus_flip m1 = Ok m2 ->
    janus_steps k (negate_dt m2) = Ok m3 ->
    positions (janus.p_prev (the_janus m3)) = positions (janus.p_prev (the_janus m)) /\
    positions (janus.p_curr (the_janus m3)) = positions (janus.p_curr (the_janus m)).

(** The free particle stepped once, flipped, and stepped once with the
    timestep negated. *)
Definition free_after_1 : machine :=
  Eval vm_compute in
    run_result (janus_steps (H := test_host free_field) 1 free_machine) free_machine.

Definition free_flipped : machine :=
  Eval vm_compute in run_result (reb_integrator_janus_flip free_after_1) free_after_1.

Definition free_back : machine :=
  Eval vm_compute in
    run_result (janus_steps (H := test_host free_field) 1 (negate_dt free_flipped))
      free_flipped.


(** ** Vocabulary of the further properties *)

(** The companion scheme's step leaves the particle count and the Janus
    instance alone and keeps the particle array allocated at its size. *)
Record probe_frame `{rebound} : Prop := {
  probe_N : forall r, sim.N (reb_step r) = sim.N r;
  probe_janus : forall r, sim.ri_janus (reb_step r) = sim.ri_janus r;
  probe_particles : forall r n,
    has_length n (sim.particles r) = true ->
    has_length n (sim.particles (reb_step r)) = true }.

(** [q] is the encoding of [p] at scale [int_scale] in a storage type of
    [bits] bits: each of the six coordinates is the product with the scale,
    converted to the storage type (lines 45-50). *)
Definition encodes (bits : positive) (int_scale : double)
  (p : reb_particle) (q : reb_particle_int) : Prop :=
  double_to_int bits (dmul (particle.x p) int_scale) = Ok (particle_int.x q) /\
  double_to_int bits (dmul (particle.y p) int_scale) = Ok (particle_int.y q) /\
  double_to_int bits (dmul (particle.z p) int_scale) = Ok (particle_int.z q) /\
  double_to_int bits (dmul (particle.vx p) int_scale) = Ok (particle_int.vx q) /\
  double_to_int bits (dmul (particle.vy p) int_scale) = Ok (particle_int.vy q) /\
  double_to_int bits (dmul (particle.vz p) int_scale) = Ok (particle_int.vz q).

(** [qs] holds the encodings of the first [n] particles of [ps]. *)
Definition encodes_all (bits : positive) (int_scale : double) (n : nat)
  (ps : array reb_particle) (qs : list reb_particle_int) : Prop :=
  length qs = n /\
  forall i, (i < n)%nat ->
    exists p q, load ps i = Ok p /\ qs !! i = Some q /\ encodes bits int_scale p q.

(** The real position of a particle, and the position a fixed-point
    element decodes to (lines 55-57). *)
Definition real_position (p : reb_particle) : double * double * double :=
  (particle.x p, particle.y p, particle.z p).

Definition decoded (int_scale : double) (q : reb_particle_int)
  : double * double * double :=
  (ddiv (double_of_Z (particle_int.x q)) int_scale,
   ddiv (double_of_Z (particle_int.y q)) int_scale,
   ddiv (double_of_Z (particle_int.z q)) int_scale).

(** The force evaluator does not move the particles, and does not touch
    the host's time. *)
Definition evaluator_keeps_positions `{rebound} : Prop :=
  forall r,
    fmap (M := list) real_position <$> sim.particles (reb_update_acceleration r)
    = fmap (M := list) real_position <$> sim.particles r.

Definition evaluator_keeps_time `{rebound} : Prop :=
  forall r, sim.t (reb_update_acceleration r) = sim.t r.

(** The integer velocity fields of a fixed-point element. *)
Definition int_velocity (q : reb_particle_int) : Z * Z * Z :=
  (particle_int.vx q, particle_int.vy q, particle_int.vz q).

(** The three buffers the flip touches are allocated with at least [n]
    elements each. *)
Definition flip_buffers_hold (n : nat) (j : reb_simulation_integrator_janus) : Prop :=
  exists P C S,
    janus.p_prev j = Some P /\ janus.p_curr j = Some C /\
    janus.p_prevrecalc j = Some S /\
    (n <= length P)%nat /\ (n <= length C)%nat /\ (n <= length S)%nat.

(** The harmonic machine after the host dropped its second particle: the
    buffers are still sized for two. *)
Definition harmonic_machine_shrunk : machine :=
  with_sim (fun r =>
    sim.Build (sim.t r) (sim.dt r) 1 (sim.particles r) (sim.integrator r)
      (sim.status r) (sim.gravity_ignore_terms r) (sim.ri_janus r)) harmonic_machine.

(** The machines of the teardown-and-restart and of the zero-scale
    properties. *)
Definition free_after_100_reset : machine :=
  Eval vm_compute in
    run_result (reb_integrator_janus_reset free_after_100) free_after_100.

Definition free_restarted : machine :=
  Eval vm_compute in
    run_result (reb_integrator_janus_part1 (H := test_host free_field) free_after_100_reset)
      free_after_100_reset.


Definition fresh_bootstrapped : machine :=
  Eval vm_compute in
    run_result (bootstrap_of (H := test_host free_field) fresh_machine) fresh_machine.


(** Sample arrays of the conversion loops: one particle at (1,0,0) with
    velocity (0,1,0), and fixed-point buffers of two elements. *)
Definition sample_scale : double := Eval vm_compute in double_of_Z 1000000.

Definition sample_particles : list reb_particle :=
  [particle.Build d_one d_zero d_zero d_zero d_one d_zero d_zero d_zero d_zero d_one].

Definition sample_buffer : list reb_particle_int :=
  [particle_int.Build 1 2 3 4 5 6; particle_int.Build 7 8 9 10 11 12].

Definition sample_encoded : list reb_particle_int :=
  [particle_int.Build 1000000 0 0 0 1000000 0; particle_int.Build 7 8 9 10 11 12].


(** The generation buffers of the harmonic machine. *)
Definition harmonic_prev : list reb_particle_int :=
  [particle_int.Build 1048576 0 0 0 0 0; particle_int.Build (-2097152) 524288 7 0 0 0].

Definition harmonic_curr : list reb_particle_int :=
  [particle_int.Build 1048000 65536 0 0 0 0; particle_int.Build (-2090000) 530000 (-3) 0 0 0].

Definition harmonic_blank : list reb_particle_int := [zero_particle_int; zero_particle_int].

(** The real velocity of a particle, and a velocity negated. *)
Definition real_velocity (p : reb_particle) : double * double * double :=
  (particle.vx p, particle.vy p, particle.vz p).

Definition negated (v : double * double * double) : double * double * double :=
  (dneg v.1.1, dneg v.1.2, dneg v.2).

(** Counting the calls of the force evaluator in a trace. *)
Definition is_evaluator_call (e : event) : bool :=
  match e with
  | Ev_reb_update_acceleration => true
  | _ => false
  end.

Definition evaluator_calls (tr : list event) : nat :=
  length (List.filter is_evaluator_call tr).

(** The harmonic machine stepped once, torn down, and stepped again. *)
Definition harmonic_after_1_reset : machine :=
  Eval vm_compute in
    run_result (reb_integrator_janus_reset harmonic_after_1) harmonic_after_1.

Definition harmonic_restarted : machine :=
  Eval vm_compute in
    run_result
      (reb_integrator_janus_part1 (H := test_host harmonic_field) harmonic_after_1_reset)
      harmonic_after_1_reset.

(** * Lemmas *)

(** ** Wrap-around arithmetic *)

Section WrapLemmas.
Variable bits : positive.

Lemma pow2_bits_split : 2 ^ Z.pos bits = 2 * 2 ^ (Z.pos bits - 1).
Proof.
  rewrite <- Z.pow_succ_r by lia. f_equal. lia.
Qed.

Lemma pow2_half_pos : 0 < 2 ^ (Z.pos bits - 1).
Proof. apply Z.pow_pos_nonneg; lia. Qed.

Lemma wrap_bounds z : int_min bits <= wrap bits z <= int_max bits.
Proof.
  unfold wrap, int_min, int_max.
  pose proof pow2_bits_split. pose proof pow2_half_pos.
  pose proof (Z.mod_pos_bound (z + 2 ^ (Z.pos bits - 1)) (2 ^ Z.pos bits)).
  lia.
Qed.

Lemma wrap_small z : in_int_range bits z = true -> wrap bits z = z.
Proof.
  unfold in_int_range, wrap, int_min, int_max. intros Hr.
  apply andb_true_iff in Hr as [H1 H2].
  apply Z.leb_le in H1, H2.
  pose proof pow2_bits_split.
  rewrite Z.mod_small by lia. lia.
Qed.

Lemma wrap_in_range z : in_int_range bits (wrap bits z) = true.
Proof.
  pose proof (wrap_bounds z). unfold in_int_range.
  apply andb_true_iff. split; apply Z.leb_le; lia.
Qed.

Lemma wrap_congr a b :
  a mod 2 ^ Z.pos bits = b mod 2 ^ Z.pos bits -> wrap bits a = wrap bits b.
Proof.
  intros Hab. unfold wrap. f_equal.
  rewrite (Z.add_mod a), (Z.add_mod b), Hab by lia. reflexivity.
Qed.

Lemma wrap_mod z : wrap bits z mod 2 ^ Z.pos bits = z mod 2 ^ Z.pos bits.
Proof.
  unfold wrap.
  rewrite Zminus_mod, Zmod_mod, <- Zminus_mod.
  f_equal. lia.
Qed.

Lemma wrap_add_l a b : wrap bits (wrap bits a + b) = wrap bits (a + b).
Proof. apply wrap_congr. rewrite Z.add_mod, wrap_mod, <- Z.add_mod by lia. reflexivity. Qed.

Lemma wrap_add_r a b : wrap bits (a + wrap bits b) = wrap bits (a + b).
Proof. rewrite Z.add_comm, wrap_add_l. f_equal. lia. Qed.

Lemma wrap_opp a : wrap bits (- wrap bits a) = wrap bits (- a).
Proof.
  apply wrap_congr.
  rewrite <- (Z.sub_0_l (wrap bits a)), <- (Z.sub_0_l a).
  rewrite Zminus_mod, wrap_mod, <- Zminus_mod. reflexivity.
Qed.

Lemma wrap_wrap a : wrap bits (wrap bits a) = wrap bits a.
Proof. apply wrap_congr, wrap_mod. Qed.
End WrapLemmas.

Lemma wrap_wider (small wide : positive) a :
  (small <= wide)%positive -> wrap small (wrap wide a) = wrap small a.
Proof.
  intros Hle. apply wrap_congr.
  assert (Hdiv : 2 ^ Z.pos wide = 2 ^ Z.pos small * 2 ^ (Z.pos wide - Z.pos small)).
  { rewrite <- Z.pow_add_r by lia. f_equal. lia. }
  pose proof (wrap_mod wide a) as Hm.
  assert (Hs : 0 < 2 ^ Z.pos small) by (apply Z.pow_pos_nonneg; lia).
  assert (Hw : 0 < 2 ^ (Z.pos wide - Z.pos small)) by (apply Z.pow_pos_nonneg; lia).
  rewrite Hdiv in Hm.
  apply (f_equal (fun v => v mod 2 ^ Z.pos small)) in Hm.
  rewrite !Z.rem_mul_r in Hm by lia.
  rewrite !(Z.mul_comm (2 ^ Z.pos small)), !Z.mod_add in Hm by lia.
  rewrite !Z.mod_mod in Hm by lia. exact Hm.
Qed.

(** ** Signs in binary64 products *)

Lemma binary_round_aux_negb p e s mx ex lx :
  binary_round_aux p e (negb s) mx ex lx = SFopp (binary_round_aux p e s mx ex lx).
Proof.
  unfold binary_round_aux.
  destruct (shr_fexp p e mx ex lx) as [mrs' e'].
  destruct (shr_fexp p e _ e' loc_Exact) as [mrs'' e''].
  destruct (shr_m mrs''); try reflexivity.
  destruct (e'' <=? e - p); reflexivity.
Qed.

Lemma dmul_neg_r a b : dmul a (dneg b) = dneg (dmul a b).
Proof.
  destruct a as [sa|sa| |sa ma ea], b as [sb|sb| |sb mb eb];
    unfold dmul, dneg, SFmul, SFopp;
    rewrite <- ?negb_xorb_r; try reflexivity.
  apply binary_round_aux_negb.
Qed.

Lemma dmul_neg_l a b : dmul (dneg a) b = dneg (dmul a b).
Proof.
  destruct a as [sa|sa| |sa ma ea], b as [sb|sb| |sb mb eb];
    unfold dmul, dneg, SFmul, SFopp;
    rewrite <- ?negb_xorb_l; try reflexivity.
  apply binary_round_aux_negb.
Qed.

Lemma dneg_involutive a : dneg (dneg a) = a.
Proof. destruct a; cbn; rewrite ?negb_involutive; reflexivity. Qed.

Lemma is_zero_dneg a : is_zero (dneg a) = is_zero a.
Proof. destruct a; reflexivity. Qed.

Section Coordinates.
Context `{rebound}.

Lemma forcing_term_neg_dt s dt a :
  forcing_term s (dneg dt) a = forcing_term s dt a.
Proof.
  unfold forcing_term.
  rewrite (dmul_neg_r s dt), dmul_neg_l, dmul_neg_r, dneg_involutive. reflexivity.
Qed.

Lemma next_coordinate_wrap p c f :
  next_coordinate p c f = wrap int_bits (- p + 2 * c + f).
Proof.
  unfold next_coordinate, narrow, wide_add, int_add, int_neg, int_mul, wide_bits.
  rewrite wrap_wider by lia.
  rewrite wrap_add_l, <- Z.add_assoc, wrap_add_l.
  rewrite (Z.add_comm (- p)), <- Z.add_assoc, wrap_add_l.
  f_equal. lia.
Qed.

(** The step is its own inverse on a coordinate once the generations are
    exchanged. *)
Lemma next_coordinate_inverse p c f :
  in_int_range int_bits p = true ->
  next_coordinate (next_coordinate p c f) c f = p.
Proof.
  intros Hp. rewrite !next_coordinate_wrap.
  replace (- wrap int_bits (- p + 2 * c + f) + 2 * c + f)
    with (- wrap int_bits (- p + 2 * c + f) + (2 * c + f)) by lia.
  rewrite <- wrap_add_l, wrap_opp, wrap_add_l.
  replace (- (- p + 2 * c + f) + (2 * c + f)) with p by lia.
  apply wrap_small, Hp.
Qed.
End Coordinates.

(** ** The error monad *)

Lemma bind_Ok {A B : Type} (e : result A) (k : A -> result B) (r : B) :
  (a ← e; k a) = Ok r <-> exists a, e = Ok a /\ k a = Ok r.
Proof.
  destruct e as [a|err]; cbn.
  - split; [intros Hk; exists a; auto | intros (a' & [= <-] & Hk); exact Hk].
  - split; [discriminate | intros (a' & [=] & _)].
Qed.

Lemma load_Some {A : Type} (l : list A) (i : nat) (a : A) :
  load (Some l) i = Ok a <-> l !! i = Some a.
Proof.
  unfold load. destruct (l !! i); split; congruence.
Qed.

Lemma store_Some {A : Type} (l : list A) (i : nat) (f : A -> A) (a : A) :
  l !! i = Some a -> store (Some l) i f = Ok (Some (<[i := f a]> l)).
Proof. intros Hl. unfold store. rewrite Hl. reflexivity. Qed.

Lemma store_insert {A : Type} (l : list A) (i : nat) (f : A -> A) (b : A) :
  (i < length l)%nat ->
  store (Some (<[i := b]> l)) i f = Ok (Some (<[i := f b]> l)).
Proof.
  intros Hi. unfold store.
  rewrite list_lookup_insert_eq by exact Hi.
  rewrite list_insert_insert_eq. reflexivity.
Qed.

Lemma store_Ok {A : Type} (p : array A) (i : nat) (f : A -> A) (r : array A) :
  store p i f = Ok r ->
  exists l a, p = Some l /\ l !! i = Some a /\ r = Some (<[i := f a]> l).
Proof.
  unfold store. destruct p as [l|]; [|discriminate].
  destruct (l !! i) as [a|] eqn:Hl; [|discriminate].
  intros [= <-]. eauto.
Qed.

(** ** Counted loops *)

Section Loops.
Context {A : Type}.
Variable body : nat -> array A -> result (array A).
Variable g : nat -> A -> result A.
Hypothesis body_g : rewrites_element body g.

(** What a completed loop has done: the elements in the index range are
    rewritten, the others are kept. *)
Lemma for_from_elements (n from : nat) (l : list A) (r : array A) :
  for_from body from n (Some l) = Ok r ->
  exists l', r = Some l' /\ length l' = length l /\
    (forall j, (from <= j < from + n)%nat ->
       exists a a', l !! j = Some a /\ g j a = Ok a' /\ l' !! j = Some a') /\
    (forall j, (j < from \/ from + n <= j)%nat -> l' !! j = l !! j).
Proof.
  revert from l. induction n as [|n IH]; intros from l; cbn.
  - intros [= <-]. exists l. split; [reflexivity|]. split; [reflexivity|].
    split; [intros j Hj; lia | auto].
  - intros Hrun. apply bind_Ok in Hrun as (s & Hb & Hrest).
    apply body_g in Hb as (a & a' & Hl & Hg & ->).
    apply IH in Hrest as (l' & -> & Hlen & Hin & Hout).
    exists l'. split; [reflexivity|]. split; [|split].
    + rewrite Hlen. apply length_insert.
    + intros j Hj. destruct (decide (j = from)) as [->|Hne].
      * exists a, a'. repeat split; auto.
        rewrite Hout by lia. apply list_lookup_insert_eq.
        eapply lookup_lt_Some, Hl.
      * destruct (Hin j) as (b & b' & Hb & Hgb & Hl'); [lia|].
        rewrite list_lookup_insert_ne in Hb by congruence.
        exists b, b'. auto.
    + intros j Hj. rewrite Hout by lia.
      apply list_lookup_insert_ne. lia.
Qed.

(** When a loop completes: every element function of the range does. *)
Lemma for_from_completes (n from : nat) (l : list A) :
  (forall j, (from <= j < from + n)%nat ->
     exists a a', l !! j = Some a /\ g j a = Ok a') ->
  exists l', for_from body from n (Some l) = Ok (Some l').
Proof.
  revert from l. induction n as [|n IH]; intros from l Hall; cbn.
  - eauto.
  - destruct (Hall from) as (a & a' & Hl & Hg); [lia|].
    assert (Hb : body from (Some l) = Ok (Some (<[from := a']> l))).
    { apply body_g. eauto. }
    rewrite Hb. cbn. apply IH. intros j Hj.
    destruct (Hall j) as (b & b' & Hlb & Hgb); [lia|].
    exists b, b'. split; [|exact Hgb].
    rewrite list_lookup_insert_ne by lia. exact Hlb.
Qed.
End Loops.

Lemma for_from_no_error {S : Type} (body : nat -> S -> result S) (e : error) :
  (forall i s, body i s <> Err e) ->
  forall n from s, for_from body from n s <> Err e.
Proof.
  intros Hbody n. induction n as [|n IH]; intros from s; cbn; [discriminate|].
  destruct (body from s) as [s'|e'] eqn:Hb; cbn.
  - apply IH.
  - intros [= ->]. exact (Hbody _ _ Hb).
Qed.

(** ** The loops of the source file, element by element *)

(** Take apart a run of binds that ended in [Ok]. *)
Ltac split_binds H :=
  repeat (let a := fresh "v" in
          let Hhd := fresh "Hhd" in
          apply bind_Ok in H as (a & Hhd & H)).

(** Resolve the chain of stores into one element, given the old element. *)
Ltac chain_stores i l :=
  repeat match goal with
  | Hl : l !! i = Some ?a, Hs : store (Some l) i ?f = Ok _ |- _ =>
      rewrite (store_Some l i f a Hl) in Hs; injection Hs as <-
  | Hl : l !! i = Some ?a, Hs : store (Some (<[i := ?b]> l)) i ?f = Ok _ |- _ =>
      rewrite (store_insert l i f b (lookup_lt_Some _ _ _ Hl)) in Hs;
      injection Hs as <-
  end.

(** Replay heads known to be [Ok]. *)
Ltac replay_binds :=
  repeat (match goal with
          | Hx : ?e = Ok _ |- context [?e] => rewrite Hx
          end; cbn [mbind result_bind]).

Ltac prove_rewrites_element body elem :=
  let i := fresh "i" in let l := fresh "l" in let r := fresh "r" in
  let Hrun := fresh "Hrun" in let a := fresh "a" in let a' := fresh "a'" in
  let Hl := fresh "Hl" in let Hg := fresh "Hg" in let Hi := fresh "Hi" in
  intros i l r; unfold body; split;
  [ intros Hrun; split_binds Hrun;
    match goal with
    | Hs : store (Some l) i _ = Ok _ |- _ =>
        destruct (store_Ok _ _ _ _ Hs) as (? & a & [= <-] & Hl & _)
    end;
    chain_stores i l;
    exists a; eexists; split; [exact Hl|]; split; [|reflexivity];
    unfold elem; replay_binds; reflexivity
  | intros (a & a' & Hl & Hg & ->);
    unfold elem in Hg; split_binds Hg; injection Hg as <-;
    pose proof (lookup_lt_Some _ _ _ Hl) as Hi;
    replay_binds; rewrite (store_Some _ _ _ _ Hl); cbn [mbind result_bind];
    repeat (replay_binds; rewrite store_insert by exact Hi; cbn [mbind result_bind]);
    reflexivity ].

Section LoopBodies.
Context `{rebound}.

Lemma to_int_body_element ps int_scale :
  rewrites_element (to_int_body ps int_scale) (to_int_element ps int_scale).
Proof. prove_rewrites_element (@to_int_body) (@to_int_element). Qed.

Lemma to_double_body_element psi int_scale :
  rewrites_element (to_double_body psi int_scale) (to_double_element psi int_scale).
Proof. prove_rewrites_element (@to_double_body) (@to_double_element). Qed.

Lemma janus_update_body_element int_scale dt p_prev p_curr ps :
  rewrites_element (janus_update_body int_scale dt p_prev p_curr ps)
                   (update_element int_scale dt p_prev p_curr ps).
Proof. prove_rewrites_element (@janus_update_body) (@update_element). Qed.

Lemma janus_velocities_body_element int_scale dt p_next p_prev :
  rewrites_element (janus_velocities_body int_scale dt p_next p_prev)
                   (velocity_element int_scale dt p_next p_prev).
Proof. prove_rewrites_element (@janus_velocities_body) (@velocity_element). Qed.
End LoopBodies.

(** ** Lists and arrays *)

Lemma has_length_Some {A : Type} (n : nat) (p : array A) :
  has_length n p = true <-> exists l, p = Some l /\ length l = n.
Proof.
  unfold has_length. destruct p as [l|].
  - rewrite Nat.eqb_eq. split; [eauto | intros (l' & [= <-] & Hl); exact Hl].
  - split; [discriminate | intros (l' & [=] & _)].
Qed.

Lemma memcpy_whole {A : Type} (n : nat) (dst src : array A) :
  has_length n dst = true -> has_length n src = true ->
  memcpy dst src n = Ok src.
Proof.
  intros (d & -> & Hd)%has_length_Some (s & -> & Hs)%has_length_Some.
  unfold memcpy. destruct n as [|n].
  - destruct d, s; try discriminate. reflexivity.
  - rewrite Hd, Hs, Nat.leb_refl. cbn [andb].
    rewrite <- Hs at 1. rewrite firstn_all.
    rewrite <- Hd, drop_all, app_nil_r. reflexivity.
Qed.

Lemma fmap_eq_pointwise {A B C : Type} (f : A -> C) (g : B -> C)
  (la : list A) (lb : list B) :
  length la = length lb ->
  (forall i a b, la !! i = Some a -> lb !! i = Some b -> f a = g b) ->
  f <$> la = g <$> lb.
Proof.
  intros Hlen Hpt. apply list_eq. intros i.
  rewrite !list_lookup_fmap.
  destruct (la !! i) as [a|] eqn:Ha, (lb !! i) as [b|] eqn:Hb; cbn.
  - f_equal. eauto.
  - apply lookup_lt_Some in Ha. apply lookup_ge_None in Hb. lia.
  - apply lookup_lt_Some in Hb. apply lookup_ge_None in Ha. lia.
  - reflexivity.
Qed.

Lemma fmap_eq_lookup {A B C : Type} (f : A -> C) (g : B -> C)
  (la : list A) (lb : list B) (i : nat) (a : A) :
  f <$> la = g <$> lb -> la !! i = Some a ->
  exists b, lb !! i = Some b /\ f a = g b.
Proof.
  intros Heq Ha.
  assert (Hi : (f <$> la) !! i = Some (f a)) by (rewrite list_lookup_fmap, Ha; reflexivity).
  rewrite Heq, list_lookup_fmap in Hi.
  destruct (lb !! i) as [b|]; [|discriminate].
  injection Hi as Hi. eauto.
Qed.

Lemma fmap_eq_length {A B C : Type} (f : A -> C) (g : B -> C)
  (la : list A) (lb : list B) :
  f <$> la = g <$> lb -> length la = length lb.
Proof.
  intros Heq. apply (f_equal length) in Heq.
  rewrite !length_fmap in Heq. exact Heq.
Qed.

Section LoopWholeArray.
Context {A : Type}.
Variable body : nat -> array A -> result (array A).
Variable g : nat -> A -> result A.
Hypothesis body_g : rewrites_element body g.

Lemma for_loop_elements (n : nat) (l : list A) (r : array A) :
  length l = n ->
  for_loop n body (Some l) = Ok r ->
  exists l', r = Some l' /\ length l' = n /\
    forall i, (i < n)%nat ->
      exists a a', l !! i = Some a /\ g i a = Ok a' /\ l' !! i = Some a'.
Proof.
  intros Hlen Hrun.
  destruct (for_from_elements body g body_g n 0 l r Hrun)
    as (l' & -> & Hl' & Hin & _).
  exists l'. split; [reflexivity|]. split; [lia|].
  intros i Hi. apply Hin. lia.
Qed.

Lemma for_loop_completes (n : nat) (l : list A) :
  (forall i, (i < n)%nat -> exists a a', l !! i = Some a /\ g i a = Ok a') ->
  exists l', for_loop n body (Some l) = Ok (Some l').
Proof.
  intros Hall. apply (for_from_completes body g body_g).
  intros j Hj. apply Hall. lia.
Qed.
End LoopWholeArray.

(** ** Guarded divisions *)

Lemma ddiv_checked_Ok a b v :
  ddiv_checked a b = Ok v <-> is_zero b = false /\ v = ddiv a b.
Proof.
  unfold ddiv_checked. destruct (is_zero b); split.
  - discriminate.
  - intros [[=] _].
  - intros [= <-]. auto.
  - intros [_ ->]. reflexivity.
Qed.

Lemma central_difference_Ok `{rebound} n p s dt v :
  central_difference n p s dt = Ok v -> is_zero s = false /\ is_zero dt = false.
Proof.
  unfold central_difference. intros Hrun. split_binds Hrun.
  apply ddiv_checked_Ok in Hhd as [Hs _].
  apply ddiv_checked_Ok in Hrun as [Hdt _]. auto.
Qed.

Lemma central_difference_completes `{rebound} n p s dt :
  is_zero s = false -> is_zero dt = false ->
  exists v, central_difference n p s dt = Ok v.
Proof.
  intros Hs Hdt. unfold central_difference, ddiv_checked.
  rewrite Hs. cbn. rewrite Hdt. eauto.
Qed.

(** ** Two runs of one loop, side by side *)

Section LoopPair.
Context {A : Type}.
Variables body_a body_b : nat -> array A -> result (array A).
Variables g_a g_b : nat -> A -> result A.
Hypothesis body_g_a : rewrites_element body_a g_a.
Hypothesis body_g_b : rewrites_element body_b g_b.

(** If every element the first run rewrites can be rewritten by the second
    run with related results, the second run completes whenever the first
    does, and the results are related element by element. *)
Lemma for_loop_pair (R : nat -> A -> A -> A -> A -> Prop) (n : nat)
  (la lb : list A) (r : array A) :
  length la = n -> length lb = n ->
  (forall i a a' b, (i < n)%nat -> la !! i = Some a -> g_a i a = Ok a' ->
     lb !! i = Some b -> exists b', g_b i b = Ok b' /\ R i a a' b b') ->
  for_loop n body_a (Some la) = Ok r ->
  exists la' lb', r = Some la' /\
    for_loop n body_b (Some lb) = Ok (Some lb') /\
    length la' = n /\ length lb' = n /\
    forall i, (i < n)%nat ->
      exists a a' b b', la !! i = Some a /\ la' !! i = Some a' /\
        lb !! i = Some b /\ lb' !! i = Some b' /\ R i a a' b b'.
Proof.
  intros Hla Hlb Hstep Hrun.
  destruct (for_loop_elements body_a g_a body_g_a n la r Hla Hrun)
    as (la' & -> & Hla' & Hpa).
  assert (Hcomp : exists lb', for_loop n body_b (Some lb) = Ok (Some lb')).
  { apply (for_loop_completes body_b g_b body_g_b). intros i Hi.
    destruct (Hpa i Hi) as (a & a' & Ha & Hga & _).
    destruct (lookup_lt_is_Some_2 lb i) as [b Hb]; [lia|].
    destruct (Hstep i a a' b Hi Ha Hga Hb) as (b' & Hgb & _). eauto. }
  destruct Hcomp as (lb' & Hrunb).
  destruct (for_loop_elements body_b g_b body_g_b n lb _ Hlb Hrunb)
    as (lb'' & [= <-] & Hlb' & Hpb).
  exists la', lb'. repeat (split; [assumption || reflexivity|]).
  intros i Hi.
  destruct (Hpa i Hi) as (a & a' & Ha & Hga & Ha').
  destruct (Hpb i Hi) as (b & b' & Hb & Hgb & Hb').
  destruct (Hstep i a a' b Hi Ha Hga Hb) as (b2 & Hgb2 & HR).
  rewrite Hgb in Hgb2. injection Hgb2 as <-.
  exists a, a', b, b'. auto.
Qed.
End LoopPair.

(** ** The element functions *)

Section ElementFacts.
Context `{rebound}.

Lemma to_double_element_Ok psi s i o o' :
  to_double_element psi s i o = Ok o' <->
  exists q, load psi i = Ok q /\ is_zero s = false /\ o' = decode_position s q o.
Proof.
  unfold to_double_element. split.
  - intros Hrun. split_binds Hrun. injection Hrun as <-.
    apply ddiv_checked_Ok in Hhd0 as [Hs ->].
    apply ddiv_checked_Ok in Hhd1 as [_ ->].
    apply ddiv_checked_Ok in Hhd2 as [_ ->].
    exists v. auto.
  - intros (q & Hq & Hs & ->). rewrite Hq. cbn [mbind result_bind].
    unfold ddiv_checked. rewrite Hs. reflexivity.
Qed.

Lemma update_element_Ok s dt p_prev p_curr ps i o o' :
  update_element s dt p_prev p_curr ps i o = Ok o' <->
  exists prev curr p fx fy fz,
    load p_prev i = Ok prev /\ load p_curr i = Ok curr /\ load ps i = Ok p /\
    double_to_int 128 (forcing_term s dt (particle.ax p)) = Ok fx /\
    double_to_int 128 (forcing_term s dt (particle.ay p)) = Ok fy /\
    double_to_int 128 (forcing_term s dt (particle.az p)) = Ok fz /\
    o' = particle_int.Build
           (next_coordinate (particle_int.x prev) (particle_int.x curr) fx)
           (next_coordinate (particle_int.y prev) (particle_int.y curr) fy)
           (next_coordinate (particle_int.z prev) (particle_int.z curr) fz)
           (particle_int.vx o) (particle_int.vy o) (particle_int.vz o).
Proof.
  unfold update_element. split.
  - intros Hrun. split_binds Hrun. injection Hrun as <-.
    exists v, v0, v1, v2, v3, v4. auto 10.
  - intros (prev & curr & p & fx & fy & fz & H1 & H2 & H3 & H4 & H5 & H6 & ->).
    replay_binds. reflexivity.
Qed.

Lemma velocity_element_Ok s dt p_next p_prev i o o' :
  velocity_element s dt p_next p_prev i o = Ok o' ->
  is_zero s = false /\ is_zero dt = false /\
  source o' = source o /\ acceleration o' = acceleration o.
Proof.
  unfold velocity_element. intros Hrun. split_binds Hrun. injection Hrun as <-.
  apply central_difference_Ok in Hhd1 as [Hs Hdt]. auto.
Qed.

Lemma velocity_element_completes s dt p_next p_prev i o :
  is_zero s = false -> is_zero dt = false ->
  is_Some (p_next ≫= (.!! i)) -> is_Some (p_prev ≫= (.!! i)) ->
  exists o', velocity_element s dt p_next p_prev i o = Ok o'.
Proof.
  intros Hs Hdt [n Hn] [p Hp]. unfold velocity_element.
  destruct p_next as [ln|]; [|discriminate]. destruct p_prev as [lp|]; [|discriminate].
  cbn in Hn, Hp. unfold load. rewrite Hn, Hp. cbn [mbind result_bind].
  destruct (central_difference_completes (particle_int.x n) (particle_int.x p) s dt Hs Hdt) as [vx ->].
  destruct (central_difference_completes (particle_int.y n) (particle_int.y p) s dt Hs Hdt) as [vy ->].
  destruct (central_difference_completes (particle_int.z n) (particle_int.z p) s dt Hs Hdt) as [vz ->].
  cbn [mbind result_bind]. eauto.
Qed.
End ElementFacts.

(** ** The core step, stage by stage *)

Section CoreUnfold.
Context `{rebound}.

Lemma janus_core_stages dt N s m m' :
  janus_core dt N s m = Ok m' <->
  exists ps1 next ps2 prev curr,
    let r1 := evaluated ps1 (simulation m) in
    let j1 := sim.ri_janus r1 in
    to_double (sim.particles (simulation m)) (janus.p_curr (the_janus m)) N s = Ok ps1 /\
    janus_update s dt N (janus.p_prev j1) (janus.p_curr j1) (sim.particles r1)
      (janus.p_next j1) = Ok next /\
    janus_velocities s dt N next (janus.p_prev j1) (sim.particles r1) = Ok ps2 /\
    memcpy (janus.p_prev j1) (janus.p_curr j1) N = Ok prev /\
    memcpy (janus.p_curr j1) next N = Ok curr /\
    m' = janus_core_result dt m ps1 next ps2 prev curr.
Proof.
  unfold janus_core. split.
  - intros Hrun. split_binds Hrun. injection Hrun as <-.
    exists v, v0, v1, v2, v3. cbn. auto 10.
  - intros (ps1 & next & ps2 & prev & curr & H1 & H2 & H3 & H4 & H5 & ->).
    apply bind_Ok. exists ps1. split; [exact H1|].
    apply bind_Ok. exists next. split; [exact H2|].
    apply bind_Ok. exists ps2. split; [exact H3|].
    apply bind_Ok. exists prev. split; [exact H4|].
    apply bind_Ok. exists curr. split; [exact H5|].
    reflexivity.
Qed.
End CoreUnfold.

(** ** The stages of the core step *)

Section Stages.
Context `{rebound}.

Lemma shift_next_coordinate pa pb c f :
  next_coordinate pb c f =
  shift_coordinate int_bits (next_coordinate pa c f) pa pb.
Proof.
  unfold shift_coordinate. rewrite !next_coordinate_wrap.
  replace (wrap int_bits (- pa + 2 * c + f) + pa - pb)
    with (wrap int_bits (- pa + 2 * c + f) + (pa - pb)) by lia.
  rewrite wrap_add_l. f_equal. lia.
Qed.

Lemma next_coordinate_in_range p c f :
  in_int_range int_bits (next_coordinate p c f) = true.
Proof. rewrite next_coordinate_wrap. apply wrap_in_range. Qed.

(** Decode. *)
Lemma to_double_spec N s ps C r :
  length ps = N ->
  to_double (Some ps) (Some C) N s = Ok r ->
  exists ps', r = Some ps' /\ length ps' = N /\
    forall i, (i < N)%nat ->
      exists o q, ps !! i = Some o /\ C !! i = Some q /\ is_zero s = false /\
                  ps' !! i = Some (decode_position s q o).
Proof.
  intros Hlen Hrun.
  destruct (for_loop_elements _ _ (to_double_body_element (Some C) s) N ps r Hlen Hrun)
    as (ps' & -> & Hlen' & Hpt).
  exists ps'. split; [reflexivity|]. split; [exact Hlen'|].
  intros i Hi. destruct (Hpt i Hi) as (o & o' & Ho & Hg & Ho').
  apply to_double_element_Ok in Hg as (q & Hq%load_Some & Hs & ->).
  exists o, q. auto.
Qed.

Lemma to_double_masses N s ps C ps' :
  length ps = N ->
  to_double (Some ps) (Some C) N s = Ok (Some ps') ->
  particle.m <$> ps' = particle.m <$> ps.
Proof.
  intros Hlen Hrun.
  destruct (to_double_spec N s ps C _ Hlen Hrun) as (ps2 & [= <-] & Hlen' & Hpt).
  apply fmap_eq_pointwise; [congruence|].
  intros i a b Ha Hb.
  destruct (Hpt i) as (o & q & Ho & _ & _ & Ho'); [eapply lookup_lt_Some in Ha; lia|].
  rewrite Ha in Ho'. rewrite Hb in Ho. injection Ho as ->. injection Ho' as ->.
  reflexivity.
Qed.

Lemma to_double_pair N s psa psb Ca Cb r :
  length psa = N -> length psb = N ->
  position <$> Ca = position <$> Cb ->
  particle.m <$> psa = particle.m <$> psb ->
  to_double (Some psa) (Some Ca) N s = Ok r ->
  exists psa' psb', r = Some psa' /\
    to_double (Some psb) (Some Cb) N s = Ok (Some psb') /\
    length psa' = N /\ length psb' = N /\
    source <$> psa' = source <$> psb'.
Proof.
  intros Hla Hlb Hpos Hm Hrun.
  destruct (for_loop_pair _ _ _ _
              (to_double_body_element (Some Ca) s) (to_double_body_element (Some Cb) s)
              (fun _ _ a' _ b' => source a' = source b') N psa psb r Hla Hlb)
    as (psa' & psb' & -> & Hrunb & Hla' & Hlb' & Hpt); [|exact Hrun|].
  - intros i a a' b Hi Ha Hg Hb.
    apply to_double_element_Ok in Hg as (q & Hq%load_Some & Hs & ->).
    destruct (fmap_eq_lookup _ _ _ _ _ _ Hpos Hq) as (qb & Hqb & Hqq).
    destruct (fmap_eq_lookup _ _ _ _ _ _ Hm Ha) as (b2 & Hb2 & Hmm).
    rewrite Hb in Hb2. injection Hb2 as <-.
    exists (decode_position s qb b). split.
    + apply to_double_element_Ok. exists qb. rewrite load_Some. auto.
    + unfold position in Hqq. injection Hqq as Hx Hy Hz.
      unfold source, decode_position. cbn. rewrite Hx, Hy, Hz, Hmm. reflexivity.
  - exists psa', psb'. repeat (split; [assumption || reflexivity|]).
    apply fmap_eq_pointwise; [congruence|].
    intros i a b Ha Hb.
    destruct (Hpt i) as (oa & a2 & ob & b2 & _ & Ha2 & _ & Hb2 & HR);
      [eapply lookup_lt_Some in Ha; lia|].
    congruence.
Qed.
(** Integer update. *)
Lemma janus_update_spec N s dt P C ps nx r :
  length nx = N ->
  janus_update s dt N (Some P) (Some C) (Some ps) (Some nx) = Ok r ->
  exists nxt, r = Some nxt /\ length nxt = N /\
    forall i, (i < N)%nat ->
      exists p c a o fx fy fz,
        P !! i = Some p /\ C !! i = Some c /\ ps !! i = Some a /\ nx !! i = Some o /\
        double_to_int 128 (forcing_term s dt (particle.ax a)) = Ok fx /\
        double_to_int 128 (forcing_term s dt (particle.ay a)) = Ok fy /\
        double_to_int 128 (forcing_term s dt (particle.az a)) = Ok fz /\
        nxt !! i = Some (particle_int.Build
          (next_coordinate (particle_int.x p) (particle_int.x c) fx)
          (next_coordinate (particle_int.y p) (particle_int.y c) fy)
          (next_coordinate (particle_int.z p) (particle_int.z c) fz)
          (particle_int.vx o) (particle_int.vy o) (particle_int.vz o)).
Proof.
  intros Hlen Hrun.
  destruct (for_loop_elements _ _
              (janus_update_body_element s dt (Some P) (Some C) (Some ps)) N nx r Hlen Hrun)
    as (nxt & -> & Hlen' & Hpt).
  exists nxt. split; [reflexivity|]. split; [exact Hlen'|].
  intros i Hi. destruct (Hpt i Hi) as (o & o' & Ho & Hg & Ho').
  apply update_element_Ok in Hg
    as (p & c & a & fx & fy & fz & Hp%load_Some & Hc%load_Some & Ha%load_Some
        & Hfx & Hfy & Hfz & ->).
  exists p, c, a, o, fx, fy, fz. auto 10.
Qed.

Lemma janus_update_in_range N s dt P C ps nx nxt :
  length nx = N ->
  janus_update s dt N (Some P) (Some C) (Some ps) (Some nx) = Ok (Some nxt) ->
  positions_in_range int_bits (Some nxt) = true.
Proof.
  intros Hlen Hrun.
  destruct (janus_update_spec N s dt P C ps nx _ Hlen Hrun) as (l & [= <-] & Hl & Hpt).
  cbn. apply forallb_forall. intros q Hq%list_elem_of_In.
  apply list_elem_of_lookup in Hq as [i Hi].
  destruct (Hpt i) as (p & c & a & o & fx & fy & fz & _ & _ & _ & _ & _ & _ & _ & Hn);
    [eapply lookup_lt_Some in Hi; lia|].
  rewrite Hi in Hn. injection Hn as ->.
  unfold position_in_range, position. cbn.
  rewrite !next_coordinate_in_range. reflexivity.
Qed.

(** Two integer updates from the same [curr] positions and the same
    accelerations, with timesteps equal up to sign: the second completes
    when the first does, and the new positions differ by the difference of
    the [prev] positions. *)
Lemma janus_update_pair N s dta dtb Pa Pb Ca Cb psa psb nxa nxb r :
  dtb = dta \/ dtb = dneg dta ->
  length nxa = N -> length nxb = N -> length Pb = N ->
  position <$> Ca = position <$> Cb ->
  acceleration <$> psa = acceleration <$> psb ->
  janus_update s dta N (Some Pa) (Some Ca) (Some psa) (Some nxa) = Ok r ->
  exists na nb, r = Some na /\
    janus_update s dtb N (Some Pb) (Some Cb) (Some psb) (Some nxb) = Ok (Some nb) /\
    length na = N /\ length nb = N /\
    forall i pa pb qa, Pa !! i = Some pa -> Pb !! i = Some pb -> na !! i = Some qa ->
      exists qb, nb !! i = Some qb /\
        position qb = shift_position int_bits (position qa) (position pa) (position pb).
Proof.
  intros Hdt Hla Hlb HPb Hpos Hacc Hrun.
  assert (Hforce : forall a, forcing_term s dtb a = forcing_term s dta a).
  { intros a. destruct Hdt as [-> | ->]; [reflexivity | apply forcing_term_neg_dt]. }
  destruct (for_loop_pair _ _ _ _
              (janus_update_body_element s dta (Some Pa) (Some Ca) (Some psa))
              (janus_update_body_element s dtb (Some Pb) (Some Cb) (Some psb))
              (fun i _ qa _ qb => forall pa pb, Pa !! i = Some pa -> Pb !! i = Some pb ->
                 position qb = shift_position int_bits (position qa) (position pa) (position pb))
              N nxa nxb r Hla Hlb)
    as (na & nb & -> & Hrunb & Hna & Hnb & Hpt); [|exact Hrun|].
  - intros i oa qa ob Hi Hoa Hg Hob.
    apply update_element_Ok in Hg
      as (pa & ca & a & fx & fy & fz & Hpa%load_Some & Hca%load_Some & Ha%load_Some
          & Hfx & Hfy & Hfz & ->).
    destruct (lookup_lt_is_Some_2 Pb i) as [pb Hpb]; [lia|].
    destruct (fmap_eq_lookup _ _ _ _ _ _ Hpos Hca) as (cb & Hcb & Hcc).
    destruct (fmap_eq_lookup _ _ _ _ _ _ Hacc Ha) as (b & Hb & Hab).
    unfold position in Hcc. injection Hcc as Hx Hy Hz.
    unfold acceleration in Hab. injection Hab as Hax Hay Haz.
    eexists. split.
    + apply update_element_Ok. exists pb, cb, b, fx, fy, fz.
      rewrite !load_Some, !Hforce, <- Hax, <- Hay, <- Haz. auto 10.
    + intros pa' pb' Hpa' Hpb'.
      rewrite Hpa in Hpa'. injection Hpa' as <-.
      rewrite Hpb in Hpb'. injection Hpb' as <-.
      unfold shift_position, position. cbn.
      rewrite <- Hx, <- Hy, <- Hz.
      rewrite <- !shift_next_coordinate. reflexivity.
  - exists na, nb. repeat (split; [assumption || reflexivity|]).
    intros i pa pb qa Hpa Hpb Hqa.
    destruct (Hpt i) as (oa & qa2 & ob & qb & _ & Hqa2 & _ & Hqb & HR);
      [eapply lookup_lt_Some in Hqa; lia|].
    rewrite Hqa in Hqa2. injection Hqa2 as <-.
    exists qb. split; [exact Hqb|]. apply HR; assumption.
Qed.

(** Velocity reconstruction. *)
Lemma janus_velocities_spec N s dt nxt P ps r :
  length ps = N ->
  janus_velocities s dt N nxt P (Some ps) = Ok r ->
  exists ps', r = Some ps' /\ length ps' = N /\
    source <$> ps' = source <$> ps /\
    acceleration <$> ps' = acceleration <$> ps /\
    ((0 < N)%nat -> is_zero s = false /\ is_zero dt = false).
Proof.
  intros Hlen Hrun.
  destruct (for_loop_elements _ _
              (janus_velocities_body_element s dt nxt P) N ps r Hlen Hrun)
    as (ps' & -> & Hlen' & Hpt).
  exists ps'. split; [reflexivity|]. split; [exact Hlen'|].
  assert (Hkeep : forall i a b, ps' !! i = Some a -> ps !! i = Some b ->
            source a = source b /\ acceleration a = acceleration b).
  { intros i a b Ha Hb.
    destruct (Hpt i) as (o & o' & Ho & Hg & Ho'); [eapply lookup_lt_Some in Hb; lia|].
    rewrite Ha in Ho'. injection Ho' as <-. rewrite Hb in Ho. injection Ho as <-.
    apply velocity_element_Ok in Hg as (_ & _ & Hs & Ha'). auto. }
  split; [|split].
  - apply fmap_eq_pointwise; [congruence|]. intros i a b Ha Hb. eapply Hkeep; eauto.
  - apply fmap_eq_pointwise; [congruence|]. intros i a b Ha Hb. eapply Hkeep; eauto.
  - intros HN. destruct (Hpt 0%nat HN) as (o & o' & _ & Hg & _).
    apply velocity_element_Ok in Hg as (Hs & Hdt & _). auto.
Qed.

Lemma janus_velocities_completes N s dt nxt P ps :
  length ps = N -> length nxt = N -> length P = N ->
  ((0 < N)%nat -> is_zero s = false /\ is_zero dt = false) ->
  exists ps', janus_velocities s dt N (Some nxt) (Some P) (Some ps) = Ok (Some ps').
Proof.
  intros Hps Hnxt HP Hnz.
  apply (for_loop_completes _ _ (janus_velocities_body_element s dt (Some nxt) (Some P))).
  intros i Hi.
  destruct (lookup_lt_is_Some_2 ps i) as [o Ho]; [lia|].
  destruct (Hnz ltac:(lia)) as [Hs Hdt].
  destruct (velocity_element_completes s dt (Some nxt) (Some P) i o Hs Hdt) as [o' Ho'].
  - cbn. apply lookup_lt_is_Some_2. lia.
  - cbn. apply lookup_lt_is_Some_2. lia.
  - eauto.
Qed.
End Stages.

(** ** The core step on a ready machine *)

Section CoreReady.
Context `{rebound}.

Lemma janus_ready_unfold r :
  janus_ready r = true <->
  exists P C X S ps,
    janus.allocated_N (sim.ri_janus r) = sim.N r /\
    janus.p_prev (sim.ri_janus r) = Some P /\ length P = sim.N r /\
    janus.p_curr (sim.ri_janus r) = Some C /\ length C = sim.N r /\
    janus.p_next (sim.ri_janus r) = Some X /\ length X = sim.N r /\
    janus.p_prevrecalc (sim.ri_janus r) = Some S /\ length S = sim.N r /\
    sim.particles r = Some ps /\ length ps = sim.N r /\
    positions_in_range int_bits (Some P) = true /\
    positions_in_range int_bits (Some C) = true.
Proof.
  unfold janus_ready. rewrite !andb_true_iff, Nat.eqb_eq, !has_length_Some. split.
  - intros [[[[[[[HN (P & HP & HlP)] (C & HC & HlC)] (X & HX & HlX)]
             (S & HS & HlS)] (ps & Hps & Hlps)] HrP] HrC].
    exists P, C, X, S, ps. rewrite HP in HrP. rewrite HC in HrC. auto 15.
  - intros (P & C & X & S & ps & HN & HP & HlP & HC & HlC & HX & HlX & HS & HlS
            & Hps & Hlps & HrP & HrC).
    rewrite HP, HC. repeat split; eauto.
Qed.

Lemma evaluated_frame ps r :
  evaluator_frame ->
  sim.N (evaluated ps r) = sim.N r /\
  sim.dt (evaluated ps r) = sim.dt r /\
  sim.ri_janus (evaluated ps r) = sim.ri_janus r.
Proof.
  intros [HN Hdt Hj _]. unfold evaluated.
  rewrite HN, Hdt, Hj. auto.
Qed.

Lemma evaluated_particles ps r n :
  evaluator_frame -> length ps = n ->
  exists pse, sim.particles (evaluated (Some ps) r) = Some pse /\ length pse = n.
Proof.
  intros [_ _ _ Hp] Hlen. apply has_length_Some, Hp. cbn.
  apply Nat.eqb_eq, Hlen.
Qed.

(** The stages of a completed core step on a ready machine. *)
Lemma janus_core_ready_stages dt s m m' :
  evaluator_frame ->
  janus_ready (simulation m) = true ->
  janus_core dt (sim.N (simulation m)) s m = Ok m' ->
  exists P C X ps ps1 pse nxt psf,
    janus.p_prev (the_janus m) = Some P /\
    janus.p_curr (the_janus m) = Some C /\
    janus.p_next (the_janus m) = Some X /\
    sim.particles (simulation m) = Some ps /\
    to_double (Some ps) (Some C) (sim.N (simulation m)) s = Ok (Some ps1) /\
    sim.particles (evaluated (Some ps1) (simulation m)) = Some pse /\
    length pse = sim.N (simulation m) /\
    janus_update s dt (sim.N (simulation m)) (Some P) (Some C) (Some pse) (Some X)
      = Ok (Some nxt) /\
    length nxt = sim.N (simulation m) /\
    janus_velocities s dt (sim.N (simulation m)) (Some nxt) (Some P) (Some pse)
      = Ok (Some psf) /\
    length psf = sim.N (simulation m) /\
    m' = janus_core_result dt m (Some ps1) (Some nxt) (Some psf) (Some C) (Some nxt).
Proof.
  intros Hframe Hready Hrun.
  apply janus_ready_unfold in Hready
    as (P & C & X & S & ps & HN & HP & HlP & HC & HlC & HX & HlX & HS & HlS
        & Hps & Hlps & HrP & HrC).
  apply janus_core_stages in Hrun
    as (ps1 & next & ps2 & prev & curr & H1 & H2 & H3 & H4 & H5 & ->).
  cbn zeta in H2, H3, H4, H5.
  unfold the_janus in H1. rewrite Hps, HC in H1.
  destruct (to_double_spec _ _ _ _ _ Hlps H1) as (ps1l & -> & Hl1 & _).
  destruct (evaluated_frame (Some ps1l) (simulation m) Hframe) as (_ & _ & Hj).
  destruct (evaluated_particles ps1l (simulation m) _ Hframe Hl1) as (pse & Hpse & Hlpse).
  rewrite Hj, HP, HC, HX, Hpse in H2. rewrite Hj, HP, Hpse in H3.
  rewrite Hj, HP, HC in H4. rewrite Hj, HC in H5.
  destruct (janus_update_spec _ _ _ _ _ _ _ _ HlX H2) as (nxt & -> & Hlnxt & _).
  destruct (janus_velocities_spec _ _ _ _ _ _ _ Hlpse H3) as (psf & -> & Hlpsf & _).
  rewrite memcpy_whole in H4, H5
    by (apply has_length_Some; eauto).
  injection H4 as <-. injection H5 as <-.
  exists P, C, X, ps, ps1l, pse, nxt, psf. unfold the_janus. auto 15.
Qed.

(** Conversely, completed stages make a completed core step. *)
Lemma janus_core_ready_completes dt s m P C X ps ps1 pse nxt psf :
  evaluator_frame ->
  janus.p_prev (the_janus m) = Some P -> length P = sim.N (simulation m) ->
  janus.p_curr (the_janus m) = Some C -> length C = sim.N (simulation m) ->
  janus.p_next (the_janus m) = Some X ->
  sim.particles (simulation m) = Some ps ->
  to_double (Some ps) (Some C) (sim.N (simulation m)) s = Ok (Some ps1) ->
  sim.particles (evaluated (Some ps1) (simulation m)) = Some pse ->
  janus_update s dt (sim.N (simulation m)) (Some P) (Some C) (Some pse) (Some X)
    = Ok (Some nxt) ->
  length nxt = sim.N (simulation m) ->
  janus_velocities s dt (sim.N (simulation m)) (Some nxt) (Some P) (Some pse)
    = Ok (Some psf) ->
  janus_core dt (sim.N (simulation m)) s m
  = Ok (janus_core_result dt m (Some ps1) (Some nxt) (Some psf) (Some C) (Some nxt)).
Proof.
  intros Hframe HP HlP HC HlC HX Hps H1 Hpse H2 Hlnxt H3.
  apply janus_core_stages.
  exists (Some ps1), (Some nxt), (Some psf), (Some C), (Some nxt).
  cbn zeta.
  destruct (evaluated_frame (Some ps1) (simulation m) Hframe) as (_ & _ & Hj).
  unfold the_janus in *. rewrite Hj, HP, HC, HX, Hps, Hpse.
  rewrite !memcpy_whole by (apply has_length_Some; eauto).
  auto 10.
Qed.
End CoreReady.

(** ** One step inside an epoch *)

Section EpochStep.
Context `{rebound}.

Lemma part1_ready m :
  janus_ready (simulation m) = true ->
  reb_integrator_janus_part1 m =
  janus_core (sim.dt (simulation m)) (sim.N (simulation m))
    (janus.scale (the_janus m)) m.
Proof.
  intros Hready. apply janus_ready_unfold in Hready as (P & C & X & S & ps & HN & _).
  unfold reb_integrator_janus_part1. rewrite HN, Nat.eqb_refl. reflexivity.
Qed.

Lemma source_masses (la lb : list reb_particle) :
  source <$> la = source <$> lb -> particle.m <$> la = particle.m <$> lb.
Proof.
  intros Heq. apply fmap_eq_pointwise; [eapply fmap_eq_length, Heq|].
  intros i a b Ha Hb.
  destruct (fmap_eq_lookup _ _ _ _ _ _ Heq Ha) as (b' & Hb' & Hs).
  rewrite Hb in Hb'. injection Hb' as <-.
  unfold source in Hs. congruence.
Qed.

Lemma janus_core_epoch_step m m' :
  acceleration_by_position ->
  janus_ready (simulation m) = true ->
  reb_integrator_janus_part1 m = Ok m' ->
  epoch_step m m'.
Proof.
  intros [Hframe Hmass _] Hready Hrun.
  rewrite part1_ready in Hrun by exact Hready.
  destruct (janus_core_ready_stages _ _ _ _ Hframe Hready Hrun)
    as (P & C & X & ps & ps1 & pse & nxt & psf & HP & HC & HX & Hps & H1 & Hpse & Hlpse
        & H2 & Hlnxt & H3 & Hlpsf & ->).
  apply janus_ready_unfold in Hready
    as (P' & C' & X' & S & ps' & HN & HP' & HlP & HC' & HlC & HX' & HlX & HS & HlS
        & Hps' & Hlps & HrP & HrC).
  unfold the_janus in *.
  rewrite HP in HP'. injection HP' as <-. rewrite HC in HC'. injection HC' as <-.
  rewrite HX in HX'. injection HX' as <-. rewrite Hps in Hps'. injection Hps' as <-.
  destruct (evaluated_frame (Some ps1) (simulation m) Hframe) as (HeN & Hedt & Hej).
  unfold evaluated in HeN, Hedt, Hej.
  unfold epoch_step, the_janus, janus_core_result. cbn.
  rewrite Hej, HeN, Hedt. cbn.
  split; [|repeat split; try reflexivity].
  - apply janus_ready_unfold. cbn. rewrite ?Hej, ?HeN. cbn.
    exists C, nxt, nxt, S, psf. repeat split; try assumption.
    eapply janus_update_in_range; [|exact H2]. exact HlX.
  - destruct (janus_velocities_spec _ _ _ _ _ _ _ Hlpse H3)
      as (psf' & [= <-] & _ & Hsrc & _).
    rewrite (source_masses _ _ Hsrc).
    pose proof (Hmass (sim.set_gravity_ignore_terms 0
                        (sim.set_particles (Some ps1) (simulation m)))) as Hm.
    unfold evaluated in Hpse. rewrite Hpse in Hm. cbn in Hm.
    injection Hm as ->. rewrite Hps. cbn. f_equal.
    eapply to_double_masses; [|exact H1]. exact Hlps.
  - symmetry. exact HC.
Qed.
(** Two machines of one epoch that agree on the [curr] positions, with
    timesteps equal up to sign: when one completes a step so does the
    other, and the new positions differ by the difference of the [prev]
    positions. *)
Lemma janus_step_pair ma mb ma' :
  acceleration_by_position ->
  janus_ready (simulation ma) = true ->
  janus_ready (simulation mb) = true ->
  sim.N (simulation mb) = sim.N (simulation ma) ->
  janus.scale (the_janus mb) = janus.scale (the_janus ma) ->
  (sim.dt (simulation mb) = sim.dt (simulation ma) \/
   sim.dt (simulation mb) = dneg (sim.dt (simulation ma))) ->
  masses (sim.particles (simulation ma)) = masses (sim.particles (simulation mb)) ->
  positions (janus.p_curr (the_janus ma)) = positions (janus.p_curr (the_janus mb)) ->
  reb_integrator_janus_part1 ma = Ok ma' ->
  exists mb', reb_integrator_janus_part1 mb = Ok mb' /\
    forall Pa Pb Na,
      janus.p_prev (the_janus ma) = Some Pa ->
      janus.p_prev (the_janus mb) = Some Pb ->
      janus.p_curr (the_janus ma') = Some Na ->
      exists Nb, janus.p_curr (the_janus mb') = Some Nb /\ length Nb = length Na /\
        forall i pa pb qa, Pa !! i = Some pa -> Pb !! i = Some pb -> Na !! i = Some qa ->
          exists qb, Nb !! i = Some qb /\
            position qb = shift_position int_bits (position qa) (position pa) (position pb).
Proof.
  intros Hacc Hra Hrb HN Hs Hdt Hm Hpos Hrun.
  destruct Hacc as [Hframe Hmass Hfun].
  rewrite part1_ready in Hrun by exact Hra.
  rewrite part1_ready by exact Hrb.
  destruct (janus_core_ready_stages _ _ _ _ Hframe Hra Hrun)
    as (Pa & Ca & Xa & psa & ps1a & psea & nxta & psfa & HPa & HCa & HXa & Hpsa & H1a
        & Hpsea & Hlpsea & H2a & Hlnxta & H3a & Hlpsfa & ->).
  apply janus_ready_unfold in Hra
    as (Pa' & Ca' & Xa' & Sa & psa' & HNa & HPa' & HlPa & HCa' & HlCa & HXa' & HlXa
        & _ & _ & Hpsa' & Hlpsa & _ & _).
  apply janus_ready_unfold in Hrb
    as (Pb & Cb & Xb & Sb & psb & HNb & HPb & HlPb & HCb & HlCb & HXb & HlXb
        & _ & _ & Hpsb & Hlpsb & _ & _).
  unfold the_janus in *.
  rewrite HPa in HPa'. injection HPa' as <-. rewrite HCa in HCa'. injection HCa' as <-.
  rewrite HXa in HXa'. injection HXa' as <-. rewrite Hpsa in Hpsa'. injection Hpsa' as <-.
  rewrite HCa, HCb in Hpos. cbn in Hpos. injection Hpos as Hpos.
  rewrite Hpsa, Hpsb in Hm. cbn in Hm. injection Hm as Hm.
  rewrite HN in *. rewrite Hs in *.
  set (N := sim.N (simulation ma)) in *.
  set (s := janus.scale (sim.ri_janus (simulation ma))) in *.
  (* decode *)
  destruct (to_double_pair N s psa psb Ca Cb _ Hlpsa Hlpsb Hpos Hm H1a)
    as (ps1a' & ps1b & [= <-] & H1b & Hl1a & Hl1b & Hsrc).
  (* force evaluation *)
  destruct (evaluated_particles ps1b (simulation mb) N Hframe Hl1b) as (pseb & Hpseb & Hlpseb).
  assert (Hae : acceleration <$> psea = acceleration <$> pseb).
  { pose proof (Hfun (sim.set_gravity_ignore_terms 0
                        (sim.set_particles (Some ps1a) (simulation ma)))
                     (sim.set_gravity_ignore_terms 0
                        (sim.set_particles (Some ps1b) (simulation mb)))) as Hf.
    unfold evaluated in Hpsea, Hpseb. rewrite Hpsea, Hpseb in Hf. cbn in Hf.
    rewrite Hsrc in Hf. specialize (Hf eq_refl). injection Hf as Hf. exact Hf. }
  (* integer update *)
  destruct (janus_update_pair N s (sim.dt (simulation ma)) (sim.dt (simulation mb))
              Pa Pb Ca Cb psea pseb Xa Xb _ Hdt HlXa HlXb HlPb Hpos Hae H2a)
    as (nxta' & nxtb & [= <-] & H2b & _ & Hlnxtb & Hshift).
  (* velocities *)
  destruct (janus_velocities_spec _ _ _ _ _ _ _ Hlpsea H3a)
    as (psfa' & _ & _ & _ & _ & Hnz).
  destruct (janus_velocities_completes N s (sim.dt (simulation mb)) nxtb Pb pseb
              Hlpseb Hlnxtb HlPb) as (psfb & H3b).
  { intros HNpos. destruct (Hnz HNpos) as [Hsz Hdtz]. split; [exact Hsz|].
    destruct Hdt as [-> | ->]; [exact Hdtz | rewrite is_zero_dneg; exact Hdtz]. }
  eexists. split.
  - fold N. fold s. subst N s. rewrite <- HN, <- Hs.
    eapply (janus_core_ready_completes _ _ mb Pb Cb Xb psb ps1b pseb nxtb psfb Hframe);
      unfold the_janus; rewrite ?HN, ?Hs; eauto.
  - intros Pa0 Pb0 Na HPa0 HPb0 HNa0.
    rewrite HPa in HPa0. injection HPa0 as <-.
    rewrite HPb in HPb0. injection HPb0 as <-.
    cbn in HNa0. injection HNa0 as <-.
    exists nxtb. cbn. split; [reflexivity|]. split; [congruence|].
    exact Hshift.
Qed.
End EpochStep.

(** ** Replaying a run backwards *)

Section Replay.
Context `{rebound}.

Lemma janus_steps_snoc k m :
  janus_steps (S k) m = (m' ← janus_steps k m; reb_integrator_janus_part1 m').
Proof.
  revert m. induction k as [|k IH]; intros m.
  - cbn. destruct (reb_integrator_janus_part1 m); reflexivity.
  - change (janus_steps (S (S k)) m)
      with (m' ← reb_integrator_janus_part1 m; janus_steps (S k) m').
    change (janus_steps (S k) m)
      with (m' ← reb_integrator_janus_part1 m; janus_steps k m').
    destruct (reb_integrator_janus_part1 m) as [m'|e]; cbn [mbind result_bind].
    + apply IH.
    + reflexivity.
Qed.

Lemma shift_position_cancel n pa :
  position_in_range int_bits pa = true ->
  shift_position int_bits n pa n = pa.
Proof.
  destruct pa as [[x y] z], n as [[nx ny] nz].
  unfold position_in_range, shift_position, shift_coordinate. cbn.
  rewrite !andb_true_iff. intros [[Hx Hy] Hz].
  replace (nx + x - nx) with x by lia.
  replace (ny + y - ny) with y by lia.
  replace (nz + z - nz) with z by lia.
  rewrite !wrap_small by assumption. reflexivity.
Qed.

Lemma positions_in_range_lookup P i p :
  positions_in_range int_bits (Some P) = true -> P !! i = Some p ->
  position_in_range int_bits (position p) = true.
Proof.
  cbn. intros Hall Hp.
  rewrite forallb_forall in Hall. apply Hall.
  apply list_elem_of_In, list_elem_of_lookup. eauto.
Qed.

(** The invariant of a forward run, with what its backward replay gives:
    any ready machine of the same epoch, with the timestep negated, that
    holds the final two generations exchanged, runs the same number of
    steps to the initial two generations exchanged. *)
Lemma janus_replay k : forall m m1,
  acceleration_by_position ->
  janus_ready (simulation m) = true ->
  janus_steps k m = Ok m1 ->
  (janus_ready (simulation m1) = true /\
   sim.N (simulation m1) = sim.N (simulation m) /\
   janus.scale (the_janus m1) = janus.scale (the_janus m) /\
   sim.dt (simulation m1) = sim.dt (simulation m) /\
   masses (sim.particles (simulation m1)) = masses (sim.particles (simulation m))) /\
  forall m2,
    janus_ready (simulation m2) = true ->
    sim.N (simulation m2) = sim.N (simulation m) ->
    janus.scale (the_janus m2) = janus.scale (the_janus m) ->
    sim.dt (simulation m2) = dneg (sim.dt (simulation m)) ->
    masses (sim.particles (simulation m2)) = masses (sim.particles (simulation m)) ->
    positions (janus.p_prev (the_janus m2)) = positions (janus.p_curr (the_janus m1)) ->
    positions (janus.p_curr (the_janus m2)) = positions (janus.p_prev (the_janus m1)) ->
    exists m3, janus_steps k m2 = Ok m3 /\
      positions (janus.p_prev (the_janus m3)) = positions (janus.p_curr (the_janus m)) /\
      positions (janus.p_curr (the_janus m3)) = positions (janus.p_prev (the_janus m)) /\
      janus_ready (simulation m3) = true /\
      sim.N (simulation m3) = sim.N (simulation m) /\
      janus.scale (the_janus m3) = janus.scale (the_janus m) /\
      sim.dt (simulation m3) = dneg (sim.dt (simulation m)) /\
      masses (sim.particles (simulation m3)) = masses (sim.particles (simulation m)).
Proof.
  induction k as [|k IH]; intros m m1 Hacc Hready Hrun.
  - cbn in Hrun. injection Hrun as <-. split; [auto|].
    intros m2 Hr2 HN2 Hs2 Hdt2 Hm2 Hp2 Hc2. exists m2. cbn. auto 10.
  - cbn in Hrun. apply bind_Ok in Hrun as (m' & Hstep & Hrest).
    destruct (janus_core_epoch_step m m' Hacc Hready Hstep)
      as (Hr' & HN' & Hs' & Hdt' & Hm' & Hprev').
    destruct (IH m' m1 Hacc Hr' Hrest) as [(Hr1 & HN1 & Hs1 & Hdt1 & Hm1) Hback].
    split; [repeat split; congruence|].
    intros m2 Hr2 HN2 Hs2 Hdt2 Hm2 Hp2 Hc2.
    destruct (Hback m2 Hr2) as (m3' & Hrun3' & Hp3' & Hc3' & Hr3' & HN3' & Hs3' & Hdt3' & Hm3');
      try congruence.
    (* the last step of the replay against the first step of the run *)
    destruct (janus_step_pair m m3' m' Hacc Hready Hr3') as (m3 & Hstep3 & Hshift);
      try congruence.
    { right. congruence. }
    destruct (janus_core_epoch_step m3' m3 Hacc Hr3' Hstep3)
      as (Hr3 & HN3 & Hs3 & Hdt3 & Hm3 & Hprev3).
    exists m3. split.
    { rewrite janus_steps_snoc, Hrun3'. exact Hstep3. }
    split; [congruence|].
    split; [|repeat split; congruence].
    (* curr of the replay is prev of the start *)
    apply janus_ready_unfold in Hready
      as (P & C & X & S & ps & _ & HP & HlP & HC & HlC & _ & _ & _ & _ & _ & _ & HrP & _).
    apply janus_ready_unfold in Hr3'
      as (P3 & C3 & X3 & S3 & ps3 & _ & HP3 & HlP3 & _).
    apply janus_ready_unfold in Hr'
      as (P' & C' & X' & S' & ps' & _ & _ & _ & HC' & HlC' & _).
    unfold the_janus in *.
    destruct (Hshift P P3 C' HP HP3 HC') as (Nb & HNb & HlNb & Hpt).
    rewrite HNb, HP. cbn. f_equal.
    rewrite HP3, HC' in Hp3'. cbn in Hp3'. injection Hp3' as Hp3'.
    apply fmap_eq_pointwise; [congruence|].
    intros i qb p Hqb Hp.
    destruct (lookup_lt_is_Some_2 C' i) as [qa Hqa];
      [apply lookup_lt_Some in Hp; congruence|].
    destruct (fmap_eq_lookup _ _ _ _ _ _ (eq_sym Hp3') Hqa) as (pb & Hpb & Hqq).
    destruct (Hpt i p pb qa Hp Hpb Hqa) as (qb' & Hqb' & Hpos).
    rewrite Hqb in Hqb'. injection Hqb' as <-.
    rewrite Hpos, Hqq. apply shift_position_cancel.
    eapply positions_in_range_lookup; eauto.
Qed.
End Replay.

(** ** The flip *)

Section Flip.
Context `{rebound}.

Lemma flip_ready_flip m :
  flip_ready (simulation m) = true ->
  reb_integrator_janus_flip m =
  Ok (with_janus (fun j =>
        janus.set_p_prev (janus.p_curr j)
          (janus.set_p_curr (janus.p_prev j)
             (janus.set_p_prevrecalc (janus.p_curr j) j))) m).
Proof.
  unfold flip_ready. rewrite !andb_true_iff. intros [[HP HC] HS].
  unfold reb_integrator_janus_flip, the_janus.
  rewrite (memcpy_whole _ _ _ HS HC). cbn.
  rewrite (memcpy_whole _ _ _ HC HP). cbn.
  rewrite (memcpy_whole _ _ _ HP HC). reflexivity.
Qed.

Lemma janus_ready_flip_ready r :
  janus_ready r = true -> flip_ready r = true.
Proof.
  unfold janus_ready, flip_ready. rewrite !andb_true_iff.
  intros [[[[[[[_ HP] HC] _] HS] _] _] _]. auto.
Qed.
End Flip.

(** * The claims *)

Section ForceFields.
Variable f : double * double * double * double -> double * double * double.

Lemma force_field_frame : @evaluator_frame (test_host f).
Proof.
  split; cbn; try reflexivity.
  intros r n. unfold force_field_evaluator. cbn.
  destruct (sim.particles r) as [ps|]; cbn; [|discriminate].
  rewrite length_fmap. auto.
Qed.

Lemma force_field_by_position : @acceleration_by_position (test_host f).
Proof.
  split.
  - apply force_field_frame.
  - intros r. cbn. unfold force_field_evaluator. cbn.
    destruct (sim.particles r) as [ps|]; cbn; [|reflexivity].
    f_equal. rewrite <- list_fmap_compose. reflexivity.
  - intros r1 r2. cbn. unfold force_field_evaluator. cbn.
    destruct (sim.particles r1) as [ps1|], (sim.particles r2) as [ps2|]; cbn;
      try discriminate; [|reflexivity].
    intros [= Hsrc]. f_equal.
    rewrite <- !list_fmap_compose.
    apply fmap_eq_pointwise; [eapply fmap_eq_length, Hsrc|].
    intros i a b Ha Hb.
    destruct (fmap_eq_lookup _ _ _ _ _ _ Hsrc Ha) as (b' & Hb' & Hab).
    rewrite Hb in Hb'. injection Hb' as <-.
    cbn. unfold acceleration, set_acceleration. cbn. rewrite Hab. reflexivity.
Qed.
End ForceFields.

Section Claims.
Context `{rebound}.

(** C1 (as amended). Reversibility.  From any ready two-generation state,
    with a force evaluator whose accelerations are determined by the
    configuration it is given: if [k] steps complete, then the flip
    completes, [k] further steps with the timestep negated complete, and
    they leave the original integer positions in the two history buffers,
    bit for bit, with the two generations exchanged ([prev] holds the
    original [curr] positions and [curr] the original [prev] positions,
    as after a flip of the initial state); one more flip puts each back
    in its buffer. *)
Theorem janus_reversibility (k : nat) (m m1 : machine) :
  acceleration_by_position ->
  janus_ready (simulation m) = true ->
  janus_steps k m = Ok m1 ->
  exists m2 m3 m4,
    reb_integrator_janus_flip m1 = Ok m2 /\
    janus_steps k (negate_dt m2) = Ok m3 /\
    positions (janus.p_prev (the_janus m3)) = positions (janus.p_curr (the_janus m)) /\
    positions (janus.p_curr (the_janus m3)) = positions (janus.p_prev (the_janus m)) /\
    reb_integrator_janus_flip m3 = Ok m4 /\
    positions (janus.p_prev (the_janus m4)) = positions (janus.p_prev (the_janus m)) /\
    positions (janus.p_curr (the_janus m4)) = positions (janus.p_curr (the_janus m)).
Proof.
  intros Hacc Hready Hrun.
  destruct (janus_replay k m m1 Hacc Hready Hrun) as [(Hr1 & HN1 & Hs1 & Hdt1 & Hm1) Hback].
  pose proof (flip_ready_flip m1 (janus_ready_flip_ready _ Hr1)) as Hflip.
  set (m2 := with_janus (fun j =>
               janus.set_p_prev (janus.p_curr j)
                 (janus.set_p_curr (janus.p_prev j)
                    (janus.set_p_prevrecalc (janus.p_curr j) j))) m1) in *.
  assert (Hr2 : janus_ready (simulation (negate_dt m2)) = true).
  { apply janus_ready_unfold in Hr1
      as (P & C & X & S & ps & HN & HP & HlP & HC & HlC & HX & HlX & HS & HlS
          & Hps & Hlps & HrP & HrC).
    apply janus_ready_unfold. cbn. rewrite HP, HC.
    exists C, P, X, C, ps. repeat split; assumption. }
  assert (HN2 : sim.N (simulation (negate_dt m2)) = sim.N (simulation m))
    by (cbn; congruence).
  assert (Hs2 : janus.scale (the_janus (negate_dt m2)) = janus.scale (the_janus m))
    by (unfold the_janus in *; cbn; congruence).
  assert (Hdt2 : sim.dt (simulation (negate_dt m2)) = dneg (sim.dt (simulation m)))
    by (cbn; rewrite Hdt1; reflexivity).
  assert (Hm2 : masses (sim.particles (simulation (negate_dt m2)))
                = masses (sim.particles (simulation m)))
    by exact Hm1.
  destruct (Hback (negate_dt m2) Hr2 HN2 Hs2 Hdt2 Hm2 eq_refl eq_refl)
    as (m3 & Hrun3 & Hp3 & Hc3 & Hr3 & _).
  pose proof (flip_ready_flip m3 (janus_ready_flip_ready _ Hr3)) as Hflip3.
  exists m2, m3. eexists.
  split; [exact Hflip|]. split; [exact Hrun3|].
  split; [exact Hp3|]. split; [exact Hc3|].
  split; [exact Hflip3|]. split; [exact Hc3 | exact Hp3].
Qed.

(** C7. The flip exchanges [prev] and [curr] through the scratch buffer
    and leaves [next], the host time and everything else alone. *)
Theorem janus_flip_exchanges (m : machine) :
  flip_ready (simulation m) = true ->
  exists m',
    reb_integrator_janus_flip m = Ok m' /\
    janus.p_prev (the_janus m') = janus.p_curr (the_janus m) /\
    janus.p_curr (the_janus m') = janus.p_prev (the_janus m) /\
    janus.p_prevrecalc (the_janus m') = janus.p_curr (the_janus m) /\
    janus.p_next (the_janus m') = janus.p_next (the_janus m) /\
    sim.t (simulation m') = sim.t (simulation m) /\
    simulation m' =
      sim.set_ri_janus
        (janus.set_p_prev (janus.p_curr (the_janus m))
           (janus.set_p_curr (janus.p_prev (the_janus m))
              (janus.set_p_prevrecalc (janus.p_curr (the_janus m)) (the_janus m))))
        (simulation m) /\
    trace m' = trace m.
Proof.
  intros Hready. eexists. split; [apply flip_ready_flip, Hready|].
  cbn. auto 10.
Qed.

(** C9. The flip is an involution on the two history generations: two
    flips in a row complete and leave [prev] and [curr] exactly as they
    were; the scratch buffer is again an allocated buffer of the same
    size (it now holds a copy of [prev]), and [next] is untouched. *)
Theorem janus_flip_involution (m : machine) :
  flip_ready (simulation m) = true ->
  exists m1 m2,
    reb_integrator_janus_flip m = Ok m1 /\
    reb_integrator_janus_flip m1 = Ok m2 /\
    janus.p_prev (the_janus m2) = janus.p_prev (the_janus m) /\
    janus.p_curr (the_janus m2) = janus.p_curr (the_janus m) /\
    janus.p_prevrecalc (the_janus m2) = janus.p_prev (the_janus m) /\
    has_length (sim.N (simulation m)) (janus.p_prevrecalc (the_janus m2)) = true /\
    janus.p_next (the_janus m2) = janus.p_next (the_janus m) /\
    flip_ready (simulation m2) = true.
Proof.
  intros Hready.
  pose proof (flip_ready_flip m Hready) as Hflip1.
  assert (Hready1 : flip_ready (simulation (with_janus (fun j =>
            janus.set_p_prev (janus.p_curr j)
              (janus.set_p_curr (janus.p_prev j)
                 (janus.set_p_prevrecalc (janus.p_curr j) j))) m)) = true).
  { revert Hready. unfold flip_ready. cbn. rewrite !andb_true_iff.
    intros [[HP HC] HS]. auto. }
  pose proof (flip_ready_flip _ Hready1) as Hflip2.
  eexists. eexists. split; [exact Hflip1|]. split; [exact Hflip2|].
  revert Hready. unfold flip_ready. cbn. rewrite !andb_true_iff.
  intros [[HP HC] HS]. auto 10.
Qed.
(** The forcing term of a zero acceleration converts to the integer 0
    whenever it converts at all. *)
Lemma zero_forcing s dt a f :
  is_zero a = true ->
  double_to_int 128 (forcing_term s dt a) = Ok f -> f = 0.
Proof.
  intros Ha. destruct a as [sa| | |]; try discriminate.
  unfold forcing_term, double_to_int.
  destruct (dmul (dmul s dt) dt) as [sx|sx| |sx mx ex]; cbn; try discriminate.
  - intros [= <-]. reflexivity.
  - intros [= <-]. reflexivity.
Qed.

Lemma wrap_unfold bits z : exists k, wrap bits z = z + k * 2 ^ Z.pos bits.
Proof.
  unfold wrap.
  exists (- ((z + 2 ^ (Z.pos bits - 1)) / 2 ^ Z.pos bits)).
  pose proof (Z.div_mod (z + 2 ^ (Z.pos bits - 1)) (2 ^ Z.pos bits)) as Hdm.
  assert (0 < 2 ^ Z.pos bits) by (apply Z.pow_pos_nonneg; lia).
  lia.
Qed.

Lemma wrap_multiple bits z k : wrap bits (z + k * 2 ^ Z.pos bits) = wrap bits z.
Proof. apply wrap_congr, Z_mod_plus_full. Qed.

(** One force-free step of a ready machine, on positions. *)
Lemma janus_free_step m m' :
  evaluator_frame -> force_free ->
  janus_ready (simulation m) = true ->
  reb_integrator_janus_part1 m = Ok m' ->
  janus_ready (simulation m') = true /\
  exists P C C',
    janus.p_prev (the_janus m) = Some P /\
    janus.p_curr (the_janus m) = Some C /\
    janus.p_prev (the_janus m') = Some C /\
    janus.p_curr (the_janus m') = Some C' /\
    length C' = length C /\
    forall i p c, P !! i = Some p -> C !! i = Some c ->
      exists c', C' !! i = Some c' /\
        position c' =
        (next_coordinate (particle_int.x p) (particle_int.x c) 0,
         next_coordinate (particle_int.y p) (particle_int.y c) 0,
         next_coordinate (particle_int.z p) (particle_int.z c) 0).
Proof.
  intros Hframe Hfree Hready Hrun.
  rewrite part1_ready in Hrun by exact Hready.
  destruct (janus_core_ready_stages _ _ _ _ Hframe Hready Hrun)
    as (P & C & X & ps & ps1 & pse & nxt & psf & HP & HC & HX & Hps & H1 & Hpse & Hlpse
        & H2 & Hlnxt & H3 & Hlpsf & ->).
  apply janus_ready_unfold in Hready
    as (P' & C' & X' & S & ps' & HN & HP' & HlP & HC' & HlC & HX' & HlX & HS & HlS
        & Hps' & Hlps & HrP & HrC).
  unfold the_janus in *.
  rewrite HP in HP'. injection HP' as <-. rewrite HC in HC'. injection HC' as <-.
  rewrite HX in HX'. injection HX' as <-.
  destruct (evaluated_frame (Some ps1) (simulation m) Hframe) as (HeN & Hedt & Hej).
  unfold evaluated in HeN, Hedt, Hej.
  split.
  - apply janus_ready_unfold. unfold janus_core_result. cbn. rewrite ?Hej, ?HeN. cbn.
    exists C, nxt, nxt, S, psf. repeat split; try assumption.
    eapply janus_update_in_range; [|exact H2]. exact HlX.
  - exists P, C, nxt. unfold janus_core_result. cbn. rewrite ?Hej. cbn.
    repeat (split; [assumption || reflexivity || congruence|]).
    intros i p c Hp Hc.
    destruct (janus_update_spec _ _ _ _ _ _ _ _ HlX H2) as (nxt' & [= <-] & _ & Hpt).
    destruct (Hpt i) as (p0 & c0 & a & o & fx & fy & fz & Hp0 & Hc0 & Ha & _ & Hfx & Hfy & Hfz & Hn);
      [apply lookup_lt_Some in Hp; lia|].
    rewrite Hp in Hp0. injection Hp0 as <-. rewrite Hc in Hc0. injection Hc0 as <-.
    assert (Hzero : acceleration_is_zero a = true).
    { pose proof (Hfree _ _ Hpse) as Hall. rewrite forallb_forall in Hall.
      apply Hall, list_elem_of_In, list_elem_of_lookup. eauto. }
    unfold acceleration_is_zero in Hzero. rewrite !andb_true_iff in Hzero.
    destruct Hzero as [[Hzx Hzy] Hzz].
    apply (zero_forcing _ _ _ _ Hzx) in Hfx. apply (zero_forcing _ _ _ _ Hzy) in Hfy.
    apply (zero_forcing _ _ _ _ Hzz) in Hfz. subst fx fy fz.
    eexists. split; [exact Hn|]. reflexivity.
Qed.

(** A step of a ready machine keeps it ready and keeps the particle count,
    the scale and the timestep. *)
Lemma janus_step_ready m m' :
  evaluator_frame ->
  janus_ready (simulation m) = true ->
  reb_integrator_janus_part1 m = Ok m' ->
  janus_ready (simulation m') = true /\
  sim.N (simulation m') = sim.N (simulation m) /\
  janus.scale (the_janus m') = janus.scale (the_janus m) /\
  sim.dt (simulation m') = sim.dt (simulation m).
Proof.
  intros Hframe Hready Hrun.
  rewrite part1_ready in Hrun by exact Hready.
  destruct (janus_core_ready_stages _ _ _ _ Hframe Hready Hrun)
    as (P & C & X & ps & ps1 & pse & nxt & psf & HP & HC & HX & Hps & H1 & Hpse & Hlpse
        & H2 & Hlnxt & H3 & Hlpsf & ->).
  apply janus_ready_unfold in Hready
    as (P' & C' & X' & S & ps' & HN & HP' & HlP & HC' & HlC & HX' & HlX & HS & HlS
        & Hps' & Hlps & HrP & HrC).
  unfold the_janus in *.
  rewrite HC in HC'. injection HC' as <-. rewrite HX in HX'. injection HX' as <-.
  destruct (evaluated_frame (Some ps1) (simulation m) Hframe) as (HeN & Hedt & Hej).
  unfold evaluated in HeN, Hedt, Hej.
  unfold janus_core_result. cbn. rewrite Hej, HeN, Hedt.
  split; [|auto].
  apply janus_ready_unfold. cbn. rewrite ?Hej, ?HeN. cbn.
  exists C, nxt, nxt, S, psf. repeat split; try assumption.
  eapply janus_update_in_range; [|exact H2]. exact HlX.
Qed.

(** A force-free step of a ready machine completes when the scale and the
    timestep are non-zero and [scale*dt*dt] is a number. *)
Lemma janus_free_step_completes m :
  evaluator_frame -> force_free ->
  janus_ready (simulation m) = true ->
  is_zero (janus.scale (the_janus m)) = false ->
  is_zero (sim.dt (simulation m)) = false ->
  forcing_scale_finite (janus.scale (the_janus m)) (sim.dt (simulation m)) = true ->
  exists m', reb_integrator_janus_part1 m = Ok m'.
Proof.
  intros Hframe Hfree Hready Hs Hdt Hfin.
  rewrite part1_ready by exact Hready.
  apply janus_ready_unfold in Hready
    as (P & C & X & S & ps & HN & HP & HlP & HC & HlC & HX & HlX & HS & HlS
        & Hps & Hlps & HrP & HrC).
  unfold the_janus in *.
  set (N := sim.N (simulation m)) in *.
  set (s := janus.scale (sim.ri_janus (simulation m))) in *.
  set (dt := sim.dt (simulation m)) in *.
  (* decode *)
  destruct (for_loop_completes _ _ (to_double_body_element (Some C) s) N ps) as [ps1 H1].
  { intros i Hi.
    destruct (lookup_lt_is_Some_2 ps i) as [o Ho]; [lia|].
    destruct (lookup_lt_is_Some_2 C i) as [q Hq]; [lia|].
    exists o. eexists. split; [exact Ho|].
    apply to_double_element_Ok. exists q. rewrite load_Some. auto. }
  (* force evaluation *)
  assert (Hl1 : length ps1 = N).
  { destruct (to_double_spec N s ps C _ Hlps H1) as (l & [= <-] & Hl & _). exact Hl. }
  destruct (evaluated_particles ps1 (simulation m) N Hframe Hl1) as (pse & Hpse & Hlpse).
  (* integer update *)
  destruct (for_loop_completes _ _
              (janus_update_body_element s dt (Some P) (Some C) (Some pse)) N X)
    as [nxt H2].
  { intros i Hi.
    destruct (lookup_lt_is_Some_2 X i) as [o Ho]; [lia|].
    destruct (lookup_lt_is_Some_2 P i) as [p Hp]; [lia|].
    destruct (lookup_lt_is_Some_2 C i) as [c Hc]; [lia|].
    destruct (lookup_lt_is_Some_2 pse i) as [a Ha]; [lia|].
    assert (Hzero : acceleration_is_zero a = true).
    { pose proof (Hfree _ _ Hpse) as Hall. rewrite forallb_forall in Hall.
      apply Hall, list_elem_of_In, list_elem_of_lookup. eauto. }
    unfold acceleration_is_zero in Hzero. rewrite !andb_true_iff in Hzero.
    destruct Hzero as [[Hzx Hzy] Hzz].
    assert (Hconv : forall a0, is_zero a0 = true ->
              double_to_int 128 (forcing_term s dt a0) = Ok 0).
    { intros a0 Ha0. destruct a0 as [sa| | |]; try discriminate.
      unfold forcing_term. unfold forcing_scale_finite in Hfin.
      destruct (dmul (dmul s dt) dt); try discriminate; reflexivity. }
    exists o. eexists. split; [exact Ho|].
    apply update_element_Ok. exists p, c, a, 0, 0, 0.
    rewrite !load_Some. auto 10. }
  assert (Hlnxt : length nxt = N).
  { destruct (janus_update_spec N s dt P C pse X _ HlX H2) as (l & [= <-] & Hl & _).
    exact Hl. }
  (* velocities *)
  destruct (janus_velocities_completes N s dt nxt P pse Hlpse Hlnxt HlP) as [psf H3];
    [auto|].
  eexists.
  eapply (janus_core_ready_completes dt s m P C X ps ps1 pse nxt psf Hframe); eauto.
Qed.

(** So does every force-free run. *)
Lemma janus_free_steps_complete n : forall m,
  evaluator_frame -> force_free ->
  janus_ready (simulation m) = true ->
  is_zero (janus.scale (the_janus m)) = false ->
  is_zero (sim.dt (simulation m)) = false ->
  forcing_scale_finite (janus.scale (the_janus m)) (sim.dt (simulation m)) = true ->
  exists m', janus_steps n m = Ok m'.
Proof.
  induction n as [|n IH]; intros m Hframe Hfree Hready Hs Hdt Hfin.
  - cbn. eauto.
  - destruct (janus_free_step_completes m Hframe Hfree Hready Hs Hdt Hfin) as [m1 Hstep].
    destruct (janus_step_ready m m1 Hframe Hready Hstep) as (Hr1 & _ & Hs1 & Hdt1).
    cbn. rewrite Hstep. cbn. apply IH; try assumption; congruence.
Qed.

(** C5. Exact free-particle motion.  With a force evaluator that reports
    zero acceleration on every axis, every completed run of [n] steps
    from a ready state leaves, for every particle, the [curr] position at
    [curr + n * (curr - prev)] and the [prev] position one increment
    behind, computed in the storage type with nothing else added: the
    per-step increment is the constant integer [curr - prev], and as long
    as the line stays inside the storage range the position is exactly
    on it, with no accumulated drift. *)
Theorem janus_free_motion (n : nat) (m m' : machine) :
  evaluator_frame -> force_free ->
  janus_ready (simulation m) = true ->
  janus_steps n m = Ok m' ->
  exists P C P' C',
    janus.p_prev (the_janus m) = Some P /\
    janus.p_curr (the_janus m) = Some C /\
    janus.p_prev (the_janus m') = Some P' /\
    janus.p_curr (the_janus m') = Some C' /\
    forall i p c, P !! i = Some p -> C !! i = Some c ->
      exists p' c', P' !! i = Some p' /\ C' !! i = Some c' /\
        position c' =
          wrap_position int_bits (linear_position (position c) (position p) (Z.of_nat n)) /\
        position p' =
          wrap_position int_bits (linear_position (position c) (position p) (Z.of_nat n - 1)) /\
        (position_in_range int_bits
           (linear_position (position c) (position p) (Z.of_nat n)) = true ->
         position c' = linear_position (position c) (position p) (Z.of_nat n)).
Proof.
  intros Hframe Hfree. revert m.
  assert (Hexact : forall v, position_in_range int_bits v = true ->
                             wrap_position int_bits v = v).
  { intros [[vx vy] vz]. unfold position_in_range, wrap_position. cbn.
    rewrite !andb_true_iff. intros [[Hx Hy] Hz].
    rewrite !wrap_small by assumption. reflexivity. }
  induction n as [|n IH]; intros m Hready Hrun.
  - cbn in Hrun. injection Hrun as <-.
    apply janus_ready_unfold in Hready
      as (P & C & X & S & ps & HN & HP & HlP & HC & HlC & _ & _ & _ & _ & _ & _ & HrP & HrC).
    exists P, C, P, C. unfold the_janus. repeat (split; [assumption|]).
    intros i p c Hp Hc. exists p, c. split; [exact Hp|]. split; [exact Hc|].
    pose proof (positions_in_range_lookup _ _ _ HrP Hp) as Hpr.
    pose proof (positions_in_range_lookup _ _ _ HrC Hc) as Hcr.
    assert (Hl0 : linear_position (position c) (position p) (Z.of_nat 0) = position c).
    { unfold linear_position, position. cbn. f_equal; [f_equal|]; lia. }
    assert (Hl1 : linear_position (position c) (position p) (Z.of_nat 0 - 1) = position p).
    { unfold linear_position, position. cbn. f_equal; [f_equal|]; lia. }
    rewrite Hl0, Hl1, !Hexact by assumption. auto.
  - cbn in Hrun. apply bind_Ok in Hrun as (m1 & Hstep & Hrest).
    destruct (janus_free_step m m1 Hframe Hfree Hready Hstep)
      as (Hr1 & P & C & C1 & HP & HC & HP1 & HC1 & HlC1 & Hpt).
    destruct (IH m1 Hr1 Hrest) as (P1 & C1' & P' & C' & HP1' & HC1' & HP' & HC' & Hlin).
    rewrite HP1 in HP1'. injection HP1' as <-. rewrite HC1 in HC1'. injection HC1' as <-.
    exists P, C, P', C'. repeat (split; [assumption|]).
    intros i p c Hp Hc.
    destruct (Hpt i p c Hp Hc) as (c1 & Hc1 & Hpos1).
    destruct (Hlin i c c1 Hc Hc1) as (p' & c' & Hp' & Hc' & Hposc & Hposp & _).
    exists p', c'. split; [exact Hp'|]. split; [exact Hc'|].
    assert (Hc_new : position c' =
              wrap_position int_bits
                (linear_position (position c) (position p) (Z.of_nat (S n)))).
    { rewrite Hposc, Hpos1. unfold wrap_position, linear_position, position. cbn.
      rewrite !next_coordinate_wrap.
      f_equal; [f_equal|].
      all: match goal with
           | |- wrap _ (wrap _ ?a + ?k * (wrap _ ?a - ?c)) = wrap _ ?t =>
               destruct (wrap_unfold int_bits a) as [j ->];
               rewrite <- (wrap_multiple int_bits t (j + k * j)); f_equal; lia
           end. }
    split; [exact Hc_new|]. split.
    + rewrite Hposp, Hpos1. unfold wrap_position, linear_position, position. cbn.
      rewrite !next_coordinate_wrap.
      f_equal; [f_equal|].
      all: match goal with
           | |- wrap _ (wrap _ ?a + ?k * (wrap _ ?a - ?c)) = wrap _ ?t =>
               destruct (wrap_unfold int_bits a) as [j ->];
               rewrite <- (wrap_multiple int_bits t (j + k * j)); f_equal; lia
           end.
    + intros Hin. rewrite Hc_new. apply Hexact, Hin.
Qed.
(** What one step appends to the trace, and the counts it leaves. *)
Lemma janus_step_trace m m' :
  count_unchanged ->
  reb_integrator_janus_part1 m = Ok m' ->
  trace m' =
    trace m
    ++ (if (janus.allocated_N (the_janus m) =? sim.N (simulation m))%nat
        then [] else [Ev_printf Realloc_line; Ev_reb_step])
    ++ [Ev_reb_update_acceleration] /\
  sim.N (simulation m') = sim.N (simulation m) /\
  janus.allocated_N (the_janus m') = sim.N (simulation m').
Proof.
  intros [HsN Hsa HeN Hea]. unfold reb_integrator_janus_part1.
  intros Hrun. apply bind_Ok in Hrun as (mb & Hboot & Hcore).
  assert (Hb : trace mb =
               trace m ++ (if (janus.allocated_N (the_janus m) =? sim.N (simulation m))%nat
                           then [] else [Ev_printf Realloc_line; Ev_reb_step]) /\
               sim.N (simulation mb) = sim.N (simulation m) /\
               janus.allocated_N (the_janus mb) = sim.N (simulation m)).
  { unfold the_janus in *.
    destruct (janus.allocated_N (sim.ri_janus (simulation m)) =? sim.N (simulation m))%nat
      eqn:Htest; cbn [negb] in Hboot.
    - injection Hboot as <-. rewrite app_nil_r. apply Nat.eqb_eq in Htest. auto.
    - unfold janus_bootstrap in Hboot. split_binds Hboot. injection Hboot as <-.
      cbn. rewrite HsN, Hsa. cbn. rewrite <- app_assoc. auto. }
  destruct Hb as (Htr & HNb & Hab).
  apply janus_core_stages in Hcore
    as (ps1 & next & ps2 & prev & curr & _ & _ & _ & _ & _ & ->).
  unfold janus_core_result, the_janus in *. cbn.
  rewrite HeN, Hea. cbn. rewrite Htr, <- app_assoc.
  split; [reflexivity|]. split; congruence.
Qed.

Lemma bootstraps_step tr (due : bool) :
  bootstraps (tr ++ (if due then [] else [Ev_printf Realloc_line; Ev_reb_step])
                 ++ [Ev_reb_update_acceleration])
  = (bootstraps tr + (if due then 0 else 1))%nat /\
  probe_steps (tr ++ (if due then [] else [Ev_printf Realloc_line; Ev_reb_step])
                  ++ [Ev_reb_update_acceleration])
  = (probe_steps tr + (if due then 0 else 1))%nat.
Proof.
  unfold bootstraps, probe_steps.
  rewrite !List.filter_app, !length_app.
  destruct due; split; reflexivity.
Qed.

(** C6. Idempotent bootstrap.  When the external collaborators leave the
    particle count alone, every completed run of one or more steps has
    printed the bootstrap line and called the companion scheme's step
    exactly once if the stored count differed from the host's count when
    the run began, and not at all if it did not; so a single step
    bootstraps exactly when the counts differ, and no later step of the
    run bootstraps again.  The run ends with the stored count equal to the
    host's. *)
Theorem janus_bootstrap_once (n : nat) (m m' : machine) :
  count_unchanged ->
  janus_steps (S n) m = Ok m' ->
  bootstraps (trace m') = (bootstraps (trace m) + bootstrap_due (simulation m))%nat /\
  probe_steps (trace m') = (probe_steps (trace m) + bootstrap_due (simulation m))%nat /\
  sim.N (simulation m') = sim.N (simulation m) /\
  bootstrap_due (simulation m') = 0%nat.
Proof.
  intros Hcount. revert m.
  induction n as [|n IH]; intros m Hrun.
  - cbn in Hrun. apply bind_Ok in Hrun as (m1 & Hstep & [= <-]).
    destruct (janus_step_trace m m1 Hcount Hstep) as (Htr & HN & Ha).
    rewrite Htr. unfold bootstrap_due, the_janus in *.
    destruct (bootstraps_step (trace m)
                (janus.allocated_N (sim.ri_janus (simulation m)) =? sim.N (simulation m))%nat)
      as [-> ->].
    rewrite Ha, Nat.eqb_refl.
    destruct (janus.allocated_N (sim.ri_janus (simulation m)) =? sim.N (simulation m))%nat;
      auto.
  - change (janus_steps (S (S n)) m)
      with (m1 ← reb_integrator_janus_part1 m; janus_steps (S n) m1) in Hrun.
    apply bind_Ok in Hrun as (m1 & Hstep & Hrest).
    destruct (janus_step_trace m m1 Hcount Hstep) as (Htr & HN & Ha).
    destruct (IH m1 Hrest) as (Hb & Hp & HN' & Hdue).
    rewrite Hb, Hp, HN', HN, Htr. unfold bootstrap_due, the_janus in *.
    destruct (bootstraps_step (trace m)
                (janus.allocated_N (sim.ri_janus (simulation m)) =? sim.N (simulation m))%nat)
      as [-> ->].
    rewrite Ha, Nat.eqb_refl, !Nat.add_0_r.
    destruct (janus.allocated_N (sim.ri_janus (simulation m)) =? sim.N (simulation m))%nat;
      auto.
Qed.
(** ** Divisions *)

Lemma no_div_bind {A B : Type} (e : result A) (k : A -> result B) :
  no_division_by_zero e -> (forall a, no_division_by_zero (k a)) ->
  no_division_by_zero (a ← e; k a).
Proof.
  unfold no_division_by_zero. intros He Hk.
  destruct e as [a|err]; cbn; [apply Hk|].
  intros [= ->]. apply He. reflexivity.
Qed.

Lemma no_div_Ok {A : Type} (a : A) : no_division_by_zero (Ok a).
Proof. discriminate. Qed.

Lemma no_div_load {A : Type} (p : array A) i : no_division_by_zero (load p i).
Proof. unfold load. destruct p as [l|]; [destruct (l !! i)|]; discriminate. Qed.

Lemma no_div_store {A : Type} (p : array A) i f : no_division_by_zero (store p i f).
Proof. unfold store. destruct p as [l|]; [destruct (l !! i)|]; discriminate. Qed.

Lemma no_div_memcpy {A : Type} (dst src : array A) n :
  no_division_by_zero (memcpy dst src n).
Proof.
  unfold memcpy. destruct n; [discriminate|].
  destruct dst, src; try discriminate.
  destruct (_ && _); discriminate.
Qed.

Lemma no_div_double_to_int bits a : no_division_by_zero (double_to_int bits a).
Proof.
  unfold double_to_int. destruct (trunc_double a); [|discriminate].
  destruct (in_int_range bits z); discriminate.
Qed.

Lemma no_div_ddiv_checked a b :
  is_zero b = false -> no_division_by_zero (ddiv_checked a b).
Proof. intros Hb. unfold ddiv_checked. rewrite Hb. discriminate. Qed.

Lemma no_div_for_loop {S : Type} n (body : nat -> S -> result S) s :
  (forall i s, no_division_by_zero (body i s)) ->
  no_division_by_zero (for_loop n body s).
Proof. intros Hbody. apply for_from_no_error. exact Hbody. Qed.

Ltac no_div :=
  repeat first
    [ apply no_div_Ok | apply no_div_load | apply no_div_store | apply no_div_memcpy
    | apply no_div_double_to_int
    | apply no_div_ddiv_checked; (assumption || reflexivity)
    | apply no_div_bind; [|intros ?] ].

Lemma no_div_to_int psi ps N s : no_division_by_zero (to_int psi ps N s).
Proof. apply no_div_for_loop. intros i a. unfold to_int_body. no_div. Qed.

Lemma no_div_to_double ps psi N s :
  is_zero s = false -> no_division_by_zero (to_double ps psi N s).
Proof. intros Hs. apply no_div_for_loop. intros i a. unfold to_double_body. no_div. Qed.

Lemma no_div_janus_update s dt N P C ps X :
  no_division_by_zero (janus_update s dt N P C ps X).
Proof. apply no_div_for_loop. intros i a. unfold janus_update_body. no_div. Qed.

Lemma no_div_janus_velocities s dt N X P ps :
  is_zero s = false -> is_zero dt = false ->
  no_division_by_zero (janus_velocities s dt N X P ps).
Proof.
  intros Hs Hdt. apply no_div_for_loop. intros i a.
  unfold janus_velocities_body, central_difference. no_div.
Qed.

Lemma no_div_janus_bootstrap t dt N s m :
  no_division_by_zero (janus_bootstrap t dt N s m).
Proof.
  unfold janus_bootstrap. cbn zeta.
  repeat first [ apply no_div_to_int | apply no_div_memcpy | apply no_div_Ok
               | apply no_div_bind; [|intros ?] ].
Qed.

Lemma no_div_janus_core dt N s m :
  is_zero s = false -> is_zero dt = false ->
  no_division_by_zero (janus_core dt N s m).
Proof.
  intros Hs Hdt. unfold janus_core. cbn zeta.
  repeat first [ apply no_div_to_double; assumption
               | apply no_div_janus_update
               | apply no_div_janus_velocities; assumption
               | apply no_div_memcpy | apply no_div_Ok
               | apply no_div_bind; [|intros ?] ].
Qed.

(** A completed velocity loop over at least one particle has divided by
    the scale and by the timestep, so neither is zero. *)
Lemma janus_velocities_divides s dt N X P ps r :
  (0 < N)%nat ->
  janus_velocities s dt N X P ps = Ok r ->
  is_zero s = false /\ is_zero dt = false.
Proof.
  intros HN Hrun. destruct N as [|N]; [lia|].
  unfold janus_velocities, for_loop in Hrun. cbn [for_from] in Hrun.
  apply bind_Ok in Hrun as (ps' & Hbody & _).
  unfold janus_velocities_body in Hbody. split_binds Hbody.
  eapply central_difference_Ok. eassumption.
Qed.

(** C10. The divisions of the step.  The decode divides by the scale and
    the velocity reconstruction by the scale, by [2.] and by the
    timestep, each division carrying its guard in this embedding.  With a
    non-zero scale and a non-zero timestep the step never ends in the
    division-by-zero error; and a step over at least one particle that
    completes had a non-zero scale and a non-zero timestep. *)
Theorem janus_divisions_guarded (m : machine) :
  (is_zero (janus.scale (the_janus m)) = false ->
   is_zero (sim.dt (simulation m)) = false ->
   no_division_by_zero (reb_integrator_janus_part1 m)) /\
  (forall m', (0 < sim.N (simulation m))%nat ->
     reb_integrator_janus_part1 m = Ok m' ->
     is_zero (janus.scale (the_janus m)) = false /\
     is_zero (sim.dt (simulation m)) = false).
Proof.
  split.
  - intros Hs Hdt. unfold reb_integrator_janus_part1.
    apply no_div_bind.
    + destruct (negb _); [apply no_div_janus_bootstrap | apply no_div_Ok].
    + intros mb. apply no_div_janus_core; assumption.
  - intros m' HN Hrun. unfold reb_integrator_janus_part1 in Hrun.
    apply bind_Ok in Hrun as (mb & _ & Hcore).
    apply janus_core_stages in Hcore
      as (ps1 & next & ps2 & prev & curr & _ & _ & Hvel & _).
    eapply janus_velocities_divides; eassumption.
Qed.
(** ** Determinism of the integer update *)

Lemma for_from_ext {S : Type} (body1 body2 : nat -> S -> result S) :
  (forall i s, body1 i s = body2 i s) ->
  forall n from s, for_from body1 from n s = for_from body2 from n s.
Proof.
  intros Hext n. induction n as [|n IH]; intros from s; cbn; [reflexivity|].
  rewrite Hext. destruct (body2 from s); cbn; auto.
Qed.

(** The integer update reads nothing of the particles but their
    accelerations. *)
Lemma janus_update_accelerations s dt N P C psa psb X :
  accelerations psa = accelerations psb ->
  janus_update s dt N P C psa X = janus_update s dt N P C psb X.
Proof.
  intros Hacc. unfold janus_update, for_loop. apply for_from_ext.
  intros i nx. unfold janus_update_body.
  destruct (load P i) as [p|]; [|reflexivity].
  destruct (load C i) as [c|]; [|reflexivity]. cbn [mbind result_bind].
  destruct psa as [la|], psb as [lb|]; try discriminate; [|reflexivity].
  cbn in Hacc. injection Hacc as Hacc. unfold load.
  destruct (la !! i) as [a|] eqn:Ha.
  - destruct (fmap_eq_lookup _ _ _ _ _ _ Hacc Ha) as (b & -> & Hab).
    cbn [mbind result_bind].
    unfold acceleration in Hab. injection Hab as -> -> ->. reflexivity.
  - apply lookup_ge_None in Ha.
    rewrite (fmap_eq_length _ _ _ _ Hacc) in Ha.
    apply lookup_ge_None in Ha. rewrite Ha. reflexivity.
Qed.

(** C8. Determinism of the integer update.  Two steps from ready machines
    that agree on the particle count, the scale, the timestep and the
    three generation buffers, and in which the force evaluator delivered
    the same accelerations (they are still in the particle arrays when
    the steps end), leave identical [next], [prev] and [curr] buffers,
    whatever else differs between the two hosts. *)
Theorem janus_update_deterministic (m1 m2 m1' m2' : machine) :
  evaluator_frame ->
  janus_ready (simulation m1) = true ->
  janus_ready (simulation m2) = true ->
  same_update_inputs m1 m2 ->
  reb_integrator_janus_part1 m1 = Ok m1' ->
  reb_integrator_janus_part1 m2 = Ok m2' ->
  accelerations (sim.particles (simulation m1')) =
  accelerations (sim.particles (simulation m2')) ->
  janus.p_next (the_janus m1') = janus.p_next (the_janus m2') /\
  janus.p_prev (the_janus m1') = janus.p_prev (the_janus m2') /\
  janus.p_curr (the_janus m1') = janus.p_curr (the_janus m2').
Proof.
  intros Hframe Hr1 Hr2 (HN & Hs & Hdt & HP & HC & HX) Hrun1 Hrun2 Hacc.
  rewrite part1_ready in Hrun1 by exact Hr1.
  rewrite part1_ready in Hrun2 by exact Hr2.
  destruct (janus_core_ready_stages _ _ _ _ Hframe Hr1 Hrun1)
    as (P1 & C1 & X1 & ps1 & psd1 & pse1 & nxt1 & psf1 & HP1 & HC1 & HX1 & _ & _
        & _ & Hle1 & Hu1 & _ & Hv1 & _ & ->).
  destruct (janus_core_ready_stages _ _ _ _ Hframe Hr2 Hrun2)
    as (P2 & C2 & X2 & ps2 & psd2 & pse2 & nxt2 & psf2 & HP2 & HC2 & HX2 & _ & _
        & _ & Hle2 & Hu2 & _ & Hv2 & _ & ->).
  rewrite HP1, HP2 in HP. injection HP as <-.
  rewrite HC1, HC2 in HC. injection HC as <-.
  rewrite HX1, HX2 in HX. injection HX as <-.
  destruct (janus_velocities_spec _ _ _ _ _ _ _ Hle1 Hv1) as (l1 & [= <-] & _ & _ & Ha1 & _).
  destruct (janus_velocities_spec _ _ _ _ _ _ _ Hle2 Hv2) as (l2 & [= <-] & _ & _ & Ha2 & _).
  unfold janus_core_result in Hacc. cbn in Hacc. injection Hacc as Hacc.
  rewrite Ha1, Ha2 in Hacc.
  rewrite <- HN, <- Hs, <- Hdt in Hu2.
  rewrite (janus_update_accelerations _ _ _ _ _ (Some pse1) (Some pse2)) in Hu1
    by (cbn; f_equal; exact Hacc).
  rewrite Hu1 in Hu2. injection Hu2 as <-.
  unfold janus_core_result, the_janus. cbn. auto.
Qed.

(** ** The step formula *)

Lemma double_to_int_trunc bits a z :
  double_to_int bits a = Ok z -> trunc_double a = Some z.
Proof.
  unfold double_to_int. destruct (trunc_double a) as [t|]; [|discriminate].
  destruct (in_int_range bits t); [|discriminate]. intros [= <-]. reflexivity.
Qed.

(** C2 (as amended). One step computes, for each body and each axis
    independently, [next = -prev + 2*curr + trunc(forcing)] in the storage
    type: the forcing term [scale*dt*dt*acceleration] is one binary64
    product, converted to an integer once by discarding its fraction
    (truncation toward zero, not rounding to nearest); the rest is integer
    arithmetic.  The new generation is then both [next] and [curr], and
    the old [curr] is [prev]. *)
Theorem janus_step_formula (m m' : machine) :
  evaluator_frame ->
  janus_ready (simulation m) = true ->
  reb_integrator_janus_part1 m = Ok m' ->
  exists P C C' A,
    janus.p_prev (the_janus m) = Some P /\
    janus.p_curr (the_janus m) = Some C /\
    janus.p_next (the_janus m') = Some C' /\
    janus.p_curr (the_janus m') = Some C' /\
    janus.p_prev (the_janus m') = Some C /\
    sim.particles (simulation m') = Some A /\
    forall i, (i < sim.N (simulation m))%nat ->
      exists p c q a fx fy fz,
        P !! i = Some p /\ C !! i = Some c /\ C' !! i = Some q /\ A !! i = Some a /\
        trunc_double (forcing_term (janus.scale (the_janus m)) (sim.dt (simulation m))
                        (particle.ax a)) = Some fx /\
        trunc_double (forcing_term (janus.scale (the_janus m)) (sim.dt (simulation m))
                        (particle.ay a)) = Some fy /\
        trunc_double (forcing_term (janus.scale (the_janus m)) (sim.dt (simulation m))
                        (particle.az a)) = Some fz /\
        particle_int.x q = wrap int_bits (- particle_int.x p + 2 * particle_int.x c + fx) /\
        particle_int.y q = wrap int_bits (- particle_int.y p + 2 * particle_int.y c + fy) /\
        particle_int.z q = wrap int_bits (- particle_int.z p + 2 * particle_int.z c + fz).
Proof.
  intros Hframe Hready Hrun.
  rewrite part1_ready in Hrun by exact Hready.
  destruct (janus_core_ready_stages _ _ _ _ Hframe Hready Hrun)
    as (P & C & X & ps & ps1 & pse & nxt & psf & HP & HC & HX & Hps & H1 & Hpse & Hlpse
        & H2 & Hlnxt & H3 & Hlpsf & ->).
  apply janus_ready_unfold in Hready
    as (P' & C' & X' & S & ps' & HN & HP' & HlP & HC' & HlC & HX' & HlX & _).
  unfold the_janus in *.
  rewrite HX in HX'. injection HX' as <-.
  exists P, C, nxt, psf. unfold janus_core_result. cbn.
  repeat (split; [assumption || reflexivity|]).
  intros i Hi.
  destruct (janus_update_spec _ _ _ _ _ _ _ _ HlX H2) as (nxt' & [= <-] & _ & Hpt).
  destruct (Hpt i Hi) as (p & c & a & o & fx & fy & fz & Hp & Hc & Ha & _ & Hfx & Hfy & Hfz & Hn).
  destruct (janus_velocities_spec _ _ _ _ _ _ _ Hlpse H3) as (l & [= <-] & _ & _ & Hacc & _).
  destruct (fmap_eq_lookup _ _ _ _ _ _ (eq_sym Hacc) Ha) as (b & Hb & Hab).
  unfold acceleration in Hab. injection Hab as Hax Hay Haz.
  exists p, c. eexists. exists b, fx, fy, fz.
  rewrite <- Hax, <- Hay, <- Haz.
  repeat (split; [eassumption || (eapply double_to_int_trunc; eassumption)|]).
  cbn. rewrite !next_coordinate_wrap. auto.
Qed.

(** ** Teardown *)

Lemma free_and_clear_None {A : Type} (p : array A) : free_and_clear p = None.
Proof. destruct p; reflexivity. Qed.

Lemma janus_reset_effect (m : machine) :
  exists m',
    reb_integrator_janus_reset m = Ok m' /\
    janus.allocated_N (the_janus m') = 0%nat /\
    janus.p_prev (the_janus m') = None /\
    janus.p_curr (the_janus m') = None /\
    janus.p_prevrecalc (the_janus m') = None /\
    janus.p_next (the_janus m') = janus.p_next (the_janus m) /\
    reb_integrator_janus_reset m' = Ok m'.
Proof.
  destruct m as [[t dt N ps integ st git [s aN pp pc pn pr]] tr].
  eexists. split; [reflexivity|].
  unfold reb_integrator_janus_reset, with_janus, with_sim. cbn.
  rewrite !free_and_clear_None. cbn. auto 10.
Qed.

(** ** Bootstrap *)

(** C4 (as amended). A completed bootstrap leaves the host's time, its
    timestep and its particle array as they were when it began (the
    particle array restored from the snapshot, the companion scheme having
    kept it allocated at its size), and sets the run status to
    [REB_RUNNING] and the integrator selector to [REB_INTEGRATOR_JANUS],
    whatever they were before. *)
Theorem janus_bootstrap_restores (m m' : machine) :
  probe_keeps_particles ->
  has_length (sim.N (simulation m)) (sim.particles (simulation m)) = true ->
  bootstrap_of m = Ok m' ->
  sim.t (simulation m') = sim.t (simulation m) /\
  sim.dt (simulation m') = sim.dt (simulation m) /\
  sim.particles (simulation m') = sim.particles (simulation m) /\
  sim.status (simulation m') = REB_RUNNING /\
  sim.integrator (simulation m') = REB_INTEGRATOR_JANUS.
Proof.
  intros Hprobe Hps Hrun. unfold bootstrap_of, janus_bootstrap in Hrun.
  cbn zeta in Hrun. apply bind_Ok in Hrun as (orig & Horig & Hrun).
  apply bind_Ok in Hrun as (curr & _ & Hrun).
  apply bind_Ok in Hrun as (prev & _ & Hrun).
  apply bind_Ok in Hrun as (ps & Hback & Hrun).
  injection Hrun as <-. cbn in Horig, Hback |- *.
  rewrite memcpy_whole in Horig; [|cbn; rewrite length_replicate; apply Nat.eqb_refl|exact Hps].
  injection Horig as <-.
  rewrite memcpy_whole in Hback; [|apply Hprobe; exact Hps|exact Hps].
  injection Hback as <-. auto.
Qed.
End Claims.

(** A run of five steps in the harmonic well, reversed. *)
Lemma janus_reversibility_witness :
  @acceleration_by_position (test_host harmonic_field) /\
  @janus_ready (test_host harmonic_field) (simulation harmonic_machine) = true /\
  janus_steps (H := test_host harmonic_field) 5 harmonic_machine = Ok harmonic_after_5 /\
  exists m2 m3 m4,
    reb_integrator_janus_flip harmonic_after_5 = Ok m2 /\
    janus_steps (H := test_host harmonic_field) 5 (negate_dt m2) = Ok m3 /\
    positions (janus.p_prev (the_janus m3)) =
      positions (janus.p_curr (the_janus harmonic_machine)) /\
    positions (janus.p_curr (the_janus m3)) =
      positions (janus.p_prev (the_janus harmonic_machine)) /\
    reb_integrator_janus_flip m3 = Ok m4 /\
    positions (janus.p_prev (the_janus m4)) =
      positions (janus.p_prev (the_janus harmonic_machine)) /\
    positions (janus.p_curr (the_janus m4)) =
      positions (janus.p_curr (the_janus harmonic_machine)).
Proof.
  assert (Hacc := force_field_by_position harmonic_field).
  assert (Hready : @janus_ready (test_host harmonic_field) (simulation harmonic_machine) = true)
    by (vm_compute; reflexivity).
  assert (Hrun : janus_steps (H := test_host harmonic_field) 5 harmonic_machine
                 = Ok harmonic_after_5) by (vm_compute; reflexivity).
  split; [exact Hacc|]. split; [exact Hready|]. split; [exact Hrun|].
  exact (janus_reversibility (H := test_host harmonic_field) 5 harmonic_machine
           harmonic_after_5 Hacc Hready Hrun).
Defined.

(** The flip of the harmonic machine. *)
Lemma janus_flip_exchanges_witness :
  flip_ready (simulation harmonic_machine) = true /\
  exists m',
    reb_integrator_janus_flip harmonic_machine = Ok m' /\
    janus.p_prev (the_janus m') = janus.p_curr (the_janus harmonic_machine) /\
    janus.p_curr (the_janus m') = janus.p_prev (the_janus harmonic_machine) /\
    janus.p_prevrecalc (the_janus m') = janus.p_curr (the_janus harmonic_machine) /\
    janus.p_next (the_janus m') = janus.p_next (the_janus harmonic_machine) /\
    sim.t (simulation m') = sim.t (simulation harmonic_machine) /\
    simulation m' =
      sim.set_ri_janus
        (janus.set_p_prev (janus.p_curr (the_janus harmonic_machine))
           (janus.set_p_curr (janus.p_prev (the_janus harmonic_machine))
              (janus.set_p_prevrecalc (janus.p_curr (the_janus harmonic_machine))
                 (the_janus harmonic_machine))))
        (simulation harmonic_machine) /\
    trace m' = trace harmonic_machine.
Proof.
  split; [reflexivity|].
  apply (janus_flip_exchanges harmonic_machine). reflexivity.
Defined.

(** Two flips of the harmonic machine. *)
Lemma janus_flip_involution_witness :
  flip_ready (simulation harmonic_machine) = true /\
  exists m1 m2,
    reb_integrator_janus_flip harmonic_machine = Ok m1 /\
    reb_integrator_janus_flip m1 = Ok m2 /\
    janus.p_prev (the_janus m2) = janus.p_prev (the_janus harmonic_machine) /\
    janus.p_curr (the_janus m2) = janus.p_curr (the_janus harmonic_machine) /\
    janus.p_prevrecalc (the_janus m2) = janus.p_prev (the_janus harmonic_machine) /\
    has_length (sim.N (simulation harmonic_machine))
      (janus.p_prevrecalc (the_janus m2)) = true /\
    janus.p_next (the_janus m2) = janus.p_next (the_janus harmonic_machine) /\
    flip_ready (simulation m2) = true.
Proof.
  split; [reflexivity|].
  apply (janus_flip_involution harmonic_machine). reflexivity.
Defined.

Lemma free_field_force_free : @force_free (test_host free_field).
Proof.
  intros r ps. cbn. unfold force_field_evaluator. cbn.
  destruct (sim.particles r) as [l|]; cbn; [|discriminate].
  intros [= <-]. apply forallb_forall. intros p Hp.
  apply in_map_iff in Hp as (q & <- & _). reflexivity.
Qed.

(** The free particle of the scenario, one hundred steps. *)
Lemma janus_free_motion_witness :
  @evaluator_frame (test_host free_field) /\
  @force_free (test_host free_field) /\
  @janus_ready (test_host free_field) (simulation free_machine) = true /\
  janus_steps (H := test_host free_field) 100 free_machine = Ok free_after_100 /\
  exists P C P' C',
    janus.p_prev (the_janus free_machine) = Some P /\
    janus.p_curr (the_janus free_machine) = Some C /\
    janus.p_prev (the_janus free_after_100) = Some P' /\
    janus.p_curr (the_janus free_after_100) = Some C' /\
    forall i p c, P !! i = Some p -> C !! i = Some c ->
      exists p' c', P' !! i = Some p' /\ C' !! i = Some c' /\
        position c' =
          wrap_position 64 (linear_position (position c) (position p) (Z.of_nat 100)) /\
        position p' =
          wrap_position 64 (linear_position (position c) (position p) (Z.of_nat 100 - 1)) /\
        (position_in_range 64
           (linear_position (position c) (position p) (Z.of_nat 100)) = true ->
         position c' = linear_position (position c) (position p) (Z.of_nat 100)).
Proof.
  assert (Hframe := force_field_frame free_field).
  assert (Hfree := free_field_force_free).
  assert (Hready : @janus_ready (test_host free_field) (simulation free_machine) = true)
    by (vm_compute; reflexivity).
  assert (Hrun : janus_steps (H := test_host free_field) 100 free_machine
                 = Ok free_after_100) by (vm_compute; reflexivity).
  split; [exact Hframe|]. split; [exact Hfree|]. split; [exact Hready|].
  split; [exact Hrun|].
  exact (janus_free_motion (H := test_host free_field) 100 free_machine free_after_100
           Hframe Hfree Hready Hrun).
Defined.

Lemma test_host_count_unchanged f : @count_unchanged (test_host f).
Proof. split; reflexivity. Qed.

(** The free particle of the scenario from its first step on: three steps,
    one bootstrap. *)
Lemma janus_bootstrap_once_witness :
  @count_unchanged (test_host free_field) /\
  janus_steps (H := test_host free_field) 3 fresh_machine = Ok fresh_after_3 /\
  bootstraps (trace fresh_after_3) = 1%nat /\
  probe_steps (trace fresh_after_3) = 1%nat /\
  sim.N (simulation fresh_after_3) = 1%nat /\
  bootstrap_due (simulation fresh_after_3) = 0%nat.
Proof.
  assert (Hcount := test_host_count_unchanged free_field).
  assert (Hrun : janus_steps (H := test_host free_field) 3 fresh_machine
                 = Ok fresh_after_3) by (vm_compute; reflexivity).
  split; [exact Hcount|]. split; [exact Hrun|].
  exact (janus_bootstrap_once (H := test_host free_field) 2 fresh_machine fresh_after_3
           Hcount Hrun).
Defined.

(** The divisions of a step of the harmonic machine. *)
Lemma janus_divisions_guarded_witness :
  is_zero (janus.scale (the_janus harmonic_machine)) = false /\
  is_zero (sim.dt (simulation harmonic_machine)) = false /\
  no_division_by_zero
    (reb_integrator_janus_part1 (H := test_host harmonic_field) harmonic_machine).
Proof.
  split; [reflexivity|]. split; [reflexivity|].
  apply (proj1 (janus_divisions_guarded (H := test_host harmonic_field) harmonic_machine));
    reflexivity.
Defined.

(** Two hosts around the same harmonic state. *)
Lemma janus_update_deterministic_witness :
  @evaluator_frame (test_host harmonic_field) /\
  @janus_ready (test_host harmonic_field) (simulation harmonic_machine) = true /\
  @janus_ready (test_host harmonic_field) (simulation harmonic_machine_other) = true /\
  same_update_inputs harmonic_machine harmonic_machine_other /\
  reb_integrator_janus_part1 (H := test_host harmonic_field) harmonic_machine
    = Ok harmonic_after_1 /\
  reb_integrator_janus_part1 (H := test_host harmonic_field) harmonic_machine_other
    = Ok harmonic_other_after_1 /\
  accelerations (sim.particles (simulation harmonic_after_1)) =
  accelerations (sim.particles (simulation harmonic_other_after_1)) /\
  janus.p_next (the_janus harmonic_after_1) = janus.p_next (the_janus harmonic_other_after_1) /\
  janus.p_prev (the_janus harmonic_after_1) = janus.p_prev (the_janus harmonic_other_after_1) /\
  janus.p_curr (the_janus harmonic_after_1) = janus.p_curr (the_janus harmonic_other_after_1).
Proof.
  assert (Hframe := force_field_frame harmonic_field).
  assert (Hr1 : @janus_ready (test_host harmonic_field) (simulation harmonic_machine) = true)
    by (vm_compute; reflexivity).
  assert (Hr2 : @janus_ready (test_host harmonic_field)
                  (simulation harmonic_machine_other) = true)
    by (vm_compute; reflexivity).
  assert (Hsame : same_update_inputs harmonic_machine harmonic_machine_other)
    by (repeat split; reflexivity).
  assert (Hrun1 : reb_integrator_janus_part1 (H := test_host harmonic_field)
                    harmonic_machine = Ok harmonic_after_1)
    by (vm_compute; reflexivity).
  assert (Hrun2 : reb_integrator_janus_part1 (H := test_host harmonic_field)
                    harmonic_machine_other = Ok harmonic_other_after_1)
    by (vm_compute; reflexivity).
  assert (Hacc : accelerations (sim.particles (simulation harmonic_after_1)) =
                 accelerations (sim.particles (simulation harmonic_other_after_1)))
    by (vm_compute; reflexivity).
  repeat (split; [assumption|]).
  exact (janus_update_deterministic (H := test_host harmonic_field)
           harmonic_machine harmonic_machine_other harmonic_after_1 harmonic_other_after_1
           Hframe Hr1 Hr2 Hsame Hrun1 Hrun2 Hacc).
Defined.

(** One step of the harmonic machine, by the formula. *)
Lemma janus_step_formula_witness :
  @evaluator_frame (test_host harmonic_field) /\
  @janus_ready (test_host harmonic_field) (simulation harmonic_machine) = true /\
  reb_integrator_janus_part1 (H := test_host harmonic_field) harmonic_machine
    = Ok harmonic_after_1 /\
  exists P C C' A,
    janus.p_prev (the_janus harmonic_machine) = Some P /\
    janus.p_curr (the_janus harmonic_machine) = Some C /\
    janus.p_next (the_janus harmonic_after_1) = Some C' /\
    janus.p_curr (the_janus harmonic_after_1) = Some C' /\
    janus.p_prev (the_janus harmonic_after_1) = Some C /\
    sim.particles (simulation harmonic_after_1) = Some A /\
    forall i, (i < sim.N (simulation harmonic_machine))%nat ->
      exists p c q a fx fy fz,
        P !! i = Some p /\ C !! i = Some c /\ C' !! i = Some q /\ A !! i = Some a /\
        trunc_double (forcing_term (janus.scale (the_janus harmonic_machine))
                        (sim.dt (simulation harmonic_machine)) (particle.ax a)) = Some fx /\
        trunc_double (forcing_term (janus.scale (the_janus harmonic_machine))
                        (sim.dt (simulation harmonic_machine)) (particle.ay a)) = Some fy /\
        trunc_double (forcing_term (janus.scale (the_janus harmonic_machine))
                        (sim.dt (simulation harmonic_machine)) (particle.az a)) = Some fz /\
        particle_int.x q = wrap 64 (- particle_int.x p + 2 * particle_int.x c + fx) /\
        particle_int.y q = wrap 64 (- particle_int.y p + 2 * particle_int.y c + fy) /\
        particle_int.z q = wrap 64 (- particle_int.z p + 2 * particle_int.z c + fz).
Proof.
  assert (Hframe := force_field_frame harmonic_field).
  assert (Hready : @janus_ready (test_host harmonic_field) (simulation harmonic_machine) = true)
    by (vm_compute; reflexivity).
  assert (Hrun : reb_integrator_janus_part1 (H := test_host harmonic_field)
                   harmonic_machine = Ok harmonic_after_1)
    by (vm_compute; reflexivity).
  repeat (split; [assumption|]).
  exact (janus_step_formula (H := test_host harmonic_field)
           harmonic_machine harmonic_after_1 Hframe Hready Hrun).
Defined.

(** C2, the claim as worded, fails: under a constant push of 0.75 along
    [x] and -0.75 along [y], from rest at the origin with scale 1 and
    timestep 1, the step leaves the particle at the origin, where the
    rounding formula puts it at (1, -1, 0). *)
Lemma janus_step_does_not_round :
  reb_integrator_janus_part1 (H := test_host push_field) push_machine = Ok push_after_1 /\
  ~ step_rounds_forcing push_machine push_after_1.
Proof.
  split; [vm_compute; reflexivity|].
  intros Hclaim.
  edestruct (Hclaim _ _ _ _ 0%nat _ _ _ _
               eq_refl eq_refl eq_refl eq_refl eq_refl eq_refl eq_refl eq_refl)
    as [Hx _].
  vm_compute in Hx. discriminate Hx.
Qed.

(** C3. Teardown of the harmonic machine after five steps: the stored
    count is cleared and [prev], [curr] and the scratch buffer are
    released, a second teardown changes nothing more, but the [next]
    buffer is still allocated, with its two elements, after the
    teardown. *)
Theorem janus_reset_leaves_next :
  exists m',
    reb_integrator_janus_reset harmonic_after_5 = Ok m' /\
    janus.allocated_N (the_janus m') = 0%nat /\
    janus.p_prev (the_janus m') = None /\
    janus.p_curr (the_janus m') = None /\
    janus.p_prevrecalc (the_janus m') = None /\
    reb_integrator_janus_reset m' = Ok m' /\
    janus.p_next (the_janus m') = janus.p_next (the_janus harmonic_after_5) /\
    has_length 2 (janus.p_next (the_janus m')) = true.
Proof.
  destruct (janus_reset_effect harmonic_after_5)
    as (m' & Hrun & HN & HP & HC & HS & HX & Hagain).
  exists m'. repeat (split; [assumption|]).
  rewrite HX. reflexivity.
Qed.

Lemma drift_step_keeps_particles f : @probe_keeps_particles (test_host f).
Proof.
  intros r n. cbn. unfold drift_step. cbn.
  destruct (sim.particles r) as [ps|]; cbn; [|discriminate].
  rewrite length_fmap. auto.
Qed.

(** The bootstrap of the fresh machine entered on a last step. *)
Lemma janus_bootstrap_restores_witness :
  @probe_keeps_particles (test_host free_field) /\
  has_length (sim.N (simulation last_step_machine))
    (sim.particles (simulation last_step_machine)) = true /\
  bootstrap_of (H := test_host free_field) last_step_machine = Ok last_step_bootstrapped /\
  sim.t (simulation last_step_bootstrapped) = sim.t (simulation last_step_machine) /\
  sim.dt (simulation last_step_bootstrapped) = sim.dt (simulation last_step_machine) /\
  sim.particles (simulation last_step_bootstrapped)
    = sim.particles (simulation last_step_machine) /\
  sim.status (simulation last_step_bootstrapped) = -1 /\
  sim.integrator (simulation last_step_bootstrapped) = 8.
Proof.
  assert (Hprobe := drift_step_keeps_particles free_field).
  assert (Hps : has_length (sim.N (simulation last_step_machine))
                  (sim.particles (simulation last_step_machine)) = true)
    by reflexivity.
  assert (Hrun : bootstrap_of (H := test_host free_field) last_step_machine
                 = Ok last_step_bootstrapped)
    by (vm_compute; reflexivity).
  repeat (split; [assumption|]).
  exact (janus_bootstrap_restores (H := test_host free_field)
           last_step_machine last_step_bootstrapped Hprobe Hps Hrun).
Defined.

(** C4, the claim as worded, fails: a host that enters the bootstrap with
    run status -2 leaves it with the status [REB_RUNNING] (here -1); the
    status is assigned, not restored. *)
Lemma janus_bootstrap_overwrites_status :
  bootstrap_of (H := test_host free_field) last_step_machine = Ok last_step_bootstrapped /\
  sim.status (simulation last_step_machine) = -2 /\
  sim.status (simulation last_step_bootstrapped) = -1 /\
  sim.status (simulation last_step_bootstrapped)
    <> sim.status (simulation last_step_machine).
Proof.
  split; [vm_compute; reflexivity|].
  split; [reflexivity|]. split; [reflexivity|]. discriminate.
Qed.

(** C1, the claim as worded, fails: the free particle of the scenario
    (prev at y = -10000, curr at y = 0), stepped once, flipped and stepped
    once with the timestep negated, ends with [curr] at y = -10000, the
    original [prev] position, not at the original [curr] position; the
    original [curr] position is in [prev]. *)
Lemma janus_reversal_exchanges_generations :
  janus_steps (H := test_host free_field) 1 free_machine = Ok free_after_1 /\
  reb_integrator_janus_flip free_after_1 = Ok free_flipped /\
  janus_steps (H := test_host free_field) 1 (negate_dt free_flipped) = Ok free_back /\
  positions (janus.p_curr (the_janus free_machine)) = Some [(1000000, 0, 0)] /\
  positions (janus.p_curr (the_janus free_back)) = Some [(1000000, -10000, 0)] /\
  positions (janus.p_prev (the_janus free_back)) = Some [(1000000, 0, 0)] /\
  ~ reversal_restores_buffers (H := test_host free_field) 1 free_machine.
Proof.
  assert (H1 : janus_steps (H := test_host free_field) 1 free_machine = Ok free_after_1)
    by (vm_compute; reflexivity).
  assert (H2 : reb_integrator_janus_flip free_after_1 = Ok free_flipped)
    by (vm_compute; reflexivity).
  assert (H3 : janus_steps (H := test_host free_field) 1 (negate_dt free_flipped)
               = Ok free_back)
    by (vm_compute; reflexivity).
  repeat (split; [assumption || reflexivity|]).
  intros Hclaim. destruct (Hclaim _ _ _ H1 H2 H3) as [_ Hcurr].
  vm_compute in Hcurr. discriminate Hcurr.
Qed.


(** * Further properties of the source file *)

(** ** Encoding *)

Section Encoding.
Context `{rebound}.

Lemma to_int_element_Ok ps s i o q :
  to_int_element ps s i o = Ok q ->
  exists p, load ps i = Ok p /\ encodes int_bits s p q.
Proof.
  unfold to_int_element. intros Hrun. split_binds Hrun. injection Hrun as <-.
  exists v. unfold encodes. cbn. auto 10.
Qed.

Lemma to_int_spec N s psi ps r :
  length psi = N ->
  to_int (Some psi) ps N s = Ok r ->
  exists qs, r = Some qs /\ encodes_all int_bits s N ps qs.
Proof.
  intros Hlen Hrun.
  destruct (for_loop_elements _ _ (to_int_body_element ps s) N psi r Hlen Hrun)
    as (qs & -> & Hlen' & Hpt).
  exists qs. split; [reflexivity|]. split; [exact Hlen'|].
  intros i Hi. destruct (Hpt i Hi) as (o & q & _ & Hg & Hq).
  apply to_int_element_Ok in Hg as (p & Hp & Henc).
  exists p, q. auto.
Qed.

Lemma double_to_int_in_range bits a z :
  double_to_int bits a = Ok z -> in_int_range bits z = true.
Proof.
  unfold double_to_int. destruct (trunc_double a) as [t|]; [|discriminate].
  destruct (in_int_range bits t) eqn:Hr; [|discriminate]. intros [= <-]. exact Hr.
Qed.

Lemma encodes_all_in_range s N ps qs :
  encodes_all int_bits s N ps qs ->
  positions_in_range int_bits (Some qs) = true.
Proof.
  intros [Hlen Hpt]. cbn. apply forallb_forall. intros q Hq%list_elem_of_In.
  apply list_elem_of_lookup in Hq as [i Hi].
  destruct (Hpt i) as (p & q' & _ & Hq' & Hx & Hy & Hz & _);
    [apply lookup_lt_Some in Hi; lia|].
  rewrite Hi in Hq'. injection Hq' as <-.
  unfold position_in_range, position. cbn.
  rewrite (double_to_int_in_range _ _ _ Hx), (double_to_int_in_range _ _ _ Hy),
    (double_to_int_in_range _ _ _ Hz). reflexivity.
Qed.

Lemma realloc_length {A : Type} (fresh : A) (p : array A) (n : nat) :
  exists l, realloc fresh p n = Some l /\ length l = n.
Proof.
  unfold realloc, malloc. destruct p as [l|]; eexists; split; try reflexivity.
  - apply length_resize.
  - apply length_replicate.
Qed.

(** What a completed bootstrap leaves: the instance sized for the host's
    count, [curr] the encoding of the particles at entry, [prev] the
    encoding of the particles the companion scheme's step returned when
    run under the selector [REB_INTEGRATOR_WHFAST] with the timestep
    negated, and the host fields as the bootstrap resets them. *)
Lemma janus_bootstrap_spec m mb :
  probe_frame ->
  has_length (sim.N (simulation m)) (sim.particles (simulation m)) = true ->
  bootstrap_of m = Ok mb ->
  exists P C X S r_in,
    the_janus mb =
      janus.Build (janus.scale (the_janus m)) (sim.N (simulation m))
        (Some P) (Some C) (Some X) (Some S) /\
    length X = sim.N (simulation m) /\ length S = sim.N (simulation m) /\
    encodes_all int_bits (janus.scale (the_janus m)) (sim.N (simulation m))
      (sim.particles (simulation m)) C /\
    encodes_all int_bits (janus.scale (the_janus m)) (sim.N (simulation m))
      (sim.particles (reb_step r_in)) P /\
    sim.integrator r_in = REB_INTEGRATOR_WHFAST /\
    sim.dt r_in = dneg (sim.dt (simulation m)) /\
    sim.t r_in = sim.t (simulation m) /\
    sim.N r_in = sim.N (simulation m) /\
    sim.particles r_in = sim.particles (simulation m) /\
    janus.p_curr (sim.ri_janus r_in) = Some C /\
    sim.N (simulation mb) = sim.N (simulation m) /\
    sim.t (simulation mb) = sim.t (simulation m) /\
    sim.dt (simulation mb) = sim.dt (simulation m) /\
    sim.particles (simulation mb) = sim.particles (simulation m) /\
    trace mb = trace m ++ [Ev_printf Realloc_line; Ev_reb_step].
Proof.
  intros [HpN Hpj Hpp] Hps Hrun.
  destruct m as [[t0 dt0 N0 ps0 ig0 st0 gi0 [sc0 aN0 pp0 pc0 pn0 ppr0]] tr0].
  unfold bootstrap_of, janus_bootstrap in Hrun. cbn in Hps.
  cbn zeta in Hrun. apply bind_Ok in Hrun as (orig & Horig & Hrun).
  apply bind_Ok in Hrun as (curr & Hcurr & Hrun).
  cbn in Horig.
  rewrite memcpy_whole in Horig; [|cbn; rewrite length_replicate; apply Nat.eqb_refl|exact Hps].
  injection Horig as <-.
  cbn in Hcurr.
  destruct (realloc_length fresh_particle_int pc0 N0) as (c0 & Hc0 & Hlc0).
  rewrite Hc0 in Hcurr.
  destruct (to_int_spec _ _ _ _ _ Hlc0 Hcurr) as (C & -> & HC).
  match type of Hrun with
  | context [with_sim reb_step (emit Ev_reb_step ?M)] => remember M as m9 eqn:Hm9
  end.
  assert (simulation m9 =
          sim.Build t0 (dneg dt0) N0 ps0 REB_INTEGRATOR_WHFAST st0 gi0
            (janus.Build sc0 N0 (realloc fresh_particle_int pp0 N0) (Some C)
               (realloc fresh_particle_int pn0 N0)
               (realloc fresh_particle_int ppr0 N0))) as Hr9
    by (rewrite Hm9; cbn; rewrite Hc0; reflexivity).
  assert (trace m9 = tr0 ++ [Ev_printf Realloc_line]) as Ht9
    by (rewrite Hm9; reflexivity).
  clear Hm9.
  apply bind_Ok in Hrun as (prev & Hprev & Hrun).
  apply bind_Ok in Hrun as (ps & Hback & Hrun).
  injection Hrun as <-.
  unfold the_janus in Hprev. cbn in Hprev, Hback. rewrite Hpj, Hr9 in Hprev. cbn in Hprev.
  destruct (realloc_length fresh_particle_int pp0 N0) as (p0 & Hp0 & Hlp0).
  rewrite Hp0 in Hprev.
  destruct (to_int_spec _ _ _ _ _ Hlp0 Hprev) as (P & -> & HP).
  rewrite memcpy_whole in Hback; [|apply Hpp; rewrite Hr9; exact Hps|exact Hps].
  injection Hback as <-.
  destruct (realloc_length fresh_particle_int pn0 N0) as (X & HX & HlX).
  destruct (realloc_length fresh_particle_int ppr0 N0) as (S & HS & HlS).
  exists P, C, X, S.
  match type of HP with
  | encodes_all _ _ _ (sim.particles (reb_step ?r)) _ => exists r
  end.
  split; [|split; [exact HlX|split; [exact HlS|split; [exact HC|split; [exact HP|]]]]].
  - unfold the_janus. cbn. rewrite Hpj, Hr9. cbn. rewrite Hp0, HX, HS. reflexivity.
  - cbn. rewrite HpN, Hr9, Ht9. cbn. rewrite <- app_assoc. cbn. auto 15.
Qed.
End Encoding.

(** ** The flip *)

Lemma memcpy_Ok {A : Type} (dst src r : array A) (n : nat) :
  (0 < n)%nat ->
  memcpy dst src n = Ok r <->
  exists d s, dst = Some d /\ src = Some s /\
    (n <= length d)%nat /\ (n <= length s)%nat /\ r = Some (take n s ++ drop n d).
Proof.
  intros Hn. destruct n as [|n]; [lia|]. unfold memcpy. split.
  - destruct dst as [d|], src as [s|]; try discriminate.
    destruct (S n <=? length d)%nat eqn:Hd; [|discriminate].
    destruct (S n <=? length s)%nat eqn:Hs; [|discriminate].
    cbn. intros [= <-]. apply Nat.leb_le in Hd, Hs. exists d, s. auto.
  - intros (d & s & -> & -> & Hd & Hs & ->).
    apply Nat.leb_le in Hd, Hs. rewrite Hd, Hs. reflexivity.
Qed.

Lemma memcpy_prefix {A : Type} (d s : list A) (n : nat) :
  (n <= length d)%nat -> (n <= length s)%nat ->
  memcpy (Some d) (Some s) n = Ok (Some (take n s ++ drop n d)).
Proof.
  intros Hd Hs. destruct n as [|n]; [reflexivity|].
  apply memcpy_Ok; [lia|]. exists d, s. auto.
Qed.

Lemma length_prefix_copy {A : Type} (s d : list A) (n : nat) :
  (n <= length d)%nat -> (n <= length s)%nat ->
  length (take n s ++ drop n d) = length d.
Proof.
  intros Hd Hs. rewrite length_app, length_take, length_drop. lia.
Qed.

Lemma take_prefix_copy {A : Type} (s d : list A) (n : nat) :
  (n <= length s)%nat -> take n (take n s ++ drop n d) = take n s.
Proof.
  intros Hs. rewrite take_app_le by (rewrite length_take; lia).
  rewrite take_take. f_equal. lia.
Qed.

(** X1 (flip, lines 111-117): the flip completes exactly when the host
    has no particles (its three copies are then copies of zero elements)
    or the three buffers it touches, [prev], [curr] and the scratch
    buffer, are allocated with at least [N] elements each; in every other
    state it reads or writes through a null pointer or past the end of a
    buffer. *)
Theorem janus_flip_defined (m : machine) :
  (exists m', reb_integrator_janus_flip m = Ok m') <->
  sim.N (simulation m) = 0%nat \/
  flip_buffers_hold (sim.N (simulation m)) (the_janus m).
Proof.
  destruct m as [[t0 dt0 N0 ps0 ig0 st0 gi0 [sc0 aN0 pp0 pc0 pn0 ppr0]] tr0].
  unfold reb_integrator_janus_flip, flip_buffers_hold, the_janus, with_janus, with_sim.
  cbn [simulation trace sim.N sim.ri_janus janus.p_prev janus.p_curr janus.p_prevrecalc
       janus.set_p_prev janus.set_p_curr janus.set_p_prevrecalc sim.set_ri_janus].
  destruct N0 as [|n]; [split; [auto|intros _; eexists; reflexivity]|].
  split.
  - intros [m' Hrun]. right.
    apply bind_Ok in Hrun as (scratch & Hs & Hrun).
    apply bind_Ok in Hrun as (curr & Hc & Hrun).
    apply bind_Ok in Hrun as (prev & Hp & _).
    apply memcpy_Ok in Hs as (S & C & -> & -> & HlS & HlC & ->); [|lia].
    apply memcpy_Ok in Hc as (C' & P & [= <-] & -> & _ & HlP & ->); [|lia].
    exists P, C, S. auto 10.
  - intros [Hz|(P & C & S & -> & -> & -> & HlP & HlC & HlS)]; [discriminate|].
    rewrite (memcpy_prefix S C) by assumption. cbn [mbind result_bind].
    rewrite (memcpy_prefix C P) by assumption. cbn [mbind result_bind].
    rewrite (memcpy_prefix P) by (rewrite ?length_prefix_copy; assumption).
    eexists. reflexivity.
Qed.

(** X2 (flip, lines 114-116): on buffers longer than the host's particle
    count the flip exchanges the first [N] elements of [prev] and [curr]
    and leaves the elements from [N] on where they were; the first [N]
    elements of the scratch buffer become those of the old [curr]. *)
Theorem janus_flip_prefix (m : machine) (P C S : list reb_particle_int) :
  janus.p_prev (the_janus m) = Some P ->
  janus.p_curr (the_janus m) = Some C ->
  janus.p_prevrecalc (the_janus m) = Some S ->
  (sim.N (simulation m) <= length P)%nat ->
  (sim.N (simulation m) <= length C)%nat ->
  (sim.N (simulation m) <= length S)%nat ->
  exists m',
    reb_integrator_janus_flip m = Ok m' /\
    janus.p_prev (the_janus m') =
      Some (take (sim.N (simulation m)) C ++ drop (sim.N (simulation m)) P) /\
    janus.p_curr (the_janus m') =
      Some (take (sim.N (simulation m)) P ++ drop (sim.N (simulation m)) C) /\
    janus.p_prevrecalc (the_janus m') =
      Some (take (sim.N (simulation m)) C ++ drop (sim.N (simulation m)) S) /\
    janus.p_next (the_janus m') = janus.p_next (the_janus m) /\
    janus.allocated_N (the_janus m') = janus.allocated_N (the_janus m).
Proof.
  destruct m as [[t0 dt0 N0 ps0 ig0 st0 gi0 [sc0 aN0 pp0 pc0 pn0 ppr0]] tr0].
  unfold reb_integrator_janus_flip, the_janus, with_janus, with_sim.
  cbn [simulation trace sim.N sim.ri_janus janus.p_prev janus.p_curr janus.p_prevrecalc
       janus.p_next janus.allocated_N
       janus.set_p_prev janus.set_p_curr janus.set_p_prevrecalc sim.set_ri_janus].
  intros -> -> -> HlP HlC HlS.
  rewrite (memcpy_prefix S C) by assumption. cbn [mbind result_bind].
  rewrite (memcpy_prefix C P) by assumption. cbn [mbind result_bind].
  rewrite (memcpy_prefix P) by (rewrite ?length_prefix_copy; assumption).
  cbn [mbind result_bind]. rewrite take_prefix_copy by assumption.
  eexists. split; [reflexivity|]. cbn. auto.
Qed.

(** ** Steps that start with a bootstrap *)

Section Restart.
Context `{rebound}.

Lemma part1_bootstrap m :
  janus.allocated_N (the_janus m) <> sim.N (simulation m) ->
  reb_integrator_janus_part1 m =
  (mb ← bootstrap_of m;
   janus_core (sim.dt (simulation m)) (sim.N (simulation m))
     (janus.scale (the_janus m)) mb).
Proof.
  intros Hne. unfold reb_integrator_janus_part1, bootstrap_of, the_janus in *.
  apply Nat.eqb_neq in Hne. rewrite Hne. reflexivity.
Qed.

(** The bootstrap leaves the clock as it found it, whatever the companion
    scheme did to it (lines 84-85). *)
Lemma janus_bootstrap_clock m mb :
  bootstrap_of m = Ok mb ->
  sim.t (simulation mb) = sim.t (simulation m) /\
  sim.dt (simulation mb) = sim.dt (simulation m).
Proof.
  unfold bootstrap_of, janus_bootstrap. intros Hrun. cbn zeta in Hrun.
  apply bind_Ok in Hrun as (orig & _ & Hrun).
  apply bind_Ok in Hrun as (curr & _ & Hrun).
  apply bind_Ok in Hrun as (prev & _ & Hrun).
  apply bind_Ok in Hrun as (ps & _ & Hrun).
  injection Hrun as <-. split; reflexivity.
Qed.

Lemma janus_core_clock dt N s m m' :
  evaluator_frame -> evaluator_keeps_time ->
  janus_core dt N s m = Ok m' ->
  sim.t (simulation m') = dadd (sim.t (simulation m)) dt /\
  sim.dt (simulation m') = sim.dt (simulation m).
Proof.
  intros Hframe Htime Hrun.
  apply janus_core_stages in Hrun
    as (ps1 & next & ps2 & prev & curr & _ & _ & _ & _ & _ & ->).
  unfold janus_core_result. cbn. rewrite Htime, (frame_dt Hframe). cbn. auto.
Qed.

Lemma janus_step_clock m m' :
  evaluator_frame -> evaluator_keeps_time ->
  reb_integrator_janus_part1 m = Ok m' ->
  sim.t (simulation m') = dadd (sim.t (simulation m)) (sim.dt (simulation m)) /\
  sim.dt (simulation m') = sim.dt (simulation m).
Proof.
  intros Hframe Htime Hrun. unfold reb_integrator_janus_part1 in Hrun.
  apply bind_Ok in Hrun as (mb & Hboot & Hcore).
  destruct (janus_core_clock _ _ _ _ _ Hframe Htime Hcore) as [Ht Hdt].
  rewrite Ht, Hdt.
  destruct (negb _) in Hboot.
  - destruct (janus_bootstrap_clock m mb Hboot) as [-> ->]. auto.
  - injection Hboot as <-. auto.
Qed.

Lemma janus_bootstrap_ready m mb :
  probe_frame ->
  has_length (sim.N (simulation m)) (sim.particles (simulation m)) = true ->
  bootstrap_of m = Ok mb ->
  janus_ready (simulation mb) = true /\
  sim.N (simulation mb) = sim.N (simulation m) /\
  janus.scale (the_janus mb) = janus.scale (the_janus m) /\
  sim.dt (simulation mb) = sim.dt (simulation m).
Proof.
  intros Hprobe Hps Hrun.
  destruct (janus_bootstrap_spec m mb Hprobe Hps Hrun)
    as (P & C & X & S & r_in & Hj & HlX & HlS & HC & HP & _ & _ & _ & _ & _ & _
        & HN & _ & Hdt & Hpart & _).
  unfold the_janus in *. rewrite Hj. cbn. split; [|auto].
  apply has_length_Some in Hps as (ps & Hps & Hlps).
  apply janus_ready_unfold. rewrite Hj, HN, Hpart. cbn.
  exists P, C, X, S, ps.
  pose proof (encodes_all_in_range _ _ _ _ HC).
  pose proof (encodes_all_in_range _ _ _ _ HP).
  destruct HC as [HlC _], HP as [HlP _]. auto 15.
Qed.

Lemma janus_first_step m m' :
  probe_frame ->
  has_length (sim.N (simulation m)) (sim.particles (simulation m)) = true ->
  janus.allocated_N (the_janus m) <> sim.N (simulation m) ->
  reb_integrator_janus_part1 m = Ok m' ->
  exists mb,
    bootstrap_of m = Ok mb /\ janus_ready (simulation mb) = true /\
    reb_integrator_janus_part1 mb = Ok m'.
Proof.
  intros Hprobe Hps Hne Hrun. rewrite part1_bootstrap in Hrun by exact Hne.
  apply bind_Ok in Hrun as (mb & Hboot & Hcore).
  destruct (janus_bootstrap_ready m mb Hprobe Hps Hboot) as (Hready & HN & Hs & Hdt).
  exists mb. split; [exact Hboot|]. split; [exact Hready|].
  rewrite part1_ready by exact Hready. rewrite HN, Hs, Hdt. exact Hcore.
Qed.

Lemma janus_any_step_ready m m' :
  probe_frame -> evaluator_frame ->
  has_length (sim.N (simulation m)) (sim.particles (simulation m)) = true ->
  janus.allocated_N (the_janus m) <> sim.N (simulation m) \/
    janus_ready (simulation m) = true ->
  reb_integrator_janus_part1 m = Ok m' ->
  janus_ready (simulation m') = true /\
  sim.N (simulation m') = sim.N (simulation m) /\
  janus.scale (the_janus m') = janus.scale (the_janus m) /\
  sim.dt (simulation m') = sim.dt (simulation m).
Proof.
  intros Hprobe Hframe Hps [Hne|Hready] Hrun.
  - destruct (janus_first_step m m' Hprobe Hps Hne Hrun) as (mb & Hboot & Hready & Hstep).
    destruct (janus_bootstrap_ready m mb Hprobe Hps Hboot) as (_ & HN & Hs & Hdt).
    destruct (janus_step_ready mb m' Hframe Hready Hstep) as (Hr' & HN' & Hs' & Hdt').
    split; [exact Hr'|]. split; [congruence|]. split; congruence.
  - exact (janus_step_ready m m' Hframe Hready Hrun).
Qed.

Lemma janus_steps_ready k : forall m m',
  evaluator_frame ->
  janus_ready (simulation m) = true ->
  janus_steps k m = Ok m' ->
  janus_ready (simulation m') = true /\
  sim.N (simulation m') = sim.N (simulation m) /\
  janus.scale (the_janus m') = janus.scale (the_janus m) /\
  sim.dt (simulation m') = sim.dt (simulation m).
Proof.
  induction k as [|k IH]; intros m m' Hframe Hready Hrun.
  - injection Hrun as <-. auto.
  - cbn [janus_steps] in Hrun. apply bind_Ok in Hrun as (m1 & Hstep & Hrest).
    destruct (janus_step_ready m m1 Hframe Hready Hstep) as (Hr1 & HN1 & Hs1 & Hdt1).
    destruct (IH m1 m' Hframe Hr1 Hrest) as (Hr' & HN' & Hs' & Hdt').
    split; [exact Hr'|]. split; [congruence|]. split; congruence.
Qed.

(** X3 (part1, lines 67-109): a run of one or more steps that starts
    either out of step with the host's particle count (so that it starts
    with a bootstrap) or from a ready state ends in a ready state: the
    stored count equals the host's, all four buffers and the particle
    array hold exactly [N] elements and both history generations are
    values of the storage type.  The particle count, the scale and the
    timestep are those of the start. *)
Theorem janus_run_ready (k : nat) (m m' : machine) :
  probe_frame -> evaluator_frame ->
  has_length (sim.N (simulation m)) (sim.particles (simulation m)) = true ->
  janus.allocated_N (the_janus m) <> sim.N (simulation m) \/
    janus_ready (simulation m) = true ->
  janus_steps (S k) m = Ok m' ->
  janus_ready (simulation m') = true /\
  sim.N (simulation m') = sim.N (simulation m) /\
  janus.scale (the_janus m') = janus.scale (the_janus m) /\
  sim.dt (simulation m') = sim.dt (simulation m).
Proof.
  intros Hprobe Hframe Hps Hstart Hrun.
  cbn [janus_steps] in Hrun. apply bind_Ok in Hrun as (m1 & Hstep & Hrest).
  destruct (janus_any_step_ready m m1 Hprobe Hframe Hps Hstart Hstep)
    as (Hr1 & HN1 & Hs1 & Hdt1).
  destruct (janus_steps_ready k m1 m' Hframe Hr1 Hrest) as (Hr' & HN' & Hs' & Hdt').
  split; [exact Hr'|]. split; [congruence|]. split; congruence.
Qed.

(** X4 (part1, lines 63-64, 84-85 and 109): every step, bootstrap or
    not, advances the host's time by one floating-point addition of the
    timestep and keeps the timestep, so that after [k] steps the time is
    the start time with the timestep added [k] times in binary64, one
    rounding per step. *)
Theorem janus_time_accumulates (k : nat) : forall (m m' : machine),
  evaluator_frame -> evaluator_keeps_time ->
  janus_steps k m = Ok m' ->
  sim.t (simulation m') =
    Nat.iter k (fun t => dadd t (sim.dt (simulation m))) (sim.t (simulation m)) /\
  sim.dt (simulation m') = sim.dt (simulation m).
Proof.
  induction k as [|k IH]; intros m m' Hframe Htime Hrun.
  - injection Hrun as <-. auto.
  - rewrite janus_steps_snoc in Hrun. apply bind_Ok in Hrun as (m1 & Hrest & Hstep).
    destruct (IH m m1 Hframe Htime Hrest) as [Ht1 Hdt1].
    destruct (janus_step_clock m1 m' Hframe Htime Hstep) as [Ht' Hdt'].
    rewrite Ht', Hdt', Ht1, Hdt1. auto.
Qed.

(** A step that starts with a bootstrap: what it prints and calls, and
    the [prev] generation it leaves. *)
Lemma janus_bootstrapping_step m m' :
  probe_frame -> evaluator_frame ->
  has_length (sim.N (simulation m)) (sim.particles (simulation m)) = true ->
  janus.allocated_N (the_janus m) <> sim.N (simulation m) ->
  reb_integrator_janus_part1 m = Ok m' ->
  janus_ready (simulation m') = true /\
  trace m' =
    trace m ++ [Ev_printf Realloc_line; Ev_reb_step; Ev_reb_update_acceleration] /\
  exists C,
    janus.p_prev (the_janus m') = Some C /\
    encodes_all int_bits (janus.scale (the_janus m)) (sim.N (simulation m))
      (sim.particles (simulation m)) C.
Proof.
  intros Hprobe Hframe Hps Hne Hrun.
  destruct (janus_first_step m m' Hprobe Hps Hne Hrun) as (mb & Hboot & Hready & Hstep).
  destruct (janus_bootstrap_spec m mb Hprobe Hps Hboot)
    as (P & C & X & S & r_in & Hj & _ & _ & HC & _ & _ & _ & _ & _ & _ & _
        & _ & _ & _ & _ & Htrb).
  destruct (janus_step_ready mb m' Hframe Hready Hstep) as (Hr' & _).
  split; [exact Hr'|].
  rewrite part1_ready in Hstep by exact Hready.
  destruct (janus_core_ready_stages _ _ _ _ Hframe Hready Hstep)
    as (P1 & C1 & X1 & ps & ps1 & pse & nxt & psf & HP1 & HC1 & _ & _ & _ & _ & _
        & _ & _ & _ & _ & ->).
  rewrite Hj in HC1. cbn in HC1. injection HC1 as <-.
  split.
  - unfold janus_core_result. cbn. rewrite Htrb, <- app_assoc. reflexivity.
  - exists C. split; [reflexivity|]. exact HC.
Qed.

Lemma reset_host m m0 :
  reb_integrator_janus_reset m = Ok m0 ->
  janus.allocated_N (the_janus m0) = 0%nat /\
  janus.scale (the_janus m0) = janus.scale (the_janus m) /\
  sim.N (simulation m0) = sim.N (simulation m) /\
  sim.particles (simulation m0) = sim.particles (simulation m) /\
  trace m0 = trace m.
Proof.
  unfold reb_integrator_janus_reset. intros [= <-]. cbn. auto.
Qed.

(** X5 (reset, lines 123-138, and part1, lines 67-89): the first step
    after a teardown of a host with particles starts a new epoch: it
    prints the reallocation line, runs the companion scheme once and the
    force evaluator once, and ends in a ready state whose [prev]
    generation is the encoding of the particles the host held at the
    teardown.  The integer history of before the teardown plays no part
    in it. *)
Theorem janus_restart (m m0 m' : machine) :
  probe_frame -> evaluator_frame ->
  has_length (sim.N (simulation m)) (sim.particles (simulation m)) = true ->
  (0 < sim.N (simulation m))%nat ->
  reb_integrator_janus_reset m = Ok m0 ->
  reb_integrator_janus_part1 m0 = Ok m' ->
  janus_ready (simulation m') = true /\
  trace m' =
    trace m ++ [Ev_printf Realloc_line; Ev_reb_step; Ev_reb_update_acceleration] /\
  exists C,
    janus.p_prev (the_janus m') = Some C /\
    encodes_all int_bits (janus.scale (the_janus m)) (sim.N (simulation m))
      (sim.particles (simulation m)) C.
Proof.
  intros Hprobe Hframe Hps Hpos Hreset Hrun.
  destruct (reset_host m m0 Hreset) as (Ha0 & Hs0 & HN0 & Hps0 & Htr0).
  assert (Hps' : has_length (sim.N (simulation m0)) (sim.particles (simulation m0)) = true)
    by (rewrite HN0, Hps0; exact Hps).
  assert (Hne : janus.allocated_N (the_janus m0) <> sim.N (simulation m0))
    by (rewrite Ha0, HN0; lia).
  destruct (janus_bootstrapping_step m0 m' Hprobe Hframe Hps' Hne Hrun)
    as (Hready & Htr & C & HC & Henc).
  rewrite Htr0, Hs0, HN0, Hps0 in *. eauto.
Qed.
End Restart.

(** ** What a step of a ready machine leaves *)

Lemma ddiv_neg_r a b : ddiv a (dneg b) = dneg (ddiv a b).
Proof.
  destruct a as [sa|sa| |sa ma ea], b as [sb|sb| |sb mb eb];
    unfold ddiv, dneg, SFdiv, SFopp;
    rewrite <- ?negb_xorb_r; try reflexivity.
  destruct (SFdiv_core_binary _ _ _ _ _ _) as [[mz ez] lz].
  apply binary_round_aux_negb.
Qed.

Section ReadySteps.
Context `{rebound}.

Lemma velocity_element_inv s dt p_next p_prev i o o' :
  velocity_element s dt p_next p_prev i o = Ok o' ->
  exists n p,
    load p_next i = Ok n /\ load p_prev i = Ok p /\
    central_difference (particle_int.x n) (particle_int.x p) s dt = Ok (particle.vx o') /\
    central_difference (particle_int.y n) (particle_int.y p) s dt = Ok (particle.vy o') /\
    central_difference (particle_int.z n) (particle_int.z p) s dt = Ok (particle.vz o') /\
    real_position o' = real_position o.
Proof.
  unfold velocity_element. intros Hrun. split_binds Hrun. injection Hrun as <-.
  exists v, v0. cbn. auto 10.
Qed.

Lemma janus_velocities_elements N s dt nxt P ps r :
  length ps = N ->
  janus_velocities s dt N nxt P (Some ps) = Ok r ->
  exists ps', r = Some ps' /\ length ps' = N /\
    forall i, (i < N)%nat ->
      exists o o' n p,
        ps !! i = Some o /\ ps' !! i = Some o' /\
        load nxt i = Ok n /\ load P i = Ok p /\
        central_difference (particle_int.x n) (particle_int.x p) s dt
          = Ok (particle.vx o') /\
        central_difference (particle_int.y n) (particle_int.y p) s dt
          = Ok (particle.vy o') /\
        central_difference (particle_int.z n) (particle_int.z p) s dt
          = Ok (particle.vz o') /\
        real_position o' = real_position o.
Proof.
  intros Hlen Hrun.
  destruct (for_loop_elements _ _ (janus_velocities_body_element s dt nxt P) N ps r
              Hlen Hrun) as (ps' & -> & Hlen' & Hpt).
  exists ps'. split; [reflexivity|]. split; [exact Hlen'|].
  intros i Hi. destruct (Hpt i Hi) as (o & o' & Ho & Hg & Ho').
  apply velocity_element_inv in Hg as (n & p & Hn & Hp & Hx & Hy & Hz & Hpos).
  exists o, o', n, p. auto 10.
Qed.

Lemma central_difference_neg_dt n p s dt v :
  central_difference n p s dt = Ok v ->
  central_difference n p s (dneg dt) = Ok (dneg v).
Proof.
  unfold central_difference. intros Hrun. split_binds Hrun.
  replay_binds.
  apply ddiv_checked_Ok in Hrun as [Hz ->].
  apply ddiv_checked_Ok. rewrite is_zero_dneg, ddiv_neg_r. auto.
Qed.

(** The velocities a step of a ready machine reports. *)
Lemma janus_step_velocities m m' :
  evaluator_frame ->
  janus_ready (simulation m) = true ->
  reb_integrator_janus_part1 m = Ok m' ->
  exists P C' A,
    janus.p_prev (the_janus m) = Some P /\
    janus.p_curr (the_janus m') = Some C' /\
    sim.particles (simulation m') = Some A /\
    length P = sim.N (simulation m) /\
    length C' = sim.N (simulation m) /\
    length A = sim.N (simulation m) /\
    forall i, (i < sim.N (simulation m))%nat ->
      exists p c' a,
        P !! i = Some p /\ C' !! i = Some c' /\ A !! i = Some a /\
        central_difference (particle_int.x c') (particle_int.x p)
          (janus.scale (the_janus m)) (sim.dt (simulation m)) = Ok (particle.vx a) /\
        central_difference (particle_int.y c') (particle_int.y p)
          (janus.scale (the_janus m)) (sim.dt (simulation m)) = Ok (particle.vy a) /\
        central_difference (particle_int.z c') (particle_int.z p)
          (janus.scale (the_janus m)) (sim.dt (simulation m)) = Ok (particle.vz a).
Proof.
  intros Hframe Hready Hrun.
  rewrite part1_ready in Hrun by exact Hready.
  destruct (janus_core_ready_stages _ _ _ _ Hframe Hready Hrun)
    as (P & C & X & ps & ps1 & pse & nxt & psf & HP & HC & HX & Hps & H1 & Hpse & Hlpse
        & H2 & Hlnxt & H3 & Hlpsf & ->).
  apply janus_ready_unfold in Hready
    as (P' & C' & X' & S & ps' & HN & HP' & HlP & _).
  unfold the_janus in *.
  rewrite HP in HP'. injection HP' as <-.
  destruct (janus_velocities_elements _ _ _ _ _ _ _ Hlpse H3)
    as (psf' & [= <-] & _ & Hvel).
  exists P, nxt, psf.
  split; [exact HP|].
  unfold janus_core_result. cbn.
  split; [reflexivity|]. split; [reflexivity|].
  split; [exact HlP|]. split; [exact Hlnxt|]. split; [exact Hlpsf|].
  intros i Hi.
  destruct (Hvel i Hi) as (e & a & n & p & He & Ha & Hn & Hp & Hx & Hy & Hz & Hae).
  apply load_Some in Hn, Hp.
  exists p, n, a. auto 10.
Qed.

(** The positions a step of a ready machine leaves with the host. *)
Lemma janus_step_positions m m' :
  evaluator_frame -> evaluator_keeps_positions ->
  janus_ready (simulation m) = true ->
  reb_integrator_janus_part1 m = Ok m' ->
  exists C A,
    janus.p_curr (the_janus m) = Some C /\
    janus.p_prev (the_janus m') = Some C /\
    sim.particles (simulation m') = Some A /\
    forall i, (i < sim.N (simulation m))%nat ->
      exists c a,
        C !! i = Some c /\ A !! i = Some a /\
        real_position a = decoded (janus.scale (the_janus m)) c.
Proof.
  intros Hframe Hkeep Hready Hrun.
  rewrite part1_ready in Hrun by exact Hready.
  destruct (janus_core_ready_stages _ _ _ _ Hframe Hready Hrun)
    as (P & C & X & ps & ps1 & pse & nxt & psf & HP & HC & HX & Hps & H1 & Hpse & Hlpse
        & H2 & Hlnxt & H3 & Hlpsf & ->).
  apply janus_ready_unfold in Hready
    as (P' & C' & X' & S & ps' & HN & HP' & HlP & HC' & HlC & HX' & HlX & HS & HlS
        & Hps' & Hlps & HrP & HrC).
  unfold the_janus in *.
  rewrite Hps in Hps'. injection Hps' as <-.
  destruct (to_double_spec _ _ _ _ _ Hlps H1) as (ps1' & [= <-] & Hlps1 & Hdec).
  destruct (janus_velocities_elements _ _ _ _ _ _ _ Hlpse H3)
    as (psf' & [= <-] & _ & Hvel).
  pose proof (Hkeep (sim.set_gravity_ignore_terms 0
                       (sim.set_particles (Some ps1) (simulation m)))) as Hpos.
  unfold evaluated in Hpse. rewrite Hpse in Hpos. cbn in Hpos. injection Hpos as Hpos.
  exists C, psf.
  split; [exact HC|].
  unfold janus_core_result. cbn.
  split; [reflexivity|]. split; [reflexivity|].
  intros i Hi.
  destruct (Hdec i Hi) as (o & q & Ho & Hq & _ & Ho1).
  destruct (Hvel i Hi) as (e & a & n & p & He & Ha & _ & _ & _ & _ & _ & Hae).
  destruct (fmap_eq_lookup _ _ _ _ _ _ Hpos He) as (o1 & Ho1' & Heo).
  rewrite Ho1 in Ho1'. injection Ho1' as <-.
  exists q, a. split; [exact Hq|]. split; [exact Ha|].
  rewrite Hae, Heo. reflexivity.
Qed.

(** X6 (to_double and part1, lines 55-57, 90 and 100-109): after a step
    the host's particles are one generation behind the integer state.
    Their positions are the decoding of the [curr] generation the step
    started from, which the step leaves as [prev]; the generation it
    computed is not decoded.  Their velocities are the central
    differences between that new generation and the old [prev]. *)
Theorem janus_host_state (m m' : machine) :
  evaluator_frame -> evaluator_keeps_positions ->
  janus_ready (simulation m) = true ->
  reb_integrator_janus_part1 m = Ok m' ->
  exists P C C' A,
    janus.p_prev (the_janus m) = Some P /\
    janus.p_curr (the_janus m) = Some C /\
    janus.p_prev (the_janus m') = Some C /\
    janus.p_curr (the_janus m') = Some C' /\
    sim.particles (simulation m') = Some A /\
    length A = sim.N (simulation m) /\
    forall i, (i < sim.N (simulation m))%nat ->
      exists p c c' a,
        P !! i = Some p /\ C !! i = Some c /\ C' !! i = Some c' /\ A !! i = Some a /\
        real_position a = decoded (janus.scale (the_janus m)) c /\
        central_difference (particle_int.x c') (particle_int.x p)
          (janus.scale (the_janus m)) (sim.dt (simulation m)) = Ok (particle.vx a) /\
        central_difference (particle_int.y c') (particle_int.y p)
          (janus.scale (the_janus m)) (sim.dt (simulation m)) = Ok (particle.vy a) /\
        central_difference (particle_int.z c') (particle_int.z p)
          (janus.scale (the_janus m)) (sim.dt (simulation m)) = Ok (particle.vz a).
Proof.
  intros Hframe Hkeep Hready Hrun.
  rewrite part1_ready in Hrun by exact Hready.
  destruct (janus_core_ready_stages _ _ _ _ Hframe Hready Hrun)
    as (P & C & X & ps & ps1 & pse & nxt & psf & HP & HC & HX & Hps & H1 & Hpse & Hlpse
        & H2 & Hlnxt & H3 & Hlpsf & ->).
  apply janus_ready_unfold in Hready
    as (P' & C' & X' & S & ps' & HN & HP' & HlP & HC' & HlC & HX' & HlX & HS & HlS
        & Hps' & Hlps & HrP & HrC).
  unfold the_janus in *.
  rewrite Hps in Hps'. injection Hps' as <-.
  destruct (to_double_spec _ _ _ _ _ Hlps H1) as (ps1' & [= <-] & Hlps1 & Hdec).
  destruct (janus_velocities_elements _ _ _ _ _ _ _ Hlpse H3)
    as (psf' & [= <-] & _ & Hvel).
  pose proof (Hkeep (sim.set_gravity_ignore_terms 0
                       (sim.set_particles (Some ps1) (simulation m)))) as Hpos.
  unfold evaluated in Hpse. rewrite Hpse in Hpos. cbn in Hpos. injection Hpos as Hpos.
  destruct (evaluated_frame (Some ps1) (simulation m) Hframe) as (HeN & Hedt & Hej).
  unfold evaluated in HeN, Hedt, Hej.
  exists P, C, nxt, psf.
  split; [exact HP|]. split; [exact HC|].
  unfold janus_core_result. cbn.
  split; [reflexivity|]. split; [reflexivity|]. split; [reflexivity|].
  split; [exact Hlpsf|].
  intros i Hi.
  destruct (Hdec i Hi) as (o & q & Ho & Hq & _ & Ho1).
  destruct (Hvel i Hi) as (e & a & n & p & He & Ha & Hn & Hp & Hx & Hy & Hz & Hae).
  apply load_Some in Hn, Hp.
  destruct (fmap_eq_lookup _ _ _ _ _ _ Hpos He) as (o1 & Ho1' & Heo).
  rewrite Ho1 in Ho1'. injection Ho1' as <-.
  exists p, q, n, a. repeat (split; [assumption|]).
  split; [|auto]. rewrite Hae, Heo. reflexivity.
Qed.

(** X7 (part1, lines 95-106): a step never writes the scratch buffer,
    and never writes an integer velocity field: the velocity fields of
    the generation it makes current are those the [next] buffer held
    before the step, whatever they were. *)
Theorem janus_step_stale_fields (m m' : machine) :
  evaluator_frame ->
  janus_ready (simulation m) = true ->
  reb_integrator_janus_part1 m = Ok m' ->
  janus.p_prevrecalc (the_janus m') = janus.p_prevrecalc (the_janus m) /\
  fmap (M := list) int_velocity <$> janus.p_curr (the_janus m') =
  fmap (M := list) int_velocity <$> janus.p_next (the_janus m).
Proof.
  intros Hframe Hready Hrun.
  rewrite part1_ready in Hrun by exact Hready.
  destruct (janus_core_ready_stages _ _ _ _ Hframe Hready Hrun)
    as (P & C & X & ps & ps1 & pse & nxt & psf & HP & HC & HX & Hps & H1 & Hpse & Hlpse
        & H2 & Hlnxt & H3 & Hlpsf & ->).
  apply janus_ready_unfold in Hready
    as (P' & C' & X' & S & ps' & HN & HP' & HlP & HC' & HlC & HX' & HlX & HS & HlS
        & Hps' & Hlps & HrP & HrC).
  unfold the_janus in *.
  rewrite HX in HX'. injection HX' as <-.
  destruct (evaluated_frame (Some ps1) (simulation m) Hframe) as (HeN & Hedt & Hej).
  unfold evaluated in HeN, Hedt, Hej.
  unfold janus_core_result. cbn. rewrite Hej, HX. split; [reflexivity|].
  cbn. f_equal.
  destruct (janus_update_spec _ _ _ _ _ _ _ _ HlX H2) as (nxt' & [= <-] & _ & Hupd).
  apply fmap_eq_pointwise; [congruence|].
  intros i a b Ha Hb.
  destruct (Hupd i) as (p & c & e & o & fx & fy & fz & _ & _ & _ & Ho & _ & _ & _ & Hn);
    [apply lookup_lt_Some in Ha; lia|].
  rewrite Ha in Hn. injection Hn as ->. rewrite Hb in Ho. injection Ho as ->.
  reflexivity.
Qed.


Lemma shift_position_same n pa :
  position_in_range int_bits n = true ->
  shift_position int_bits n pa pa = n.
Proof.
  destruct n as [[x y] z], pa as [[a b] c]. unfold position_in_range, shift_position,
    shift_coordinate. cbn.
  intros Hr. apply andb_prop in Hr as [Hr Hz]. apply andb_prop in Hr as [Hx Hy].
  replace (x + a - a) with x by lia. replace (y + b - b) with y by lia.
  replace (z + c - c) with z by lia.
  rewrite !wrap_small by assumption. reflexivity.
Qed.

(** X9 (part1, lines 96-98 and 101-103): the integer update does not
    see the sign of the timestep.  A step taken with the timestep negated
    computes the same positions as the step taken with the timestep as
    it is: the direction of time is carried by the order of the two
    history generations alone.  Only the velocities reported to the host
    differ: they are negated. *)
Theorem janus_step_ignores_dt_sign (m m' : machine) :
  acceleration_by_position ->
  janus_ready (simulation m) = true ->
  reb_integrator_janus_part1 m = Ok m' ->
  exists m'' A A'',
    reb_integrator_janus_part1 (negate_dt m) = Ok m'' /\
    positions (janus.p_curr (the_janus m'')) = positions (janus.p_curr (the_janus m')) /\
    janus.p_prev (the_janus m'') = janus.p_prev (the_janus m') /\
    sim.particles (simulation m') = Some A /\
    sim.particles (simulation m'') = Some A'' /\
    (real_velocity <$> A'') = ((fun a => negated (real_velocity a)) <$> A).
Proof.
  intros Hacc Hready Hrun.
  assert (Hready' : janus_ready (simulation (negate_dt m)) = true) by exact Hready.
  destruct (janus_step_pair m (negate_dt m) m' Hacc Hready Hready'
              eq_refl eq_refl (or_intror eq_refl) eq_refl eq_refl Hrun)
    as (m'' & Hrun' & Hshift).
  destruct (janus_step_velocities m m' (acc_frame Hacc) Hready Hrun)
    as (Pv & Cv & A & HPv & HCv & HA & HlPv & HlCv & HlA & Hvel).
  destruct (janus_step_velocities (negate_dt m) m'' (acc_frame Hacc) Hready' Hrun')
    as (Pw & Cw & A'' & HPw & HCw & HA'' & HlPw & HlCw & HlA'' & Hvel').
  assert (Hsame : positions (janus.p_curr (the_janus m''))
                  = positions (janus.p_curr (the_janus m'))).
  2: { exists m'', A, A''. split; [exact Hrun'|]. split; [exact Hsame|].
       destruct (janus_core_epoch_step m m' Hacc Hready Hrun)
         as (_ & _ & _ & _ & _ & Hp1).
       destruct (janus_core_epoch_step (negate_dt m) m'' Hacc Hready' Hrun')
         as (_ & _ & _ & _ & _ & Hp2).
       split; [rewrite Hp1, Hp2; reflexivity|].
       split; [exact HA|]. split; [exact HA''|].
       rewrite HCv, HCw in Hsame. cbn in Hsame. injection Hsame as Hsame.
       change (janus.p_prev (the_janus (negate_dt m))) with (janus.p_prev (the_janus m))
         in HPw.
       rewrite HPv in HPw. injection HPw as <-.
       apply fmap_eq_pointwise; [congruence|].
       intros i a'' a Ha'' Ha.
       assert (Hi : (i < sim.N (simulation m))%nat)
         by (apply lookup_lt_Some in Ha; lia).
       destruct (Hvel i Hi) as (p & c & a0 & Hp & Hc & Ha0 & Hx & Hy & Hz).
       destruct (Hvel' i Hi) as (p' & c' & a1 & Hp' & Hc' & Ha1 & Hx' & Hy' & Hz').
       rewrite Ha in Ha0. injection Ha0 as <-.
       rewrite Ha'' in Ha1. injection Ha1 as <-.
       rewrite Hp in Hp'. injection Hp' as <-.
       destruct (fmap_eq_lookup _ _ _ _ _ _ Hsame Hc') as (c0 & Hc0 & Hpos).
       rewrite Hc in Hc0. injection Hc0 as <-.
       injection Hpos as Hcx Hcy Hcz.
       apply central_difference_neg_dt in Hx, Hy, Hz.
       rewrite Hcx in Hx'. rewrite Hcy in Hy'. rewrite Hcz in Hz'.
       change (sim.dt (simulation (negate_dt m))) with (dneg (sim.dt (simulation m)))
         in Hx', Hy', Hz'.
       change (janus.scale (the_janus (negate_dt m))) with (janus.scale (the_janus m))
         in Hx', Hy', Hz'.
       rewrite Hx in Hx'. rewrite Hy in Hy'. rewrite Hz in Hz'.
       injection Hx' as Hx'. injection Hy' as Hy'. injection Hz' as Hz'.
       unfold negated, real_velocity. cbn. rewrite Hx', Hy', Hz'. reflexivity. }
  clear Pv Cv A HPv HCv HA HlPv HlCv HlA Hvel Pw Cw A'' HPw HCw HA'' HlPw HlCw HlA'' Hvel'.
  destruct (janus_core_epoch_step m m' Hacc Hready Hrun) as (Hr1 & _ & _ & _ & _ & Hp1).
  apply janus_ready_unfold in Hready
    as (P & C & X & S & ps & HN & HP & HlP & HC & HlC & HX & HlX & HS & HlS
        & Hps & Hlps & HrP & HrC).
  apply janus_ready_unfold in Hr1
    as (P1 & C1 & X1 & S1 & ps1 & HN1 & HP1 & HlP1 & HC1 & HlC1 & _ & _ & _ & _
        & _ & _ & HrP1 & HrC1).
  destruct (Hshift P P C1 HP HP HC1) as (C2 & HC2 & HlC2 & Hpt).
  unfold the_janus in *. rewrite HC1, HC2. cbn. f_equal.
  apply fmap_eq_pointwise; [exact HlC2|].
  intros i b a Hb Ha.
  assert (Hi : (i < length P)%nat).
  { apply lookup_lt_Some in Ha. rewrite HlP. rewrite HlC1 in Ha.
    destruct (janus_step_ready m m' (acc_frame Hacc)) as (_ & HNN & _);
      [apply janus_ready_unfold; exists P, C, X, S, ps; auto 15|exact Hrun|].
    rewrite <- HNN. exact Ha. }
  apply lookup_lt_is_Some in Hi as [p Hp].
  destruct (Hpt i p p a Hp Hp Ha) as (b' & Hb' & Hpos).
  rewrite Hb in Hb'. injection Hb' as <-.
  rewrite Hpos. apply shift_position_same.
  exact (positions_in_range_lookup _ _ _ HrC1 Ha).
Qed.

(** X10 (part1, lines 90-109): from a ready state, with no force, a
    non-zero scale and timestep and [scale*dt*dt] a number, a run of any
    length completes, every loop staying within its buffers and every
    conversion within its type, and ends in a ready state. *)
Theorem janus_free_run_completes (n : nat) (m : machine) :
  evaluator_frame -> force_free ->
  janus_ready (simulation m) = true ->
  is_zero (janus.scale (the_janus m)) = false ->
  is_zero (sim.dt (simulation m)) = false ->
  forcing_scale_finite (janus.scale (the_janus m)) (sim.dt (simulation m)) = true ->
  exists m', janus_steps n m = Ok m' /\ janus_ready (simulation m') = true.
Proof.
  intros Hframe Hfree Hready Hs Hdt Hfin.
  destruct (janus_free_steps_complete n m Hframe Hfree Hready Hs Hdt Hfin) as [m' Hrun].
  exists m'. split; [exact Hrun|].
  exact (proj1 (janus_steps_ready n m m' Hframe Hready Hrun)).
Qed.
End ReadySteps.

(** ** The conversion loops on their own *)

Section Conversions.
Context `{rebound}.

(** X11 (to_int, lines 43-52): a completed [to_int] over [N] elements
    has assigned all six fields of each of the first [N] elements of its
    target from the particle of the same index, each field the product
    of the coordinate with the scale converted to the storage type; the
    target held at least [N] elements, keeps its length, and its elements
    from [N] on are untouched. *)
Theorem to_int_prefix (N : nat) (s : double) (psi : list reb_particle_int)
  (ps : array reb_particle) (r : array reb_particle_int) :
  to_int (Some psi) ps N s = Ok r ->
  exists qs,
    r = Some qs /\ length qs = length psi /\ (N <= length psi)%nat /\
    (forall i, (i < N)%nat ->
       exists p q, load ps i = Ok p /\ qs !! i = Some q /\ encodes int_bits s p q) /\
    (forall i, (N <= i)%nat -> qs !! i = psi !! i).
Proof.
  intros Hrun.
  destruct (for_from_elements _ _ (to_int_body_element ps s) N 0 psi r Hrun)
    as (qs & -> & Hlen & Hpt & Hrest).
  exists qs. split; [reflexivity|]. split; [exact Hlen|]. split; [|split].
  - destruct N as [|n]; [lia|].
    destruct (Hpt n) as (a & _ & Ha & _); [lia|].
    apply lookup_lt_Some in Ha. lia.
  - intros i Hi. destruct (Hpt i) as (o & q & _ & Hg & Hq); [lia|].
    apply to_int_element_Ok in Hg as (p & Hp & Henc). exists p, q. auto.
  - intros i Hi. apply Hrest. lia.
Qed.


(** X13 (part1, lines 67-89, with to_int): what a completed bootstrap
    puts into the buffers.  All four are allocated for the host's
    particle count and the stored count is set to it; [curr] is the
    encoding of the particles the host held at entry; [prev] is the
    encoding of the particles the companion scheme's step returned when
    called on the host state with the selector [REB_INTEGRATOR_WHFAST],
    the timestep negated, the time and the particles of entry, and
    [curr] already in place. *)
Theorem janus_bootstrap_encodes (m mb : machine) :
  probe_frame ->
  has_length (sim.N (simulation m)) (sim.particles (simulation m)) = true ->
  bootstrap_of m = Ok mb ->
  exists P C r_in,
    janus.allocated_N (the_janus mb) = sim.N (simulation m) /\
    janus.p_prev (the_janus mb) = Some P /\
    janus.p_curr (the_janus mb) = Some C /\
    has_length (sim.N (simulation m)) (janus.p_next (the_janus mb)) = true /\
    has_length (sim.N (simulation m)) (janus.p_prevrecalc (the_janus mb)) = true /\
    encodes_all int_bits (janus.scale (the_janus m)) (sim.N (simulation m))
      (sim.particles (simulation m)) C /\
    encodes_all int_bits (janus.scale (the_janus m)) (sim.N (simulation m))
      (sim.particles (reb_step r_in)) P /\
    sim.integrator r_in = REB_INTEGRATOR_WHFAST /\
    sim.dt r_in = dneg (sim.dt (simulation m)) /\
    sim.t r_in = sim.t (simulation m) /\
    sim.N r_in = sim.N (simulation m) /\
    sim.particles r_in = sim.particles (simulation m) /\
    janus.p_curr (sim.ri_janus r_in) = Some C.
Proof.
  intros Hprobe Hps Hrun.
  destruct (janus_bootstrap_spec m mb Hprobe Hps Hrun)
    as (P & C & X & S & r_in & Hj & HlX & HlS & HC & HP & Hi & Hdt & Ht & HN & Hpart & Hc
        & _).
  exists P, C, r_in. rewrite Hj. cbn. rewrite HlX, HlS, !Nat.eqb_refl. auto 15.
Qed.
End Conversions.

(** ** Whole runs *)

Section Runs.
Context `{rebound}.

Lemma janus_reverse_run k m m1 :
  acceleration_by_position ->
  janus_ready (simulation m) = true ->
  janus_steps k m = Ok m1 ->
  exists m2 m3,
    reb_integrator_janus_flip m1 = Ok m2 /\
    janus_steps k (negate_dt m2) = Ok m3 /\
    positions (janus.p_prev (the_janus m3)) = positions (janus.p_curr (the_janus m)) /\
    positions (janus.p_curr (the_janus m3)) = positions (janus.p_prev (the_janus m)).
Proof.
  intros Hacc Hready Hrun.
  destruct (janus_replay k m m1 Hacc Hready Hrun) as [(Hr1 & HN1 & Hs1 & Hdt1 & Hm1) Hback].
  pose proof (flip_ready_flip m1 (janus_ready_flip_ready _ Hr1)) as Hflip.
  set (m2 := with_janus (fun j =>
               janus.set_p_prev (janus.p_curr j)
                 (janus.set_p_curr (janus.p_prev j)
                    (janus.set_p_prevrecalc (janus.p_curr j) j))) m1) in *.
  assert (Hr2 : janus_ready (simulation (negate_dt m2)) = true).
  { apply janus_ready_unfold in Hr1
      as (P & C & X & S & ps & HN & HP & HlP & HC & HlC & HX & HlX & HS & HlS
          & Hps & Hlps & HrP & HrC).
    apply janus_ready_unfold. cbn. rewrite HP, HC.
    exists C, P, X, C, ps. repeat split; assumption. }
  assert (HN2 : sim.N (simulation (negate_dt m2)) = sim.N (simulation m))
    by (cbn; congruence).
  assert (Hs2 : janus.scale (the_janus (negate_dt m2)) = janus.scale (the_janus m))
    by (unfold the_janus in *; cbn; congruence).
  assert (Hdt2 : sim.dt (simulation (negate_dt m2)) = dneg (sim.dt (simulation m)))
    by (cbn; rewrite Hdt1; reflexivity).
  assert (Hm2 : masses (sim.particles (simulation (negate_dt m2)))
                = masses (sim.particles (simulation m)))
    by exact Hm1.
  destruct (Hback (negate_dt m2) Hr2 HN2 Hs2 Hdt2 Hm2 eq_refl eq_refl)
    as (m3 & Hrun3 & Hp3 & Hc3 & _).
  exists m2, m3. auto.
Qed.

(** X14 (part1 and flip, lines 61-117): the round trip from a cold
    start.  A run of one or more steps that starts with a bootstrap,
    followed by a flip, a negation of the timestep and as many steps
    again, completes, and leaves in [prev] the positions of the encoding
    of the particles the host held before the first step. *)
Theorem janus_return_to_start (k : nat) (m m1 : machine) :
  probe_frame -> acceleration_by_position ->
  has_length (sim.N (simulation m)) (sim.particles (simulation m)) = true ->
  janus.allocated_N (the_janus m) <> sim.N (simulation m) ->
  janus_steps (S k) m = Ok m1 ->
  exists C m2 m3,
    encodes_all int_bits (janus.scale (the_janus m)) (sim.N (simulation m))
      (sim.particles (simulation m)) C /\
    reb_integrator_janus_flip m1 = Ok m2 /\
    janus_steps (S k) (negate_dt m2) = Ok m3 /\
    positions (janus.p_prev (the_janus m3)) = positions (Some C).
Proof.
  intros Hprobe Hacc Hps Hne Hrun.
  cbn [janus_steps] in Hrun. apply bind_Ok in Hrun as (m' & Hstep & Hrest).
  destruct (janus_first_step m m' Hprobe Hps Hne Hstep) as (mb & Hboot & Hready & Hstep').
  assert (Hrun' : janus_steps (S k) mb = Ok m1).
  { cbn [janus_steps]. rewrite Hstep'. exact Hrest. }
  destruct (janus_reverse_run (S k) mb m1 Hacc Hready Hrun')
    as (m2 & m3 & Hflip & Hback & Hprev & _).
  destruct (janus_bootstrap_spec m mb Hprobe Hps Hboot)
    as (P & C & X & S & r_in & Hj & _ & _ & HC & _).
  unfold the_janus in Hprev, Hj. rewrite Hj in Hprev. cbn in Hprev.
  exists C, m2, m3. auto.
Qed.

Lemma evaluator_calls_app tr1 tr2 :
  evaluator_calls (tr1 ++ tr2) = (evaluator_calls tr1 + evaluator_calls tr2)%nat.
Proof. unfold evaluator_calls. rewrite List.filter_app, length_app. reflexivity. Qed.

(** X15 (part1, line 93): every step calls the force evaluator exactly
    once, the step that bootstraps included, so that a run of [k] steps
    calls it [k] times. *)
Theorem janus_one_evaluation_per_step (k : nat) : forall (m m' : machine),
  count_unchanged ->
  janus_steps k m = Ok m' ->
  evaluator_calls (trace m') = (evaluator_calls (trace m) + k)%nat.
Proof.
  induction k as [|k IH]; intros m m' Hcount Hrun.
  - injection Hrun as <-. lia.
  - cbn [janus_steps] in Hrun. apply bind_Ok in Hrun as (m1 & Hstep & Hrest).
    rewrite (IH m1 m' Hcount Hrest).
    destruct (janus_step_trace m m1 Hcount Hstep) as (Htr & _).
    rewrite Htr, !evaluator_calls_app.
    destruct (janus.allocated_N (the_janus m) =? sim.N (simulation m))%nat; cbn; lia.
Qed.
(** X16 (part1 with reset and to_double, lines 75-78, 90 and 123-138): a
    teardown discards the last step.  The host's particles are one
    generation behind the integer state, and the bootstrap encodes the
    host's particles; so when a step from a ready state is followed by a
    teardown and another step, the [prev] generation of the new epoch
    is the re-encoding of the decoded [curr] generation the first step
    started from, not of the generation it computed. *)
Theorem janus_restart_rewinds (m m1 m0 m' : machine) :
  probe_frame -> evaluator_frame -> evaluator_keeps_positions ->
  janus_ready (simulation m) = true ->
  (0 < sim.N (simulation m))%nat ->
  reb_integrator_janus_part1 m = Ok m1 ->
  reb_integrator_janus_reset m1 = Ok m0 ->
  reb_integrator_janus_part1 m0 = Ok m' ->
  exists C C',
    janus.p_curr (the_janus m) = Some C /\
    janus.p_prev (the_janus m') = Some C' /\
    forall i, (i < sim.N (simulation m))%nat ->
      exists c q,
        C !! i = Some c /\ C' !! i = Some q /\
        double_to_int int_bits
          (dmul (ddiv (double_of_Z (particle_int.x c)) (janus.scale (the_janus m)))
             (janus.scale (the_janus m))) = Ok (particle_int.x q) /\
        double_to_int int_bits
          (dmul (ddiv (double_of_Z (particle_int.y c)) (janus.scale (the_janus m)))
             (janus.scale (the_janus m))) = Ok (particle_int.y q) /\
        double_to_int int_bits
          (dmul (ddiv (double_of_Z (particle_int.z c)) (janus.scale (the_janus m)))
             (janus.scale (the_janus m))) = Ok (particle_int.z q).
Proof.
  intros Hprobe Hframe Hkeep Hready Hpos Hstep Hreset Hrun.
  destruct (janus_step_ready m m1 Hframe Hready Hstep) as (Hr1 & HN1 & Hs1 & _).
  destruct (janus_step_positions m m1 Hframe Hkeep Hready Hstep)
    as (C & A & HC & _ & HA & Hdec).
  destruct (reset_host m1 m0 Hreset) as (Ha0 & Hs0 & HN0 & Hps0 & _).
  assert (Hps1 : has_length (sim.N (simulation m1)) (sim.particles (simulation m1)) = true).
  { apply janus_ready_unfold in Hr1
      as (P1 & C1 & X1 & S1 & ps1 & _ & _ & _ & _ & _ & _ & _ & _ & _ & Hps1 & Hlps1 & _).
    apply has_length_Some. exists ps1. auto. }
  assert (Hps0' : has_length (sim.N (simulation m0)) (sim.particles (simulation m0)) = true)
    by (rewrite HN0, Hps0; exact Hps1).
  assert (Hne : janus.allocated_N (the_janus m0) <> sim.N (simulation m0))
    by (rewrite Ha0, HN0, HN1; lia).
  destruct (janus_bootstrapping_step m0 m' Hprobe Hframe Hps0' Hne Hrun)
    as (_ & _ & C' & HC' & _ & Henc).
  rewrite Hs0, HN0, Hps0, Hs1, HN1, HA in Henc.
  exists C, C'. split; [exact HC|]. split; [exact HC'|].
  intros i Hi.
  destruct (Hdec i Hi) as (c & a & Hc & Ha & Hpos_a).
  destruct (Henc i Hi) as (p & q & Hp & Hq & Hx & Hy & Hz & _).
  apply load_Some in Hp. rewrite Ha in Hp. injection Hp as <-.
  injection Hpos_a as Hax Hay Haz.
  rewrite Hax in Hx. rewrite Hay in Hy. rewrite Haz in Hz.
  exists c, q. auto 10.
Qed.
End Runs.

(** ** The sample host and the sample machines *)

Lemma drift_step_probe_frame f : @probe_frame (test_host f).
Proof.
  split; cbn; try reflexivity.
  intros r n. unfold drift_step. cbn.
  destruct (sim.particles r) as [ps|]; cbn; [|discriminate].
  rewrite length_fmap. auto.
Qed.

Lemma force_field_keeps_time f : @evaluator_keeps_time (test_host f).
Proof. intros r. reflexivity. Qed.

Lemma force_field_keeps_positions f : @evaluator_keeps_positions (test_host f).
Proof.
  intros r. cbn. unfold force_field_evaluator. cbn.
  destruct (sim.particles r) as [ps|]; cbn; [|reflexivity].
  f_equal. rewrite <- list_fmap_compose. reflexivity.
Qed.

(** The flip of the harmonic machine after the host dropped a particle. *)
Lemma janus_flip_defined_witness :
  flip_buffers_hold (sim.N (simulation harmonic_machine_shrunk))
    (the_janus harmonic_machine_shrunk) /\
  exists m', reb_integrator_janus_flip harmonic_machine_shrunk = Ok m'.
Proof.
  assert (Hhold : flip_buffers_hold (sim.N (simulation harmonic_machine_shrunk))
                    (the_janus harmonic_machine_shrunk)).
  { exists harmonic_prev, harmonic_curr, harmonic_blank.
    split; [reflexivity|]. split; [reflexivity|]. split; [reflexivity|].
    cbn. lia. }
  split; [exact Hhold|].
  exact (proj2 (janus_flip_defined harmonic_machine_shrunk) (or_intror Hhold)).
Defined.

Lemma janus_flip_prefix_witness :
  janus.p_prev (the_janus harmonic_machine_shrunk) = Some harmonic_prev /\
  janus.p_curr (the_janus harmonic_machine_shrunk) = Some harmonic_curr /\
  janus.p_prevrecalc (the_janus harmonic_machine_shrunk) = Some harmonic_blank /\
  (sim.N (simulation harmonic_machine_shrunk) <= length harmonic_prev)%nat /\
  (sim.N (simulation harmonic_machine_shrunk) <= length harmonic_curr)%nat /\
  (sim.N (simulation harmonic_machine_shrunk) <= length harmonic_blank)%nat /\
  exists m',
    reb_integrator_janus_flip harmonic_machine_shrunk = Ok m' /\
    janus.p_prev (the_janus m') =
      Some (take (sim.N (simulation harmonic_machine_shrunk)) harmonic_curr
            ++ drop (sim.N (simulation harmonic_machine_shrunk)) harmonic_prev) /\
    janus.p_curr (the_janus m') =
      Some (take (sim.N (simulation harmonic_machine_shrunk)) harmonic_prev
            ++ drop (sim.N (simulation harmonic_machine_shrunk)) harmonic_curr) /\
    janus.p_prevrecalc (the_janus m') =
      Some (take (sim.N (simulation harmonic_machine_shrunk)) harmonic_curr
            ++ drop (sim.N (simulation harmonic_machine_shrunk)) harmonic_blank) /\
    janus.p_next (the_janus m') = janus.p_next (the_janus harmonic_machine_shrunk) /\
    janus.allocated_N (the_janus m') = janus.allocated_N (the_janus harmonic_machine_shrunk).
Proof.
  assert (HlP : (sim.N (simulation harmonic_machine_shrunk) <= length harmonic_prev)%nat)
    by (cbn; lia).
  assert (HlC : (sim.N (simulation harmonic_machine_shrunk) <= length harmonic_curr)%nat)
    by (cbn; lia).
  assert (HlS : (sim.N (simulation harmonic_machine_shrunk) <= length harmonic_blank)%nat)
    by (cbn; lia).
  split; [reflexivity|]. split; [reflexivity|]. split; [reflexivity|].
  do 3 (split; [assumption|]).
  exact (janus_flip_prefix harmonic_machine_shrunk harmonic_prev harmonic_curr
           harmonic_blank eq_refl eq_refl eq_refl HlP HlC HlS).
Defined.

(** Three steps of the fresh machine: a bootstrap and three core steps. *)
Lemma janus_run_ready_witness :
  @probe_frame (test_host free_field) /\
  @evaluator_frame (test_host free_field) /\
  has_length (sim.N (simulation fresh_machine))
    (sim.particles (simulation fresh_machine)) = true /\
  janus.allocated_N (the_janus fresh_machine) <> sim.N (simulation fresh_machine) /\
  janus_steps (H := test_host free_field) 3 fresh_machine = Ok fresh_after_3 /\
  @janus_ready (test_host free_field) (simulation fresh_after_3) = true /\
  sim.N (simulation fresh_after_3) = sim.N (simulation fresh_machine) /\
  janus.scale (the_janus fresh_after_3) = janus.scale (the_janus fresh_machine) /\
  sim.dt (simulation fresh_after_3) = sim.dt (simulation fresh_machine).
Proof.
  assert (Hprobe := drift_step_probe_frame free_field).
  assert (Hframe := force_field_frame free_field).
  assert (Hps : has_length (sim.N (simulation fresh_machine))
                  (sim.particles (simulation fresh_machine)) = true)
    by (vm_compute; reflexivity).
  assert (Hne : janus.allocated_N (the_janus fresh_machine)
                <> sim.N (simulation fresh_machine)) by (cbn; lia).
  assert (Hrun : janus_steps (H := test_host free_field) 3 fresh_machine
                 = Ok fresh_after_3) by (vm_compute; reflexivity).
  do 5 (split; [assumption|]).
  exact (janus_run_ready (H := test_host free_field) 2 fresh_machine fresh_after_3
           Hprobe Hframe Hps (or_introl Hne) Hrun).
Defined.

(** Five steps of the harmonic machine: five additions of 1/16. *)
Lemma janus_time_accumulates_witness :
  @evaluator_frame (test_host harmonic_field) /\
  @evaluator_keeps_time (test_host harmonic_field) /\
  janus_steps (H := test_host harmonic_field) 5 harmonic_machine = Ok harmonic_after_5 /\
  sim.t (simulation harmonic_after_5) =
    Nat.iter 5 (fun t => dadd t (sim.dt (simulation harmonic_machine)))
      (sim.t (simulation harmonic_machine)) /\
  sim.dt (simulation harmonic_after_5) = sim.dt (simulation harmonic_machine).
Proof.
  assert (Hframe := force_field_frame harmonic_field).
  assert (Htime := force_field_keeps_time harmonic_field).
  assert (Hrun : janus_steps (H := test_host harmonic_field) 5 harmonic_machine
                 = Ok harmonic_after_5) by (vm_compute; reflexivity).
  do 3 (split; [assumption|]).
  exact (janus_time_accumulates (H := test_host harmonic_field) 5 harmonic_machine
           harmonic_after_5 Hframe Htime Hrun).
Defined.

(** The free particle torn down after a hundred steps and stepped again. *)
Lemma janus_restart_witness :
  @probe_frame (test_host free_field) /\
  @evaluator_frame (test_host free_field) /\
  has_length (sim.N (simulation free_after_100))
    (sim.particles (simulation free_after_100)) = true /\
  (0 < sim.N (simulation free_after_100))%nat /\
  reb_integrator_janus_reset free_after_100 = Ok free_after_100_reset /\
  reb_integrator_janus_part1 (H := test_host free_field) free_after_100_reset
    = Ok free_restarted /\
  @janus_ready (test_host free_field) (simulation free_restarted) = true /\
  trace free_restarted =
    trace free_after_100
    ++ [Ev_printf Realloc_line; Ev_reb_step; Ev_reb_update_acceleration] /\
  exists C,
    janus.p_prev (the_janus free_restarted) = Some C /\
    encodes_all 64 (janus.scale (the_janus free_after_100))
      (sim.N (simulation free_after_100))
      (sim.particles (simulation free_after_100)) C.
Proof.
  assert (Hprobe := drift_step_probe_frame free_field).
  assert (Hframe := force_field_frame free_field).
  assert (Hps : has_length (sim.N (simulation free_after_100))
                  (sim.particles (simulation free_after_100)) = true)
    by (vm_compute; reflexivity).
  assert (Hpos : (0 < sim.N (simulation free_after_100))%nat) by (cbn; lia).
  assert (Hreset : reb_integrator_janus_reset free_after_100 = Ok free_after_100_reset)
    by (vm_compute; reflexivity).
  assert (Hrun : reb_integrator_janus_part1 (H := test_host free_field)
                   free_after_100_reset = Ok free_restarted)
    by (vm_compute; reflexivity).
  do 6 (split; [assumption|]).
  exact (janus_restart (H := test_host free_field) free_after_100 free_after_100_reset
           free_restarted Hprobe Hframe Hps Hpos Hreset Hrun).
Defined.

(** One step of the harmonic machine, as the host sees it. *)
Lemma janus_host_state_witness :
  @evaluator_frame (test_host harmonic_field) /\
  @evaluator_keeps_positions (test_host harmonic_field) /\
  @janus_ready (test_host harmonic_field) (simulation harmonic_machine) = true /\
  reb_integrator_janus_part1 (H := test_host harmonic_field) harmonic_machine
    = Ok harmonic_after_1 /\
  exists P C C' A,
    janus.p_prev (the_janus harmonic_machine) = Some P /\
    janus.p_curr (the_janus harmonic_machine) = Some C /\
    janus.p_prev (the_janus harmonic_after_1) = Some C /\
    janus.p_curr (the_janus harmonic_after_1) = Some C' /\
    sim.particles (simulation harmonic_after_1) = Some A /\
    length A = sim.N (simulation harmonic_machine) /\
    forall i, (i < sim.N (simulation harmonic_machine))%nat ->
      exists p c c' a,
        P !! i = Some p /\ C !! i = Some c /\ C' !! i = Some c' /\ A !! i = Some a /\
        real_position a = decoded (janus.scale (the_janus harmonic_machine)) c /\
        central_difference (H := test_host harmonic_field)
          (particle_int.x c') (particle_int.x p)
          (janus.scale (the_janus harmonic_machine))
          (sim.dt (simulation harmonic_machine)) = Ok (particle.vx a) /\
        central_difference (H := test_host harmonic_field)
          (particle_int.y c') (particle_int.y p)
          (janus.scale (the_janus harmonic_machine))
          (sim.dt (simulation harmonic_machine)) = Ok (particle.vy a) /\
        central_difference (H := test_host harmonic_field)
          (particle_int.z c') (particle_int.z p)
          (janus.scale (the_janus harmonic_machine))
          (sim.dt (simulation harmonic_machine)) = Ok (particle.vz a).
Proof.
  assert (Hframe := force_field_frame harmonic_field).
  assert (Hkeep := force_field_keeps_positions harmonic_field).
  assert (Hready : @janus_ready (test_host harmonic_field) (simulation harmonic_machine)
                   = true) by (vm_compute; reflexivity).
  assert (Hrun : reb_integrator_janus_part1 (H := test_host harmonic_field)
                   harmonic_machine = Ok harmonic_after_1)
    by (vm_compute; reflexivity).
  do 4 (split; [assumption|]).
  exact (janus_host_state (H := test_host harmonic_field)
           harmonic_machine harmonic_after_1 Hframe Hkeep Hready Hrun).
Defined.

(** One step of the harmonic machine with a scratch buffer in use. *)
Lemma janus_step_stale_fields_witness :
  @evaluator_frame (test_host harmonic_field) /\
  @janus_ready (test_host harmonic_field) (simulation harmonic_machine_other) = true /\
  reb_integrator_janus_part1 (H := test_host harmonic_field) harmonic_machine_other
    = Ok harmonic_other_after_1 /\
  janus.p_prevrecalc (the_janus harmonic_other_after_1)
    = janus.p_prevrecalc (the_janus harmonic_machine_other) /\
  fmap (M := list) int_velocity <$> janus.p_curr (the_janus harmonic_other_after_1) =
  fmap (M := list) int_velocity <$> janus.p_next (the_janus harmonic_machine_other).
Proof.
  assert (Hframe := force_field_frame harmonic_field).
  assert (Hready : @janus_ready (test_host harmonic_field)
                     (simulation harmonic_machine_other) = true)
    by (vm_compute; reflexivity).
  assert (Hrun : reb_integrator_janus_part1 (H := test_host harmonic_field)
                   harmonic_machine_other = Ok harmonic_other_after_1)
    by (vm_compute; reflexivity).
  do 3 (split; [assumption|]).
  exact (janus_step_stale_fields (H := test_host harmonic_field)
           harmonic_machine_other harmonic_other_after_1 Hframe Hready Hrun).
Defined.


(** One step of the harmonic machine, forward and with the timestep
    negated. *)
Lemma janus_step_ignores_dt_sign_witness :
  @acceleration_by_position (test_host harmonic_field) /\
  @janus_ready (test_host harmonic_field) (simulation harmonic_machine) = true /\
  reb_integrator_janus_part1 (H := test_host harmonic_field) harmonic_machine
    = Ok harmonic_after_1 /\
  exists m'' A A'',
    reb_integrator_janus_part1 (H := test_host harmonic_field)
      (negate_dt harmonic_machine) = Ok m'' /\
    positions (janus.p_curr (the_janus m''))
      = positions (janus.p_curr (the_janus harmonic_after_1)) /\
    janus.p_prev (the_janus m'') = janus.p_prev (the_janus harmonic_after_1) /\
    sim.particles (simulation harmonic_after_1) = Some A /\
    sim.particles (simulation m'') = Some A'' /\
    (real_velocity <$> A'') = ((fun a => negated (real_velocity a)) <$> A).
Proof.
  assert (Hacc := force_field_by_position harmonic_field).
  assert (Hready : @janus_ready (test_host harmonic_field) (simulation harmonic_machine)
                   = true) by (vm_compute; reflexivity).
  assert (Hrun : reb_integrator_janus_part1 (H := test_host harmonic_field)
                   harmonic_machine = Ok harmonic_after_1)
    by (vm_compute; reflexivity).
  do 3 (split; [assumption|]).
  exact (janus_step_ignores_dt_sign (H := test_host harmonic_field)
           harmonic_machine harmonic_after_1 Hacc Hready Hrun).
Defined.

(** A hundred steps of the free particle. *)
Lemma janus_free_run_completes_witness :
  @evaluator_frame (test_host free_field) /\
  @force_free (test_host free_field) /\
  @janus_ready (test_host free_field) (simulation free_machine) = true /\
  is_zero (janus.scale (the_janus free_machine)) = false /\
  is_zero (sim.dt (simulation free_machine)) = false /\
  forcing_scale_finite (janus.scale (the_janus free_machine))
    (sim.dt (simulation free_machine)) = true /\
  exists m',
    janus_steps (H := test_host free_field) 100 free_machine = Ok m' /\
    @janus_ready (test_host free_field) (simulation m') = true.
Proof.
  assert (Hframe := force_field_frame free_field).
  assert (Hfree := free_field_force_free).
  assert (Hready : @janus_ready (test_host free_field) (simulation free_machine) = true)
    by (vm_compute; reflexivity).
  assert (Hs : is_zero (janus.scale (the_janus free_machine)) = false)
    by (vm_compute; reflexivity).
  assert (Hdt : is_zero (sim.dt (simulation free_machine)) = false)
    by (vm_compute; reflexivity).
  assert (Hfin : forcing_scale_finite (janus.scale (the_janus free_machine))
                   (sim.dt (simulation free_machine)) = true)
    by (vm_compute; reflexivity).
  do 6 (split; [assumption|]).
  exact (janus_free_run_completes (H := test_host free_field) 100 free_machine
           Hframe Hfree Hready Hs Hdt Hfin).
Defined.

(** The encoding of one particle into a buffer of two. *)
Lemma to_int_prefix_witness :
  to_int (H := test_host free_field) (Some sample_buffer) (Some sample_particles) 1
    sample_scale = Ok (Some sample_encoded) /\
  exists qs,
    Some sample_encoded = Some qs /\ length qs = length sample_buffer /\
    (1 <= length sample_buffer)%nat /\
    (forall i, (i < 1)%nat ->
       exists p q, load (Some sample_particles) i = Ok p /\ qs !! i = Some q /\
         encodes 64 sample_scale p q) /\
    (forall i, (1 <= i)%nat -> qs !! i = sample_buffer !! i).
Proof.
  assert (Hrun : to_int (H := test_host free_field) (Some sample_buffer)
                   (Some sample_particles) 1 sample_scale = Ok (Some sample_encoded))
    by (vm_compute; reflexivity).
  split; [exact Hrun|].
  exact (to_int_prefix (H := test_host free_field) 1 sample_scale sample_buffer
           (Some sample_particles) (Some sample_encoded) Hrun).
Defined.


(** The bootstrap of the fresh machine. *)
Lemma janus_bootstrap_encodes_witness :
  @probe_frame (test_host free_field) /\
  has_length (sim.N (simulation fresh_machine))
    (sim.particles (simulation fresh_machine)) = true /\
  bootstrap_of (H := test_host free_field) fresh_machine = Ok fresh_bootstrapped /\
  exists P C r_in,
    janus.allocated_N (the_janus fresh_bootstrapped) = sim.N (simulation fresh_machine) /\
    janus.p_prev (the_janus fresh_bootstrapped) = Some P /\
    janus.p_curr (the_janus fresh_bootstrapped) = Some C /\
    has_length (sim.N (simulation fresh_machine))
      (janus.p_next (the_janus fresh_bootstrapped)) = true /\
    has_length (sim.N (simulation fresh_machine))
      (janus.p_prevrecalc (the_janus fresh_bootstrapped)) = true /\
    encodes_all 64 (janus.scale (the_janus fresh_machine))
      (sim.N (simulation fresh_machine)) (sim.particles (simulation fresh_machine)) C /\
    encodes_all 64 (janus.scale (the_janus fresh_machine))
      (sim.N (simulation fresh_machine)) (sim.particles (drift_step r_in)) P /\
    sim.integrator r_in = 1 /\
    sim.dt r_in = dneg (sim.dt (simulation fresh_machine)) /\
    sim.t r_in = sim.t (simulation fresh_machine) /\
    sim.N r_in = sim.N (simulation fresh_machine) /\
    sim.particles r_in = sim.particles (simulation fresh_machine) /\
    janus.p_curr (sim.ri_janus r_in) = Some C.
Proof.
  assert (Hprobe := drift_step_probe_frame free_field).
  assert (Hps : has_length (sim.N (simulation fresh_machine))
                  (sim.particles (simulation fresh_machine)) = true)
    by (vm_compute; reflexivity).
  assert (Hrun : bootstrap_of (H := test_host free_field) fresh_machine
                 = Ok fresh_bootstrapped) by (vm_compute; reflexivity).
  do 3 (split; [assumption|]).
  exact (janus_bootstrap_encodes (H := test_host free_field) fresh_machine
           fresh_bootstrapped Hprobe Hps Hrun).
Defined.

(** Three steps of the fresh machine and back. *)
Lemma janus_return_to_start_witness :
  @probe_frame (test_host free_field) /\
  @acceleration_by_position (test_host free_field) /\
  has_length (sim.N (simulation fresh_machine))
    (sim.particles (simulation fresh_machine)) = true /\
  janus.allocated_N (the_janus fresh_machine) <> sim.N (simulation fresh_machine) /\
  janus_steps (H := test_host free_field) 3 fresh_machine = Ok fresh_after_3 /\
  exists C m2 m3,
    encodes_all 64 (janus.scale (the_janus fresh_machine))
      (sim.N (simulation fresh_machine)) (sim.particles (simulation fresh_machine)) C /\
    reb_integrator_janus_flip fresh_after_3 = Ok m2 /\
    janus_steps (H := test_host free_field) 3 (negate_dt m2) = Ok m3 /\
    positions (janus.p_prev (the_janus m3)) = positions (Some C).
Proof.
  assert (Hprobe := drift_step_probe_frame free_field).
  assert (Hacc := force_field_by_position free_field).
  assert (Hps : has_length (sim.N (simulation fresh_machine))
                  (sim.particles (simulation fresh_machine)) = true)
    by (vm_compute; reflexivity).
  assert (Hne : janus.allocated_N (the_janus fresh_machine)
                <> sim.N (simulation fresh_machine)) by (cbn; lia).
  assert (Hrun : janus_steps (H := test_host free_field) 3 fresh_machine
                 = Ok fresh_after_3) by (vm_compute; reflexivity).
  do 5 (split; [assumption|]).
  exact (janus_return_to_start (H := test_host free_field) 2 fresh_machine fresh_after_3
           Hprobe Hacc Hps Hne Hrun).
Defined.

(** Three steps of the fresh machine: three calls. *)
Lemma janus_one_evaluation_per_step_witness :
  @count_unchanged (test_host free_field) /\
  janus_steps (H := test_host free_field) 3 fresh_machine = Ok fresh_after_3 /\
  evaluator_calls (trace fresh_after_3) = (evaluator_calls (trace fresh_machine) + 3)%nat.
Proof.
  assert (Hcount := test_host_count_unchanged free_field).
  assert (Hrun : janus_steps (H := test_host free_field) 3 fresh_machine
                 = Ok fresh_after_3) by (vm_compute; reflexivity).
  do 2 (split; [assumption|]).
  exact (janus_one_evaluation_per_step (H := test_host free_field) 3 fresh_machine
           fresh_after_3 Hcount Hrun).
Defined.

(** The harmonic machine stepped, torn down and stepped again. *)
Lemma janus_restart_rewinds_witness :
  @probe_frame (test_host harmonic_field) /\
  @evaluator_frame (test_host harmonic_field) /\
  @evaluator_keeps_positions (test_host harmonic_field) /\
  @janus_ready (test_host harmonic_field) (simulation harmonic_machine) = true /\
  (0 < sim.N (simulation harmonic_machine))%nat /\
  reb_integrator_janus_part1 (H := test_host harmonic_field) harmonic_machine
    = Ok harmonic_after_1 /\
  reb_integrator_janus_reset harmonic_after_1 = Ok harmonic_after_1_reset /\
  reb_integrator_janus_part1 (H := test_host harmonic_field) harmonic_after_1_reset
    = Ok harmonic_restarted /\
  exists C C',
    janus.p_curr (the_janus harmonic_machine) = Some C /\
    janus.p_prev (the_janus harmonic_restarted) = Some C' /\
    forall i, (i < sim.N (simulation harmonic_machine))%nat ->
      exists c q,
        C !! i = Some c /\ C' !! i = Some q /\
        double_to_int 64
          (dmul (ddiv (double_of_Z (particle_int.x c))
                   (janus.scale (the_janus harmonic_machine)))
             (janus.scale (the_janus harmonic_machine))) = Ok (particle_int.x q) /\
        double_to_int 64
          (dmul (ddiv (double_of_Z (particle_int.y c))
                   (janus.scale (the_janus harmonic_machine)))
             (janus.scale (the_janus harmonic_machine))) = Ok (particle_int.y q) /\
        double_to_int 64
          (dmul (ddiv (double_of_Z (particle_int.z c))
                   (janus.scale (the_janus harmonic_machine)))
             (janus.scale (the_janus harmonic_machine))) = Ok (particle_int.z q).
Proof.
  assert (Hprobe := drift_step_probe_frame harmonic_field).
  assert (Hframe := force_field_frame harmonic_field).
  assert (Hkeep := force_field_keeps_positions harmonic_field).
  assert (Hready : @janus_ready (test_host harmonic_field) (simulation harmonic_machine)
                   = true) by (vm_compute; reflexivity).
  assert (Hpos : (0 < sim.N (simulation harmonic_machine))%nat) by (cbn; lia).
  assert (Hstep : reb_integrator_janus_part1 (H := test_host harmonic_field)
                    harmonic_machine = Ok harmonic_after_1)
    by (vm_compute; reflexivity).
  assert (Hreset : reb_integrator_janus_reset harmonic_after_1 = Ok harmonic_after_1_reset)
    by (vm_compute; reflexivity).
  assert (Hrun : reb_integrator_janus_part1 (H := test_host harmonic_field)
                   harmonic_after_1_reset = Ok harmonic_restarted)
    by (vm_compute; reflexivity).
  do 8 (split; [assumption|]).
  exact (janus_restart_rewinds (H := test_host harmonic_field) harmonic_machine
           harmonic_after_1 harmonic_after_1_reset harmonic_restarted
           Hprobe Hframe Hkeep Hready Hpos Hstep Hreset Hrun).
Defined.
